(** * json_configs: a shallow embedding of the type registry, the boxing
      protocol, the hook registry and the [get_config] / [configure]
      dispatch of [json_configs/__init__.py].

    Python values are an inductive type, dictionaries of the program's own
    state ([Context.registry], [GET_CONFIG_REGISTRY], ...) are [gmap]s, sets
    are [gset]s, Python dictionaries that travel as values keep their
    insertion order (association lists), exceptions are a [Raise] outcome.
    Hooks stored in the registries are first-order descriptions of the
    functions the module defines, interpreted by [get_config] and
    [configure]. *)

From Stdlib Require Import ZArith String List Bool SpecFloat.
From stdpp Require Import base option gmap strings list.

Import ListNotations.
Local Open Scope string_scope.
Local Open Scope bool_scope.

(** ** Runtime types *)

(** A class object.  [__module__] and [__name__] are what the library reads
    from it; [ty_serial] separates distinct class objects that share both
    (classes created inside a function body, reloaded modules). *)
Record pytype := PyType {
  ty_module : string;
  ty_name : string;
  ty_serial : N
}.

#[global] Instance pytype_eq_dec : EqDecision pytype.
Proof. solve_decision. Defined.

#[global] Instance pytype_countable : Countable pytype.
Proof.
  refine (inj_countable' (fun t => (ty_module t, ty_name t, ty_serial t))
                         (fun '(m, n, s) => PyType m n s) _).
  by intros [].
Defined.

Definition builtin (class_name : string) : pytype := PyType "builtins" class_name 0.

Definition py_object : pytype := builtin "object".
Definition py_type : pytype := builtin "type".
Definition py_NoneType : pytype := builtin "NoneType".
Definition py_bool : pytype := builtin "bool".
Definition py_int : pytype := builtin "int".
Definition py_float : pytype := builtin "float".
Definition py_str : pytype := builtin "str".
Definition py_list : pytype := builtin "list".
Definition py_tuple : pytype := builtin "tuple".
Definition py_set : pytype := builtin "set".
Definition py_frozenset : pytype := builtin "frozenset".
Definition py_dict : pytype := builtin "dict".
Definition py_function : pytype := builtin "function".
Definition py_ABCMeta : pytype := PyType "abc" "ABCMeta" 0.
Definition py_datetime : pytype := PyType "datetime" "datetime" 0.

(** ** Values *)

(** The fragment of Python values the library's own code paths produce and
    consume.  A float is its IEEE-754 description; a dictionary is the list
    of its items in insertion order; an instance of a user class carries its
    class, its identity and the attributes [dir] lists, in [dir]'s order;
    [VGenerator configs context] is the generator object that
    [configure_iterable] returns for the list [configs]. *)
#[warning="-register-all"]
Inductive value :=
| VNone
| VBool (b : bool)
| VInt (n : Z)
| VFloat (f : spec_float)
| VStr (s : string)
| VList (xs : list value)
| VTuple (xs : list value)
| VDict (items : list (value * value))
| VType (t : pytype)
| VFunc (qualname : string)
| VDatetime (microseconds : Z)
| VObj (cls : pytype) (oid : N) (attrs : list (string * value))
| VGenerator (configs : list value) (context : option string).

(** ** Outcomes *)

(** inspect.Traceback, as far as the messages read it. *)
Record Traceback := { filename : string; lineno : N }.

Inductive exn :=
| NamingConflict (previous : Traceback)
    (* NameError of register / config_getter / config_setter *)
| AccessDenied (module_name class_name : value) (context_name : string)
    (* NameError of Context.get_type *)
| NotAccessible (t : pytype) (context_name : string)
    (* ValueError of Context.locate *)
| NotConfigurable (t : pytype)
    (* TypeError of get_config / configure *)
| KeyError
| TypeError
| ValueError
| AttributeError
| AssertionError
| ImportError
| ForeignError (message : string).

(** [Diverge] is the model running out of recursion budget; no function
    without a budget returns it. *)
Inductive result (A : Type) :=
| Ok (a : A)
| Raise (e : exn)
| Diverge.
Arguments Ok {A} a.
Arguments Raise {A} e.
Arguments Diverge {A}.

#[global] Instance result_ret : MRet result := fun _ a => Ok a.
#[global] Instance result_bind : MBind result := fun _ _ k m =>
  match m with
  | Ok a => k a
  | Raise e => Raise e
  | Diverge => Diverge
  end.

#[global] Instance result_fmap : FMap result := fun _ _ f m =>
  match m with
  | Ok a => Ok (f a)
  | Raise e => Raise e
  | Diverge => Diverge
  end.

Definition assert (b : bool) : result unit :=
  if b then Ok tt else Raise AssertionError.

Definition from_option {A} (e : exn) (o : option A) : result A :=
  match o with Some a => Ok a | None => Raise e end.

(** Runs the computations of a list in order; the first exception ends it. *)
Fixpoint sequence {A} (ms : list (result A)) : result (list A) :=
  match ms with
  | [] => Ok []
  | m :: ms' => a ← m; r ← sequence ms'; Ok (a :: r)
  end.

(** ** The interpreter's world *)

(** A module object: its optional [__all__] and its attributes, in [dir]'s
    order. *)
Record PyModule := {
  mod_all : option (list string);
  mod_dict : list (string * value)
}.

Definition startswith_underscore (s : string) : bool := String.prefix "_" s.

Fixpoint assoc {A} (k : string) (l : list (string * A)) : option A :=
  match l with
  | [] => None
  | (k', a) :: l' => if String.eqb k k' then Some a else assoc k l'
  end.

Definition dir_module (m : PyModule) : list string := map fst (mod_dict m).
Definition hasattr_module (m : PyModule) (attr : string) : bool :=
  bool_decide (is_Some (assoc attr (mod_dict m))).

(** What the library asks of the Python runtime and of the classes the
    embedder defines.  [sys_modules] is [sys.modules]; [find_module] is what
    the import system loads for a name that is not in [sys.modules];
    [builtins] and [datetime] are the two modules the library imports to
    build a context's allow list. *)
Inductive configurable_class :=
| CustomConfigurable
    (encode : value -> option string -> result value)
    (decode : value -> value -> option string -> result value)
| AutoConfiguredClass
    (is_unconfigured_property : string -> bool)
    (get_property_type : string -> option pytype).

Record World := {
  sys_modules : string -> option PyModule;
  find_module : string -> option PyModule;
  builtins : PyModule;
  datetime : PyModule;
  (* proper superclasses of a class the embedder defines *)
  superclasses : pytype -> list pytype;
  (* [type(cls)] for a class object *)
  metaclass : pytype -> pytype;
  (* [Some] for the subclasses of Configurable *)
  configurable_class_of : pytype -> option configurable_class;
  (* [Some] for the subclasses of WrapAutoConfig: their [wrapped] class
     attribute, when it is a class *)
  wrap_auto_config_class_of : pytype -> option (option pytype);
  strftime : Z -> string -> string;
  strptime : string -> string -> result Z;
  (* calling a class object with positional and keyword arguments *)
  call_type : pytype -> list value -> list (string * value) -> result value;
  (* a property of the class that has no setter *)
  readonly_property : pytype -> string -> bool;
  (* what [dir] and [getattr] give for a value that is not an instance of a
     class of the embedder *)
  builtin_attributes : value -> list (string * value)
}.

(** importlib.import_module *)
Definition import_module (w : World) (module_name : string) : result PyModule :=
  match sys_modules w module_name with
  | Some m => Ok m
  | None => from_option ImportError (find_module w module_name)
  end.

Definition getattr_module (m : PyModule) (attr : string) : result value :=
  from_option AttributeError (assoc attr (mod_dict m)).

Definition is_type_object (v : value) : bool :=
  match v with VType _ => true | _ => false end.

(** ** The class hierarchy *)

Definition py_generator : pytype := builtin "generator".
Definition py_date : pytype := PyType "datetime" "date" 0.

(** The classes of the interpreter itself that the model knows: their place
    in the class hierarchy is fixed, the world is asked about every other
    class. *)
Definition native_types : list pytype :=
  [py_object; py_type; py_NoneType; py_bool; py_int; py_float; py_str; py_list;
   py_tuple; py_set; py_frozenset; py_dict; py_function; py_generator;
   py_ABCMeta; py_datetime; py_date].

Definition is_native (t : pytype) : bool := bool_decide (t ∈ native_types).

(** The proper superclasses of a class, [object] apart. *)
Definition bases (w : World) (t : pytype) : list pytype :=
  if is_native t then
    if decide (t = py_bool) then [py_int]
    else if decide (t = py_datetime) then [py_date]
    else if decide (t = py_ABCMeta) then [py_type]
    else []
  else superclasses w t.

Definition issubclass (w : World) (sub super : pytype) : bool :=
  bool_decide (sub = super)
  || bool_decide (super = py_object)
  || bool_decide (super ∈ bases w sub).

(** [issubclass(type_, Configurable)], with the class's implementation. *)
Definition Configurable_class (w : World) (type_ : pytype) : option configurable_class :=
  if is_native type_ then None else configurable_class_of w type_.

(** [issubclass(type_, WrapAutoConfig)], with [type_.wrapped]. *)
Definition WrapAutoConfig_class (w : World) (type_ : pytype) : option (option pytype) :=
  if is_native type_ then None else wrap_auto_config_class_of w type_.

(** ** Context *)

Record Context := {
  name : string;
  registry : gmap (string * string) pytype;
  registered_from : gmap (string * string) Traceback;
  location_map : gmap pytype (string * string);
  all_modules_allowed_by_default : bool;
  imported_modules_allowed_by_default : bool;
  public_classes_allowed_by_default : bool;
  specifically_allowed_modules : gset string;
  specifically_denied_modules : gset string;
  specifically_allowed_classes : gset (string * string);
  specifically_denied_classes : gset (string * string)
}.

(** The names [n] of [dir(module)] with [not n.startswith('_')] and
    [isinstance(getattr(module, n), type)]. *)
Definition public_type_names (m : PyModule) : list string :=
  map fst (filter (fun '(n, v) => negb (startswith_underscore n) && is_type_object v = true)
                  (mod_dict m)).

(** Context.__init__ *)
Definition new_Context (w : World) (name_ : string) : Context := {|
  name := name_;
  registry := ∅;
  registered_from := ∅;
  location_map := ∅;
  all_modules_allowed_by_default := false;
  imported_modules_allowed_by_default := false;
  public_classes_allowed_by_default := false;
  specifically_allowed_modules := {[ "builtins" ]};
  specifically_denied_modules := ∅;
  specifically_allowed_classes :=
    list_to_set (map (pair "builtins") (public_type_names (builtins w)))
    ∪ list_to_set (map (pair "datetime") (public_type_names (datetime w)))
    ∪ {[ ("abc", "ABCMeta") ]};
  specifically_denied_classes := ∅
|}.

Section ContextMethods.
Variable w : World.
Variable self : Context.

Definition module_access_is_allowed (module_name : string) : bool :=
  if decide (module_name ∈ specifically_denied_modules self) then false
  else if decide (module_name ∈ specifically_allowed_modules self) then true
  else if imported_modules_allowed_by_default self then
    all_modules_allowed_by_default self
    || bool_decide (is_Some (sys_modules w module_name))
  else false.

Definition get_module (module_name : string) (load_module : bool)
  : result (option PyModule) :=
  if negb (module_access_is_allowed module_name) then Ok None
  else if load_module then Some <$> import_module w module_name
  else Ok (sys_modules w module_name).

Definition get_public_names (module : PyModule) : list string :=
  let listing :=
    match mod_all module with
    | Some names => names
    | None => dir_module module
    end in
  filter (fun n => hasattr_module module n && negb (startswith_underscore n) = true)
         listing.

Definition class_access_is_allowed (module_name class_name : string)
    (load_module : bool) : result bool :=
  if decide ((module_name, class_name) ∈ specifically_denied_classes self) then Ok false
  else if decide ((module_name, class_name) ∈ specifically_allowed_classes self) then Ok true
  else if negb (public_classes_allowed_by_default self) then Ok false
  else
    module ← get_module module_name load_module;
    match module with
    | None => Ok false
    | Some m => Ok (bool_decide (class_name ∈ get_public_names m))
    end.

Definition get_type (module_name class_name : string) (load_module : bool)
  : result pytype :=
  let key := (module_name, class_name) in
  match registry self !! key with
  | Some t => Ok t
  | None =>
      allowed ← class_access_is_allowed module_name class_name load_module;
      if negb allowed then Raise (AccessDenied (VStr module_name) (VStr class_name) (name self))
      else
        module ← import_module w module_name;
        result_ ← getattr_module module class_name;
        match result_ with
        | VType t => Ok t
        | _ => Raise TypeError
        end
  end.

Definition locate (type_ : pytype) : result (string * string) :=
  match location_map self !! type_ with
  | Some location => Ok location
  | None =>
      found ← get_type (ty_module type_) (ty_name type_) false;
      if negb (bool_decide (found = type_))
      then Raise (NotAccessible type_ (name self))
      else Ok (ty_module type_, ty_name type_)
  end.
End ContextMethods.

(** ** Hooks *)

(** The dataclass WrapAutoConfig (its [instance] field is unused). *)
Record WrapAutoConfig := {
  wrapped : pytype;
  typed : bool;
  unconfigured_properties : option (list string);
  property_types : option (list (string * pytype));
  init_args : option (list string);
  init_kwargs : option (list (string * string))
}.

(** The functions a [GET_CONFIG_REGISTRY] entry can be: the getters the
    module defines, the wrapper [config_type_boxer] builds around one, the
    bound method of a WrapAutoConfig, or a function of the embedder. *)
Inductive getter :=
| get_simple_config
| get_python_type_config
| get_datetime_config
| get_iterable_config
| get_mapping_config
| config_type_boxer (type_ : pytype) (func : getter)
| WrapAutoConfig_get_config (self : WrapAutoConfig)
| getter_function (f : value -> option string -> result value).

Inductive setter :=
| configure_simple
| configure_python_type
| configure_datetime
| configure_iterable
| configure_mapping
| config_type_unboxer (func : setter)
| WrapAutoConfig_configure (self : WrapAutoConfig)
| setter_function (f : value -> value -> option string -> result value).

(** The module's global dictionaries. *)
Record Globals := {
  CONTEXTS : gmap (option string) Context;
  GET_CONFIG_REGISTRY : gmap pytype getter;
  CONFIGURE_REGISTRY : gmap pytype setter;
  GET_CONFIG_FROM : gmap pytype Traceback;
  CONFIGURE_FROM : gmap pytype Traceback
}.

Definition set_getter (type_ : pytype) (wrapper : getter) (info : Traceback)
    (g : Globals) : Globals := {|
  CONTEXTS := CONTEXTS g;
  GET_CONFIG_REGISTRY := <[type_ := wrapper]> (GET_CONFIG_REGISTRY g);
  CONFIGURE_REGISTRY := CONFIGURE_REGISTRY g;
  GET_CONFIG_FROM := <[type_ := info]> (GET_CONFIG_FROM g);
  CONFIGURE_FROM := CONFIGURE_FROM g
|}.

Definition set_setter (type_ : pytype) (func : setter) (info : Traceback)
    (g : Globals) : Globals := {|
  CONTEXTS := CONTEXTS g;
  GET_CONFIG_REGISTRY := GET_CONFIG_REGISTRY g;
  CONFIGURE_REGISTRY := <[type_ := func]> (CONFIGURE_REGISTRY g);
  GET_CONFIG_FROM := GET_CONFIG_FROM g;
  CONFIGURE_FROM := <[type_ := info]> (CONFIGURE_FROM g)
|}.

Definition set_context (key : option string) (c : Context) (g : Globals) : Globals := {|
  CONTEXTS := <[key := c]> (CONTEXTS g);
  GET_CONFIG_REGISTRY := GET_CONFIG_REGISTRY g;
  CONFIGURE_REGISTRY := CONFIGURE_REGISTRY g;
  GET_CONFIG_FROM := GET_CONFIG_FROM g;
  CONFIGURE_FROM := CONFIGURE_FROM g
|}.

(** What [config_getter] hands back without [func]: the closure
    [lambda f, ts=types, td=typed: config_getter( *ts, typed=td, func=f)]. *)
Record getter_decorator := { getter_ts : list pytype; getter_td : bool }.

(** [lambda f, t=types: config_setter( *t, func=f)] *)
Record setter_decorator := { setter_t : list pytype }.

(** The first loop of [config_getter] / [config_setter]: the first type that
    already has an entry raises, with the provenance of that entry. *)
Fixpoint check_unregistered {H} (types : list pytype) (reg : gmap pytype H)
    (from : gmap pytype Traceback) : result unit :=
  match types with
  | [] => Ok tt
  | type_ :: rest =>
      match reg !! type_ with
      | Some _ =>
          info ← from_option KeyError (from !! type_);
          Raise (NamingConflict info)
      | None => check_unregistered rest reg from
      end
  end.

(** [caller] is what [get_caller_info()] finds: the first frame outside the
    package. *)
Definition config_getter (caller : Traceback) (types : list pytype) (typed_ : bool)
    (func : option getter) (overwrite : bool) (g : Globals)
  : result (Globals * (getter + getter_decorator)) :=
  (if overwrite then Ok tt
   else check_unregistered types (GET_CONFIG_REGISTRY g) (GET_CONFIG_FROM g));;
  match func with
  | None => Ok (g, inr {| getter_ts := types; getter_td := typed_ |})
  | Some f =>
      Ok (foldl (fun g type_ =>
                   let wrapper := if typed_ then config_type_boxer type_ f else f in
                   set_getter type_ wrapper caller g) g types,
          inl f)
  end.

(** Applying the closure to the decorated function. *)
Definition apply_getter_decorator (caller : Traceback) (d : getter_decorator)
    (f : getter) (g : Globals) : result (Globals * (getter + getter_decorator)) :=
  config_getter caller (getter_ts d) (getter_td d) (Some f) false g.

Definition config_setter (caller : Traceback) (types : list pytype)
    (func : option setter) (overwrite : bool) (g : Globals)
  : result (Globals * (setter + setter_decorator)) :=
  (if overwrite then Ok tt
   else check_unregistered types (CONFIGURE_REGISTRY g) (CONFIGURE_FROM g));;
  match func with
  | None => Ok (g, inr {| setter_t := types |})
  | Some f =>
      Ok (foldl (fun g type_ => set_setter type_ f caller g) g types, inl f)
  end.

Definition apply_setter_decorator (caller : Traceback) (d : setter_decorator)
    (f : setter) (g : Globals) : result (Globals * (setter + setter_decorator)) :=
  config_setter caller (setter_t d) (Some f) false g.

Definition is_configurable (w : World) (g : Globals) (type_ : pytype) : bool :=
  bool_decide (is_Some (Configurable_class w type_))
  || (bool_decide (is_Some (GET_CONFIG_REGISTRY g !! type_))
      && bool_decide (is_Some (CONFIGURE_REGISTRY g !! type_))).

(** WrapAutoConfig.__post_init__: the two registrations.  What the first one
    wrote stays when the second one raises. *)
Definition WrapAutoConfig_post_init (caller : Traceback) (self : WrapAutoConfig)
    (g : Globals) : Globals * result unit :=
  match config_getter caller [wrapped self] (typed self)
          (Some (WrapAutoConfig_get_config self)) false g with
  | Ok (g1, _) =>
      match config_setter caller [wrapped self]
              (Some (WrapAutoConfig_configure self)) false g1 with
      | Ok (g2, _) => (g2, Ok tt)
      | Raise e => (g1, Raise e)
      | Diverge => (g1, Diverge)
      end
  | Raise e => (g, Raise e)
  | Diverge => (g, Diverge)
  end.

Definition auto_config (caller : Traceback) (type_ : pytype) (typed_ : bool)
    (unconfigured : option (list string)) (types : option (list (string * pytype)))
    (g : Globals) : Globals * result unit :=
  WrapAutoConfig_post_init caller
    {| wrapped := type_; typed := typed_; unconfigured_properties := unconfigured;
       property_types := types; init_args := None; init_kwargs := None |} g.

(** ** Context.register *)

(** The [module_name] / [class_name] argument when a sequence of types is
    registered: absent, one string, or one entry per type. *)
Inductive names_arg :=
| no_names
| same_name (s : string)
| each_name (l : list (option string)).

Inductive register_target :=
| one_type (type_ : pytype) (module_name class_name : option string)
| many_types (types : list pytype) (module_name class_name : names_arg).

(** The lines before the loop: the three sequences that are zipped. *)
Definition register_items (target : register_target)
  : result (list (pytype * option string * option string)) :=
  match target with
  | one_type type_ module_name class_name => Ok [(type_, module_name, class_name)]
  | many_types types module_name class_name =>
      let module_names :=
        match module_name with
        | no_names => replicate (length types) None
        | same_name s => replicate (length types) (Some s)
        | each_name l => l
        end in
      assert (bool_decide (length module_names = length types));;
      class_names ←
        match class_name with
        | no_names => Ok (replicate (length types) None)
        | same_name _ => Raise AssertionError
        | each_name l => Ok l
        end;
      assert (bool_decide (length class_names = length types));;
      Ok (zip (zip types module_names) class_names)
  end.

Definition set_registration (key : string * string) (type_ : pytype)
    (info : Traceback) (locations : gmap pytype (string * string))
    (self : Context) : Context := {|
  name := name self;
  registry := <[key := type_]> (registry self);
  registered_from := <[key := info]> (registered_from self);
  location_map := <[type_ := key]> locations;
  all_modules_allowed_by_default := all_modules_allowed_by_default self;
  imported_modules_allowed_by_default := imported_modules_allowed_by_default self;
  public_classes_allowed_by_default := public_classes_allowed_by_default self;
  specifically_allowed_modules := specifically_allowed_modules self;
  specifically_denied_modules := specifically_denied_modules self;
  specifically_allowed_classes := specifically_allowed_classes self;
  specifically_denied_classes := specifically_denied_classes self
|}.

Section Register.
Variable w : World.
Variable caller : Traceback.
Variables overwrite auto : bool.

(** The part of the loop body that follows the choice of [type_]: it only
    touches the context, and raises before it writes. *)
Definition register_key (type_ : pytype) (module_name class_name : option string)
    (self : Context) : result Context :=
  let module_name := default (ty_module type_) module_name in
  let class_name := default (ty_name type_) class_name in
  let key := (module_name, class_name) in
  (if negb (overwrite
            || bool_decide (registry self !! key = None)
            || bool_decide (registry self !! key = Some type_))
   then
     info ← from_option KeyError (registered_from self !! key);
     Raise (NamingConflict info)
   else Ok tt);;
  locations ←
    (if overwrite then
       match registry self !! key with
       | Some old =>
           match location_map self !! old with
           | Some _ => Ok (delete old (location_map self))
           | None => Raise KeyError
           end
       | None => Ok (location_map self)
       end
     else Ok (location_map self));
  Ok (set_registration key type_ caller locations self).

(** One turn of the loop. *)
Definition register_one (item : pytype * option string * option string)
    (self : Context) (g : Globals) : (Context * Globals) * result unit :=
  let '(type_, module_name, class_name) := item in
  let '(type_, g, chosen) :=
    match WrapAutoConfig_class w type_ with
    | Some (Some wrapped_) => (wrapped_, g, Ok tt)
    | Some None => (type_, g, Raise AssertionError)
    | None =>
        if auto && negb (is_configurable w g type_)
        then let '(g', r) := auto_config caller type_ true None None g in (type_, g', r)
        else (type_, g, Ok tt)
    end in
  match chosen with
  | Ok _ =>
      match register_key type_ module_name class_name self with
      | Ok self' => ((self', g), Ok tt)
      | Raise e => ((self, g), Raise e)
      | Diverge => ((self, g), Diverge)
      end
  | Raise e => ((self, g), Raise e)
  | Diverge => ((self, g), Diverge)
  end.

Fixpoint register_loop (items : list (pytype * option string * option string))
    (self : Context) (g : Globals) : (Context * Globals) * result unit :=
  match items with
  | [] => ((self, g), Ok tt)
  | item :: rest =>
      match register_one item self g with
      | ((self', g'), Ok _) => register_loop rest self' g'
      | stopped => stopped
      end
  end.

Definition register (target : register_target) (self : Context) (g : Globals)
  : (Context * Globals) * result unit :=
  match register_items target with
  | Ok items => register_loop items self g
  | Raise e => ((self, g), Raise e)
  | Diverge => ((self, g), Diverge)
  end.
End Register.

(** ** Python equality, hashing and dictionaries *)

Definition signed (negative : bool) (m : Z) : Z := if negative then (- m)%Z else m.

(** [f == n] for a float and an int: exact. *)
Definition float_eq_int (f : spec_float) (n : Z) : bool :=
  match f with
  | S754_zero _ => (n =? 0)%Z
  | S754_finite s m e =>
      if (0 <=? e)%Z then (signed s (Z.pos m * 2 ^ e) =? n)%Z
      else ((Z.pos m mod 2 ^ (- e) =? 0) && (signed s (Z.pos m / 2 ^ (- e)) =? n))%Z
  | _ => false
  end.

(** bool, int and float compare by numeric value. *)
Definition as_number (v : value) : option (Z + spec_float) :=
  match v with
  | VBool b => Some (inl (if b then 1 else 0)%Z)
  | VInt n => Some (inl n)
  | VFloat f => Some (inr f)
  | _ => None
  end.

Definition number_eq (a b : Z + spec_float) : bool :=
  match a, b with
  | inl m, inl n => (m =? n)%Z
  | inl m, inr f | inr f, inl m => float_eq_int f m
  | inr f, inr f' => SFeqb f f'
  end.

(** [a == b] on the fragment.  Instances of the embedder's classes, functions
    and generators compare by identity. *)
Fixpoint py_eq (a b : value) {struct a} : bool :=
  match a with
  | VNone => match b with VNone => true | _ => false end
  | VBool _ | VInt _ | VFloat _ =>
      match as_number a, as_number b with
      | Some x, Some y => number_eq x y
      | _, _ => false
      end
  | VStr s => match b with VStr t => String.eqb s t | _ => false end
  | VList xs =>
      match b with
      | VList ys =>
          (fix all2 (xs ys : list value) : bool :=
             match xs, ys with
             | [], [] => true
             | x :: xs', y :: ys' => py_eq x y && all2 xs' ys'
             | _, _ => false
             end) xs ys
      | _ => false
      end
  | VTuple xs =>
      match b with
      | VTuple ys =>
          (fix all2 (xs ys : list value) : bool :=
             match xs, ys with
             | [], [] => true
             | x :: xs', y :: ys' => py_eq x y && all2 xs' ys'
             | _, _ => false
             end) xs ys
      | _ => false
      end
  | VDict items =>
      match b with
      | VDict items' =>
          (length items =? length items')%nat
          && (fix every (kvs : list (value * value)) : bool :=
                match kvs with
                | [] => true
                | (k, v) :: rest =>
                    (fix find (l : list (value * value)) : bool :=
                       match l with
                       | [] => false
                       | (k', v') :: l' => if py_eq k k' then py_eq v v' else find l'
                       end) items'
                    && every rest
                end) items
      | _ => false
      end
  | VType t => match b with VType u => bool_decide (t = u) | _ => false end
  | VFunc q => match b with VFunc q' => String.eqb q q' | _ => false end
  | VDatetime z => match b with VDatetime z' => (z =? z')%Z | _ => false end
  | VObj cls oid _ =>
      match b with
      | VObj cls' oid' _ => bool_decide (cls = cls') && (oid =? oid')%N
      | _ => false
      end
  | VGenerator _ _ => false
  end.

Fixpoint hashable (v : value) : bool :=
  match v with
  | VList _ | VDict _ => false
  | VTuple xs => forallb hashable xs
  | _ => true
  end.

(** [d.get(key)] on the items of a dictionary. *)
Fixpoint dict_get (key : value) (items : list (value * value)) : option value :=
  match items with
  | [] => None
  | (k, v) :: rest => if py_eq k key then Some v else dict_get key rest
  end.

(** [d[key]] *)
Definition dict_getitem (key : value) (items : list (value * value)) : result value :=
  if hashable key then from_option KeyError (dict_get key items) else Raise TypeError.

Fixpoint dict_replace (key v : value) (items : list (value * value))
  : list (value * value) :=
  match items with
  | [] => []
  | (k, v') :: rest =>
      if py_eq k key then (k, v) :: rest else (k, v') :: dict_replace key v rest
  end.

(** [d[key] = v]: an existing key keeps its place (and its key object), a
    new one goes last. *)
Definition dict_setitem (key v : value) (items : list (value * value))
  : result (list (value * value)) :=
  if negb (hashable key) then Raise TypeError
  else match dict_get key items with
       | Some _ => Ok (dict_replace key v items)
       | None => Ok (items ++ [(key, v)])%list
       end.

(** A dict display or comprehension: the items are stored one by one. *)
Fixpoint dict_of_items (acc pairs : list (value * value))
  : result (list (value * value)) :=
  match pairs with
  | [] => Ok acc
  | (k, v) :: rest => acc' ← dict_setitem k v acc; dict_of_items acc' rest
  end.

(** [dict(k1=v1, ...)], the keyword names being distinct. *)
Definition kwargs_dict (pairs : list (string * value)) : value :=
  VDict (map (fun '(k, v) => (VStr k, v)) pairs).

Definition is_dict (v : value) : bool :=
  match v with VDict _ => true | _ => false end.

Definition is_str (v : value) : bool :=
  match v with VStr _ => true | _ => false end.

Definition box_keys : list string := ["__module__"; "__class__"; "__instance__"].

(** [config.keys() == {'__module__', '__class__', '__instance__'}]: a keys
    view equals a set when both have the same size and every key is in the
    set. *)
Definition keys_are_box_keys (items : list (value * value)) : bool :=
  (length items =? 3)%nat
  && forallb (fun kv => match fst kv with
                        | VStr s => bool_decide (s ∈ box_keys)
                        | _ => false
                        end) items.

(** [isinstance(config, dict) and config.keys() == {...}] *)
Definition is_boxed (config : value) : bool :=
  match config with
  | VDict items => keys_are_box_keys items
  | _ => false
  end.

(** ** type, issubclass, isinstance *)

Definition type_of (w : World) (v : value) : pytype :=
  match v with
  | VNone => py_NoneType
  | VBool _ => py_bool
  | VInt _ => py_int
  | VFloat _ => py_float
  | VStr _ => py_str
  | VList _ => py_list
  | VTuple _ => py_tuple
  | VDict _ => py_dict
  | VType t => if is_native t then py_type else metaclass w t
  | VFunc _ => py_function
  | VDatetime _ => py_datetime
  | VObj cls _ _ => cls
  | VGenerator _ _ => py_generator
  end.

Definition isinstance (w : World) (v : value) (type_ : pytype) : bool :=
  issubclass w (type_of w v) type_.

(** [isinstance(obj, Configurable)], with the implementation of the class. *)
Definition Configurable_of (w : World) (obj : value) : option configurable_class :=
  Configurable_class w (type_of w obj).

(** [callable(v)] *)
Definition callable (v : value) : bool :=
  match v with VFunc _ | VType _ => true | _ => false end.

Definition dir_value (w : World) (v : value) : list string :=
  match v with
  | VObj _ _ attrs => map fst attrs
  | _ => map fst (builtin_attributes w v)
  end.

(** [getattr(v, name, None)] *)
Definition getattr_default_None (w : World) (v : value) (attr : string) : value :=
  default VNone
    (match v with
     | VObj _ _ attrs => assoc attr attrs
     | _ => assoc attr (builtin_attributes w v)
     end).

(** ** Boxing protocol *)

Definition get_context (w : World) (name_ : option string) (add : bool) (g : Globals)
  : result (Context * Globals) :=
  match CONTEXTS g !! name_ with
  | Some c => Ok (c, g)
  | None =>
      if add then
        let c := new_Context w (default "None" name_) in
        Ok (c, set_context name_ c g)
      else Raise KeyError
  end.

(** [Context.get_type] on the two values found under a tag.  Only strings
    can name a registered or an accessible class. *)
Definition get_type_of_tag (w : World) (self : Context) (module_name class_name : value)
  : result pytype :=
  match module_name, class_name with
  | VStr m, VStr c => get_type w self m c false
  | _, _ =>
      if hashable module_name && hashable class_name
      then Raise (AccessDenied module_name class_name (name self))
      else Raise TypeError
  end.

(** [config[key]] *)
Definition subscript (config : value) (key : string) : result value :=
  match config with
  | VDict items => dict_getitem (VStr key) items
  | _ => Raise TypeError
  end.

Section Boxing.
Variable w : World.
Variable g : Globals.

(** The condition of [box_type]'s [if]. *)
Definition is_boxed_as (config : value) (module_name class_name : string)
  : result bool :=
  if negb (is_boxed config) then Ok false
  else
    m ← subscript config "__module__";
    if negb (py_eq m (VStr module_name)) then Ok false
    else
      c ← subscript config "__class__";
      Ok (py_eq c (VStr class_name)).

Definition box (module_name class_name : string) (config : value) : value :=
  kwargs_dict [("__module__", VStr module_name);
               ("__class__", VStr class_name);
               ("__instance__", config)].

Definition box_type (type_ : pytype) (config : value) (context : option string)
  : result value :=
  '(ctx, _) ← get_context w context false g;
  '(module_name, class_name) ← locate w ctx type_;
  same ← is_boxed_as config module_name class_name;
  if (same : bool) then Ok config
  else Ok (box module_name class_name config).

Definition unbox_type (config : value) (context : option string)
  : result (pytype * value) :=
  if is_boxed config then
    '(ctx, _) ← get_context w context false g;
    m ← subscript config "__module__";
    c ← subscript config "__class__";
    type_ ← get_type_of_tag w ctx m c;
    config' ← subscript config "__instance__";
    Ok (type_, config')
  else Ok (type_of w config, config).
End Boxing.

(** ** configure *)

Definition DEFAULT_DATETIME_FORMAT : string := "%Y%m%d%H%M%S.%f".

Definition characters (s : string) : list value :=
  map (fun a => VStr (String a EmptyString)) (list_ascii_of_string s).

(** [key, value = item] *)
Definition unpack_pair (item : value) : result (value * value) :=
  let two (xs : list value) :=
    match xs with
    | [a; b] => Ok (a, b)
    | _ => Raise ValueError
    end in
  match item with
  | VList xs | VTuple xs => two xs
  | VDict items => two (map fst items)
  | VStr s => two (characters s)
  | _ => Raise TypeError
  end.

Fixpoint set_attr (attr : string) (v : value) (attrs : list (string * value))
  : list (string * value) :=
  match attrs with
  | [] => [(attr, v)]
  | (a, v') :: rest =>
      if String.eqb a attr then (a, v) :: rest
      else if String.ltb attr a then (attr, v) :: attrs
      else (a, v') :: set_attr attr v rest
  end.

(** [setattr(instance, name, v)]; the instance is returned updated. *)
Definition setattr (w : World) (instance : value) (attr : string) (v : value)
  : result value :=
  match instance with
  | VObj cls oid attrs =>
      if readonly_property w cls attr then Raise AttributeError
      else Ok (VObj cls oid (set_attr attr v attrs))
  | _ => Raise AttributeError
  end.

Definition WrapAutoConfig_is_unconfigured_property (self : WrapAutoConfig)
    (name_ : string) : bool :=
  startswith_underscore name_
  || match unconfigured_properties self with
     | Some names => bool_decide (name_ ∈ names)
     | None => false
     end.

Definition WrapAutoConfig_get_property_type (self : WrapAutoConfig)
    (name_ : string) : option pytype :=
  match property_types self with
  | None => None
  | Some types => assoc name_ types
  end.

Section Configure.
Variable w : World.
Variable g : Globals.

(** The recursive calls of [configure] go through [rec]. *)
Variable rec : value -> value -> option string -> result value.

Definition drain (configs : list value) (context : option string)
  : result (list value) :=
  sequence (map (fun value_config => rec value_config VNone context) configs).

(** [type_(result)], the conversion at the end of [configure].  A generator
    is consumed by the sequence types; every other call is the class's own
    constructor. *)
Definition convert (type_ : pytype) (result_ : value) : result value :=
  match result_ with
  | VGenerator configs context =>
      if decide (type_ = py_list) then VList <$> drain configs context
      else if decide (type_ = py_tuple) then VTuple <$> drain configs context
      else if decide (type_ = py_set ∨ type_ = py_frozenset) then
        xs ← drain configs context;
        call_type w type_ [VList xs] []
      else call_type w type_ [result_] []
  | _ => call_type w type_ [result_] []
  end.

(** The loop over [config.items()] that AutoConfigured.configure and
    WrapAutoConfig.configure share.  A value that is the old one by
    identity was updated in place: the attribute shows the update. *)
Fixpoint update_properties (is_unconfigured : string -> bool)
    (property_type_of : string -> option pytype) (context : option string)
    (items : list (value * value)) (instance : value) : result value :=
  match items with
  | [] => Ok instance
  | (key, property_config) :: rest =>
      property_name ←
        match key with VStr s => Ok s | _ => Raise AttributeError end;
      if is_unconfigured property_name
      then update_properties is_unconfigured property_type_of context rest instance
      else
        let property_type := property_type_of property_name in
        property_config ←
          match property_type with
          | Some t => box_type w g t property_config context
          | None => Ok property_config
          end;
        let old_property_value := getattr_default_None w instance property_name in
        let old_property_value :=
          match property_type with
          | None => old_property_value
          | Some t => if isinstance w old_property_value t
                      then old_property_value else VNone
          end in
        property_value ← rec property_config old_property_value context;
        instance' ←
          (if py_eq old_property_value property_value then
             match instance, property_value with
             | VObj cls oid attrs, VObj _ _ _ =>
                 Ok (VObj cls oid (set_attr property_name property_value attrs))
             | _, _ => Ok instance
             end
           else
             match setattr w instance property_name property_value with
             | Raise AttributeError =>
                 match Configurable_of w property_value with
                 | Some _ => Ok instance
                 | None => Raise AttributeError
                 end
             | r => r
             end);
        update_properties is_unconfigured property_type_of context rest instance'
  end.

(** AutoConfigured.configure, for the class [cls]. *)
Definition AutoConfigured_configure (cls : pytype)
    (is_unconfigured : string -> bool) (property_type_of : string -> option pytype)
    (config instance : value) (context : option string) : result value :=
  '(type_, config) ← unbox_type w g config context;
  assert (bool_decide (type_ = py_dict ∨ type_ = cls));;
  match config with
  | VDict items =>
      assert (negb (keys_are_box_keys items));;
      instance ← (if isinstance w instance cls then Ok instance
                  else call_type w cls [] []);
      assert (isinstance w instance cls);;
      update_properties is_unconfigured property_type_of context items instance
  | _ => Raise AssertionError
  end.

Definition WrapAutoConfig_configure_method (self : WrapAutoConfig)
    (config instance : value) (context : option string) : result value :=
  '(type_, config) ← unbox_type w g config context;
  assert (bool_decide (type_ = py_dict) || issubclass w type_ (wrapped self));;
  let type_ := if decide (type_ = py_dict) then wrapped self else type_ in
  match config with
  | VDict items =>
      assert (negb (keys_are_box_keys items));;
      instance ←
        (if isinstance w instance (wrapped self) then Ok instance
         else
           args ← sequence (map (fun name_ =>
                                   c ← subscript config name_; rec c VNone context)
                                (default [] (init_args self)));
           kwargs ← sequence (map (fun '(key, value_name) =>
                                     c ← subscript config value_name;
                                     v ← rec c VNone context;
                                     Ok (key, v))
                                  (default [] (init_kwargs self)));
           call_type w type_ args kwargs);
      assert (isinstance w instance type_);;
      update_properties (WrapAutoConfig_is_unconfigured_property self)
        (WrapAutoConfig_get_property_type self) context items instance
  | _ => Raise AssertionError
  end.

(** The comprehension of [configure_mapping] over a list of pairs. *)
Fixpoint configure_pairs (context : option string) (acc : list (value * value))
    (pairs : list value) : result (list (value * value)) :=
  match pairs with
  | [] => Ok acc
  | item :: rest =>
      '(key_config, value_config) ← unpack_pair item;
      k ← rec key_config VNone context;
      v ← rec value_config VNone context;
      acc' ← dict_setitem k v acc;
      configure_pairs context acc' rest
  end.

(** Calling an entry of [CONFIGURE_REGISTRY]. *)
Fixpoint call_setter (func : setter) (config instance : value)
    (context : option string) : result value :=
  match func with
  | configure_simple =>
      if py_eq config instance then Ok instance else Ok config
  | configure_python_type =>
      '(ctx, _) ← get_context w context false g;
      m ← subscript config "module";
      n ← subscript config "name";
      VType <$> get_type_of_tag w ctx m n
  | configure_datetime =>
      v ← subscript config "value";
      let fmt :=
        match config with
        | VDict items => default (VStr DEFAULT_DATETIME_FORMAT)
                           (dict_get (VStr "format") items)
        | _ => VStr DEFAULT_DATETIME_FORMAT
        end in
      match v, fmt with
      | VStr v, VStr fmt => VDatetime <$> strptime w v fmt
      | _, _ => Raise TypeError
      end
  | configure_iterable =>
      match config with
      | VList value_configs => Ok (VGenerator value_configs context)
      | _ => Raise AssertionError
      end
  | configure_mapping =>
      match config with
      | VDict items =>
          values ← sequence (map (fun '(key, value_config) =>
                                    v ← rec value_config VNone context; Ok (key, v))
                                 items);
          VDict <$> dict_of_items [] values
      | VList pairs => VDict <$> configure_pairs context [] pairs
      | _ => Raise AssertionError
      end
  | config_type_unboxer func' =>
      '(type_, config) ← unbox_type w g config context;
      let instance := if isinstance w instance type_ then instance else VNone in
      result_ ← call_setter func' config instance context;
      if isinstance w result_ type_ then Ok result_ else convert type_ result_
  | WrapAutoConfig_configure self =>
      WrapAutoConfig_configure_method self config instance context
  | setter_function f => f config instance context
  end.

Definition configure_body (config instance : value) (context : option string)
  : result value :=
  '(type_, config) ← unbox_type w g config context;
  let instance := if isinstance w instance type_ then instance else VNone in
  result_ ←
    match Configurable_class w type_ with
    | Some (CustomConfigurable _ decode) => decode config instance context
    | Some (AutoConfiguredClass is_unconfigured property_type_of) =>
        AutoConfigured_configure type_ is_unconfigured property_type_of
          config instance context
    | None =>
        match CONFIGURE_REGISTRY g !! type_ with
        | Some func => call_setter func config instance context
        | None => Raise (NotConfigurable type_)
        end
    end;
  if isinstance w result_ type_ then Ok result_ else convert type_ result_.
End Configure.

(** [configure], with a budget for the depth of its recursion. *)
Fixpoint configure (w : World) (g : Globals) (fuel : nat)
    (config instance : value) (context : option string) : result value :=
  match fuel with
  | O => Diverge
  | S fuel' => configure_body w g (configure w g fuel') config instance context
  end.

(** ** get_config *)

Section GetConfig.
Variable w : World.
Variable g : Globals.

(** The recursive calls of [get_config] go through [rec]; a generator met
    while iterating is consumed through [configure_]. *)
Variable rec : value -> option bool -> option string -> result value.
Variable configure_ : value -> value -> option string -> result value.

(** [for value in iterable] *)
Definition iterate (iterable : value) : result (list value) :=
  match iterable with
  | VList xs | VTuple xs => Ok xs
  | VDict items => Ok (map fst items)
  | VStr s => Ok (characters s)
  | VGenerator configs context => drain configure_ configs context
  | _ => Raise TypeError
  end.

(** The loop over [dir(instance)] that AutoConfigured.get_config and
    WrapAutoConfig.get_config share. *)
Fixpoint properties_config (is_unconfigured : string -> bool)
    (property_type_of : string -> option pytype) (instance : value)
    (context : option string) (names : list string) (config : list (value * value))
  : result (list (value * value)) :=
  match names with
  | [] => Ok config
  | property_name :: rest =>
      if is_unconfigured property_name
      then properties_config is_unconfigured property_type_of instance context rest config
      else
        let property_value := getattr_default_None w instance property_name in
        if callable property_value && negb (is_type_object property_value)
        then properties_config is_unconfigured property_type_of instance context rest config
        else
          property_config ← rec property_value None context;
          property_config ←
            match property_type_of property_name with
            | Some _ =>
                (* property_config = unbox_type(property_config, context=context):
                   the pair itself is bound *)
                '(type_, unboxed) ← unbox_type w g property_config context;
                Ok (VTuple [VType type_; unboxed])
            | None => Ok property_config
            end;
          config' ← dict_setitem (VStr property_name) property_config config;
          properties_config is_unconfigured property_type_of instance context rest config'
  end.

(** AutoConfigured.get_config; [super().get_config(context)] is [{}]. *)
Definition AutoConfigured_get_config (is_unconfigured : string -> bool)
    (property_type_of : string -> option pytype) (self : value)
    (context : option string) : result value :=
  VDict <$> properties_config is_unconfigured property_type_of self context
              (dir_value w self) [].

Definition WrapAutoConfig_get_config_method (self : WrapAutoConfig)
    (instance : value) (context : option string) : result value :=
  VDict <$> properties_config (WrapAutoConfig_is_unconfigured_property self)
              (WrapAutoConfig_get_property_type self) instance context
              (dir_value w instance) [].

(** Calling an entry of [GET_CONFIG_REGISTRY]. *)
Fixpoint call_getter (func : getter) (obj : value) (context : option string)
  : result value :=
  match func with
  | get_simple_config => Ok obj
  | get_python_type_config =>
      match obj with
      | VType type_ =>
          '(ctx, _) ← get_context w context false g;
          '(module_name, class_name) ← locate w ctx type_;
          Ok (kwargs_dict [("module", VStr module_name); ("name", VStr class_name)])
      | _ => Raise AssertionError
      end
  | get_datetime_config =>
      match obj with
      | VDatetime dt =>
          let fmt := DEFAULT_DATETIME_FORMAT in
          Ok (kwargs_dict [("value", VStr (strftime w dt fmt)); ("format", VStr fmt)])
      | _ => Raise AssertionError
      end
  | get_iterable_config =>
      values ← iterate obj;
      VList <$> sequence (map (fun v => rec v None context) values)
  | get_mapping_config =>
      match obj with
      | VDict items =>
          if forallb (fun kv => is_str (fst kv)) items then
            values ← sequence (map (fun '(key, v) =>
                                      c ← rec v None context; Ok (key, c)) items);
            VDict <$> dict_of_items [] values
          else
            pairs ← sequence (map (fun '(key, v) =>
                                     k ← rec key None context;
                                     c ← rec v None context;
                                     Ok (VList [k; c])) items);
            box_type w g (type_of w obj) (VList pairs) None
      | _ => Raise AttributeError
      end
  | config_type_boxer type_ func' =>
      config ← call_getter func' obj context;
      box_type w g type_ config context
  | WrapAutoConfig_get_config self =>
      WrapAutoConfig_get_config_method self obj context
  | getter_function f => f obj context
  end.

(** The first statement of [get_config]: the object's own method, or the
    hook of its exact type. *)
Definition get_config_dispatch (obj : value) (context : option string)
  : result value :=
  match Configurable_of w obj with
  | Some (CustomConfigurable encode _) => encode obj context
  | Some (AutoConfiguredClass is_unconfigured property_type_of) =>
      AutoConfigured_get_config is_unconfigured property_type_of obj context
  | None =>
      match GET_CONFIG_REGISTRY g !! type_of w obj with
      | Some func => call_getter func obj context
      | None => Raise (NotConfigurable (type_of w obj))
      end
  end.

Definition get_config_body (obj : value) (typed_ : option bool)
    (context : option string) : result value :=
  config ← get_config_dispatch obj context;
  match typed_ with
  | Some true => box_type w g (type_of w obj) config context
  | None =>
      match Configurable_of w obj with
      | Some _ => box_type w g (type_of w obj) config context
      | None => Ok config
      end
  | Some false => '(_, config) ← unbox_type w g config context; Ok config
  end.
End GetConfig.

(** [get_config], with a budget for the depth of its recursion. *)
Fixpoint get_config (w : World) (g : Globals) (fuel : nat)
    (obj : value) (typed_ : option bool) (context : option string) : result value :=
  match fuel with
  | O => Diverge
  | S fuel' =>
      get_config_body w g (get_config w g fuel') (configure w g fuel') obj typed_ context
  end.

(** ** The module's state after import *)

Definition decorate_getter (caller : Traceback) (types : list pytype) (typed_ : bool)
    (f : getter) (g : Globals) : result Globals :=
  '(g, r) ← config_getter caller types typed_ None false g;
  match r with
  | inr d => fst <$> apply_getter_decorator caller d f g
  | inl _ => Ok g
  end.

Definition decorate_setter (caller : Traceback) (types : list pytype)
    (f : setter) (g : Globals) : result Globals :=
  '(g, r) ← config_setter caller types None false g;
  match r with
  | inr d => fst <$> apply_setter_decorator caller d f g
  | inl _ => Ok g
  end.

Definition empty_globals (w : World) : Globals := {|
  CONTEXTS := {[ None := new_Context w "default" ]};
  GET_CONFIG_REGISTRY := ∅;
  CONFIGURE_REGISTRY := ∅;
  GET_CONFIG_FROM := ∅;
  CONFIGURE_FROM := ∅
|}.

(** The module-level statements, in the order of the file.  [site] is the
    frame that imports the package. *)
Definition import_json_configs (w : World) (site : Traceback) : result Globals :=
  let scalars := [py_NoneType; py_bool; py_int; py_float; py_str] in
  g ← decorate_getter site scalars false get_simple_config (empty_globals w);
  g ← decorate_setter site scalars configure_simple g;
  g ← decorate_getter site [py_type; py_ABCMeta] true get_python_type_config g;
  g ← decorate_setter site [py_type; py_ABCMeta] configure_python_type g;
  g ← decorate_getter site [py_datetime] true get_datetime_config g;
  g ← decorate_setter site [py_datetime] configure_datetime g;
  g ← decorate_getter site [py_tuple; py_set; py_frozenset] true get_iterable_config g;
  g ← decorate_getter site [py_list] false get_iterable_config g;
  g ← decorate_setter site [py_list; py_tuple; py_set; py_frozenset] configure_iterable g;
  g ← decorate_getter site [py_dict] false get_mapping_config g;
  decorate_setter site [py_dict] configure_mapping g.

(** The state those statements leave. *)
Definition module_globals (w : World) (site : Traceback) : Globals := {|
  CONTEXTS := {[ None := new_Context w "default" ]};
  GET_CONFIG_REGISTRY :=
    list_to_map
      [(py_NoneType, get_simple_config); (py_bool, get_simple_config);
       (py_int, get_simple_config); (py_float, get_simple_config);
       (py_str, get_simple_config);
       (py_type, config_type_boxer py_type get_python_type_config);
       (py_ABCMeta, config_type_boxer py_ABCMeta get_python_type_config);
       (py_datetime, config_type_boxer py_datetime get_datetime_config);
       (py_tuple, config_type_boxer py_tuple get_iterable_config);
       (py_set, config_type_boxer py_set get_iterable_config);
       (py_frozenset, config_type_boxer py_frozenset get_iterable_config);
       (py_list, get_iterable_config);
       (py_dict, get_mapping_config)];
  CONFIGURE_REGISTRY :=
    list_to_map
      [(py_NoneType, configure_simple); (py_bool, configure_simple);
       (py_int, configure_simple); (py_float, configure_simple);
       (py_str, configure_simple);
       (py_type, configure_python_type); (py_ABCMeta, configure_python_type);
       (py_datetime, configure_datetime);
       (py_list, configure_iterable); (py_tuple, configure_iterable);
       (py_set, configure_iterable); (py_frozenset, configure_iterable);
       (py_dict, configure_mapping)];
  GET_CONFIG_FROM :=
    list_to_map (map (fun t => (t, site))
      [py_NoneType; py_bool; py_int; py_float; py_str; py_type; py_ABCMeta;
       py_datetime; py_tuple; py_set; py_frozenset; py_list; py_dict]);
  CONFIGURE_FROM :=
    list_to_map (map (fun t => (t, site))
      [py_NoneType; py_bool; py_int; py_float; py_str; py_type; py_ABCMeta;
       py_datetime; py_list; py_tuple; py_set; py_frozenset; py_dict])
|}.

(** ** A small concrete world, for the examples *)

Definition example_builtins : PyModule := {|
  mod_all := None;
  mod_dict :=
    [("__name__", VStr "builtins");
     ("abs", VFunc "abs");
     ("bool", VType py_bool);
     ("dict", VType py_dict);
     ("float", VType py_float);
     ("frozenset", VType py_frozenset);
     ("int", VType py_int);
     ("len", VFunc "len");
     ("list", VType py_list);
     ("object", VType py_object);
     ("set", VType py_set);
     ("str", VType py_str);
     ("tuple", VType py_tuple);
     ("type", VType py_type)]
|}.

Definition example_datetime : PyModule := {|
  mod_all := None;
  mod_dict :=
    [("MAXYEAR", VInt 9999);
     ("date", VType py_date);
     ("datetime", VType py_datetime)]
|}.

Definition example_modules (module_name : string) : option PyModule :=
  if String.eqb module_name "builtins" then Some example_builtins
  else if String.eqb module_name "datetime" then Some example_datetime
  else None.

(** No class of an embedder, no module beyond [builtins] and [datetime]. *)
Definition example_world : World := {|
  sys_modules := example_modules;
  find_module := fun _ => None;
  builtins := example_builtins;
  datetime := example_datetime;
  superclasses := fun _ => [];
  metaclass := fun _ => py_type;
  configurable_class_of := fun _ => None;
  wrap_auto_config_class_of := fun _ => None;
  strftime := fun _ _ => "";
  strptime := fun _ _ => Raise ValueError;
  call_type := fun _ _ _ => Raise TypeError;
  readonly_property := fun _ _ => false;
  builtin_attributes := fun _ => []
|}.

Definition example_site : Traceback := {| filename := "main.py"; lineno := 1 |}.

(** * Vocabulary of the properties and example inputs *)

(** A context with other default-posture flags and the same lists. *)
Definition with_posture (all_modules imported_modules public_classes : bool)
    (self : Context) : Context := {|
  name := name self;
  registry := registry self;
  registered_from := registered_from self;
  location_map := location_map self;
  all_modules_allowed_by_default := all_modules;
  imported_modules_allowed_by_default := imported_modules;
  public_classes_allowed_by_default := public_classes;
  specifically_allowed_modules := specifically_allowed_modules self;
  specifically_denied_modules := specifically_denied_modules self;
  specifically_allowed_classes := specifically_allowed_classes self;
  specifically_denied_classes := specifically_denied_classes self
|}.

(** A context with other module lists. *)
Definition with_modules (allowed denied : gset string) (self : Context) : Context := {|
  name := name self;
  registry := registry self;
  registered_from := registered_from self;
  location_map := location_map self;
  all_modules_allowed_by_default := all_modules_allowed_by_default self;
  imported_modules_allowed_by_default := imported_modules_allowed_by_default self;
  public_classes_allowed_by_default := public_classes_allowed_by_default self;
  specifically_allowed_modules := allowed;
  specifically_denied_modules := denied;
  specifically_allowed_classes := specifically_allowed_classes self;
  specifically_denied_classes := specifically_denied_classes self
|}.

(** A context with other class lists. *)
Definition with_classes (allowed denied : gset (string * string)) (self : Context)
  : Context := {|
  name := name self;
  registry := registry self;
  registered_from := registered_from self;
  location_map := location_map self;
  all_modules_allowed_by_default := all_modules_allowed_by_default self;
  imported_modules_allowed_by_default := imported_modules_allowed_by_default self;
  public_classes_allowed_by_default := public_classes_allowed_by_default self;
  specifically_allowed_modules := specifically_allowed_modules self;
  specifically_denied_modules := specifically_denied_modules self;
  specifically_allowed_classes := allowed;
  specifically_denied_classes := denied
|}.

(** The default context of the examples with chosen flags, ["os"] denied
    and ["json"] allowed besides ["builtins"]. *)
Definition example_context (all_modules imported_modules public_classes : bool)
  : Context :=
  with_modules {[ "builtins"; "json" ]} {[ "os" ]}
    (with_posture all_modules imported_modules public_classes
       (new_Context example_world "default")).

(** The context of the examples with the pair [("os", "system")] denied and
    [("json", "JSONDecoder")] allowed, the first of them on both lists. *)
Definition example_class_context : Context :=
  with_classes {[ ("json", "JSONDecoder"); ("os", "system") ]} {[ ("os", "system") ]}
    (example_context false false false).

(** The pair under which [register] files a class. *)
Definition key_of (type_ : pytype) (module_name class_name : option string)
  : string * string :=
  (default (ty_module type_) module_name, default (ty_name type_) class_name).

(** Two distinct classes named [Point] in a module [app], and two
    registration sites. *)
Definition Point : pytype := PyType "app" "Point" 1.
Definition Point' : pytype := PyType "app" "Point" 2.
Definition first_site : Traceback := {| filename := "app.py"; lineno := 10 |}.
Definition second_site : Traceback := {| filename := "plugin.py"; lineno := 3 |}.

Definition Point_registered : Context :=
  set_registration ("app", "Point") Point first_site ∅
    (new_Context example_world "default").

(** No two keys of the items are equal: what every Python dictionary
    satisfies. *)
Fixpoint keys_distinct (items : list (value * value)) : bool :=
  match items with
  | [] => true
  | (k, _) :: rest => negb (existsb (fun kv => py_eq (fst kv) k) rest) && keys_distinct rest
  end.

Definition well_formed_dict (c : value) : bool :=
  match c with
  | VDict items => keys_distinct items
  | _ => true
  end.

Definition box_key_values : list value := map VStr box_keys.

(** The spec's boxed value: a mapping whose key set is exactly the three
    tag keys. *)
Definition has_box_key_set (c : value) : Prop :=
  exists items, c = VDict items /\ forall k, k ∈ map fst items <-> k ∈ box_key_values.

Definition boxed_five : value := box "builtins" "int" (VInt 5).
Definition four_keys : value :=
  VDict [(VStr "__module__", VStr "builtins"); (VStr "__class__", VStr "int");
         (VStr "__instance__", VInt 5); (VStr "extra", VNone)].

(** The default context with [Point] registered. *)
Definition Point_globals : Globals :=
  set_context None Point_registered (module_globals example_world example_site).

(** A mapping that looks like a box around a box. *)
Definition boxed_twice : value := box "builtins" "int" boxed_five.

(** The type [Configuration] of the source: None, bool, int, float, str,
    list of Configuration, dict from str to Configuration. *)
Fixpoint is_Configuration (v : value) : bool :=
  match v with
  | VNone | VBool _ | VInt _ | VFloat _ | VStr _ => true
  | VList xs => forallb is_Configuration xs
  | VDict items => forallb (fun kv => is_str (fst kv) && is_Configuration (snd kv)) items
  | _ => false
  end.

(** What the loop over [dir(instance)] stores for a property with a declared
    type: the pair that [unbox_type] returns, as a tuple. *)
Definition declared_entry (w : World) (g : Globals)
    (rec : value -> option bool -> option string -> result value)
    (instance : value) (context : option string)
    (property_name : string) (entry : value) : Prop :=
  exists property_config type_ unboxed,
    rec (getattr_default_None w instance property_name) None context = Ok property_config
    /\ unbox_type w g property_config context = Ok (type_, unboxed)
    /\ entry = VTuple [VType type_; unboxed].

(** The property is one the loop encodes: not unconfigured, and not a
    callable other than a class. *)
Definition is_encoded (w : World) (is_unconfigured : string -> bool)
    (instance : value) (property_name : string) : Prop :=
  is_unconfigured property_name = false
  /\ (let v := getattr_default_None w instance property_name in
      callable v && negb (is_type_object v)) = false.

(** A world in which [Point] is an AutoConfigured class that declares the
    type of its property [x]. *)
Definition Point_property_type (property_name : string) : option pytype :=
  if String.eqb property_name "x" then Some py_int else None.

Definition Point_world : World := {|
  sys_modules := example_modules;
  find_module := fun _ => None;
  builtins := example_builtins;
  datetime := example_datetime;
  superclasses := fun _ => [];
  metaclass := fun _ => py_ABCMeta;
  configurable_class_of := fun t =>
    if decide (t = Point)
    then Some (AutoConfiguredClass startswith_underscore Point_property_type)
    else None;
  wrap_auto_config_class_of := fun _ => None;
  strftime := fun _ _ => "";
  strptime := fun _ _ => Raise ValueError;
  call_type := fun _ _ _ => Raise TypeError;
  readonly_property := fun _ _ => false;
  builtin_attributes := fun _ => []
|}.

(** An instance of [Point] with [x = 5], as [dir] shows it. *)
Definition a_point : value :=
  VObj Point 1
    [("__class__", VType Point);
     ("__module__", VStr "app");
     ("configure", VFunc "AutoConfigured.configure");
     ("get_config", VFunc "AutoConfigured.get_config");
     ("get_property_type", VFunc "Point.get_property_type");
     ("is_unconfigured_property", VFunc "AutoConfigured.is_unconfigured_property");
     ("x", VInt 5)].

(** A wrapper that adapts [Point'], a class that is not Configurable, and
    declares the type of its property [x]. *)
Definition Point'_wrapper : WrapAutoConfig := {|
  wrapped := Point';
  typed := true;
  unconfigured_properties := None;
  property_types := Some [("x", py_int)];
  init_args := None;
  init_kwargs := None
|}.

Definition a_point' : value :=
  VObj Point' 2 [("__class__", VType Point'); ("norm", VFunc "Point.norm"); ("x", VInt 5)].

(** Every dictionary inside the value has distinct keys. *)
Fixpoint dicts_well_formed (v : value) : bool :=
  match v with
  | VList xs | VTuple xs => forallb dicts_well_formed xs
  | VDict items =>
      keys_distinct items && forallb (fun kv => dicts_well_formed (snd kv)) items
  | _ => true
  end.

(** No mapping inside the value, at any depth, has exactly the three tag
    keys. *)
Fixpoint unboxed_throughout (v : value) : bool :=
  match v with
  | VList xs | VTuple xs => forallb unboxed_throughout xs
  | VDict items =>
      negb (keys_are_box_keys items)
      && forallb (fun kv => unboxed_throughout (snd kv)) items
  | _ => true
  end.

(** The nesting depth of lists and dictionaries. *)
Fixpoint height (v : value) : nat :=
  match v with
  | VList xs | VTuple xs => S (fold_right (fun x n => Nat.max (height x) n) O xs)
  | VDict items => S (fold_right (fun kv n => Nat.max (height (snd kv)) n) O items)
  | _ => O
  end.

(** [configure(get_config(v))], both under the default context. *)
Definition round_trip (w : World) (g : Globals) (fuel : nat) (v : value) : result value :=
  config ← get_config w g fuel v None None;
  configure w g fuel config VNone None.

(** The hooks that the import registers for the runtime type of a
    Configuration. *)
Definition Configuration_getter (v : value) : getter :=
  match v with
  | VList _ => get_iterable_config
  | VDict _ => get_mapping_config
  | _ => get_simple_config
  end.

Definition Configuration_setter (v : value) : setter :=
  match v with
  | VList _ => configure_iterable
  | VDict _ => configure_mapping
  | _ => configure_simple
  end.

(** The value of the test suite:
    [[{"a": 1, "b": [2, 3]}, ["4", "5", {"x": "x", "y": -10.0, "z": None}]]]. *)
Definition minus_ten : spec_float := S754_finite true 5629499534213120 (-49).

Definition nested_value : value :=
  VList [VDict [(VStr "a", VInt 1); (VStr "b", VList [VInt 2; VInt 3])];
         VList [VStr "4"; VStr "5";
                VDict [(VStr "x", VStr "x");
                       (VStr "y", VFloat minus_ten);
                       (VStr "z", VNone)]]].

(** What [register] keeps true of a context: a class that has a location
    is the class registered there, and every registered pair has its
    provenance. *)
Definition Context_consistent (self : Context) : Prop :=
  (forall type_ key, location_map self !! type_ = Some key ->
                     registry self !! key = Some type_)
  /\ (forall key, is_Some (registry self !! key) ->
                  is_Some (registered_from self !! key)).

(** The pairs a new context specifically allows. *)
Definition initially_allowed (w : World) (module_name class_name : string) : Prop :=
  (module_name = "builtins" /\ class_name ∈ public_type_names (builtins w))
  \/ (module_name = "datetime" /\ class_name ∈ public_type_names (datetime w))
  \/ (module_name = "abc" /\ class_name = "ABCMeta").

(** The class that [register] files for [type_]: the wrapped class of a
    WrapAutoConfig subclass, the class itself otherwise. *)
Definition registered_class (w : World) (type_ : pytype) : pytype :=
  match WrapAutoConfig_class w type_ with
  | Some (Some wrapped_) => wrapped_
  | _ => type_
  end.

(** What the hook registrations keep true of the module's state: every
    type with a getter (setter) has the provenance of its registration. *)
Definition hooks_consistent (g : Globals) : Prop :=
  (forall t, is_Some (GET_CONFIG_REGISTRY g !! t) -> is_Some (GET_CONFIG_FROM g !! t))
  /\ (forall t, is_Some (CONFIGURE_REGISTRY g !! t) -> is_Some (CONFIGURE_FROM g !! t)).

(** The entry [config_getter] writes for a type. *)
Definition getter_entry (typed_ : bool) (type_ : pytype) (func : getter) : getter :=
  if typed_ then config_type_boxer type_ func else func.

(** The world's [builtins] module is loaded and has the public class
    [type_] under [class_name], as CPython's has [tuple], [type], [int]. *)
Definition builtins_has (w : World) (class_name : string) (type_ : pytype) : Prop :=
  sys_modules w "builtins" = Some (builtins w)
  /\ assoc class_name (mod_dict (builtins w)) = Some (VType type_)
  /\ startswith_underscore class_name = false.

(** None, bool, int, float and str values. *)
Definition is_scalar (v : value) : bool :=
  match v with
  | VNone | VBool _ | VInt _ | VFloat _ | VStr _ => true
  | _ => false
  end.

(** An int or a str: the keys of the dictionaries of the next theorem. *)
Definition simple_key (k : value) : bool :=
  match k with
  | VInt _ | VStr _ => true
  | _ => false
  end.

(** The list of [[key, value]] pairs that stands for a dictionary with a
    key that is not a string. *)
Definition pairs_of (items : list (value * value)) : value :=
  VList (map (fun kv => VList [fst kv; snd kv]) items).

(** The state has the scalar hooks of the import: [get_simple_config] and
    [configure_simple] for the types of None, bool, int, float and str. *)
Definition scalar_hooks (w : World) (g : Globals) : Prop :=
  forall v, is_scalar v = true ->
    GET_CONFIG_REGISTRY g !! type_of w v = Some get_simple_config
    /\ CONFIGURE_REGISTRY g !! type_of w v = Some configure_simple.

(** Every property of the object that the encoder keeps has no declared
    type and a scalar value that is equal to itself (any scalar but NaN). *)
Definition scalar_properties (w : World) (is_unconfigured : string -> bool)
    (property_type_of : string -> option pytype) (obj : value) : Prop :=
  forall a, a ∈ dir_value w obj ->
    is_encoded w is_unconfigured obj a ->
    property_type_of a = None
    /\ is_scalar (getattr_default_None w obj a) = true
    /\ py_eq (getattr_default_None w obj a) (getattr_default_None w obj a) = true.

(** Every item is an encoded property of the object with its value. *)
Definition stored (w : World) (is_unconfigured : string -> bool) (obj : value)
    (items : list (value * value)) : Prop :=
  forall kv, kv ∈ items ->
    exists a, fst kv = VStr a /\ a ∈ dir_value w obj
              /\ is_encoded w is_unconfigured obj a
              /\ snd kv = getattr_default_None w obj a.

(** A world in which [Point] is an AutoConfigured class that declares no
    property type. *)
Definition Plain_world : World := {|
  sys_modules := example_modules;
  find_module := fun _ => None;
  builtins := example_builtins;
  datetime := example_datetime;
  superclasses := fun _ => [];
  metaclass := fun _ => py_ABCMeta;
  configurable_class_of := fun t =>
    if decide (t = Point)
    then Some (AutoConfiguredClass startswith_underscore (fun _ => None))
    else None;
  wrap_auto_config_class_of := fun _ => None;
  strftime := fun _ _ => "";
  strptime := fun _ _ => Raise ValueError;
  call_type := fun _ _ _ => Raise TypeError;
  readonly_property := fun _ _ => false;
  builtin_attributes := fun _ => []
|}.

(** The world's [datetime] module is loaded and has the public class
    [type_] under [class_name]. *)
Definition datetime_has (w : World) (class_name : string) (type_ : pytype) : Prop :=
  sys_modules w "datetime" = Some (datetime w)
  /\ assoc class_name (mod_dict (datetime w)) = Some (VType type_)
  /\ startswith_underscore class_name = false.

(** What [get_datetime_config] returns for a datetime. *)
Definition datetime_config (w : World) (dt : Z) : value :=
  kwargs_dict [("value", VStr (strftime w dt DEFAULT_DATETIME_FORMAT));
               ("format", VStr DEFAULT_DATETIME_FORMAT)].

(** The example world with a clock that formats and parses the epoch, the
    datetime numbered 0, as CPython does under the default format. *)
Definition Clock_world : World := {|
  sys_modules := example_modules;
  find_module := fun _ => None;
  builtins := example_builtins;
  datetime := example_datetime;
  superclasses := fun _ => [];
  metaclass := fun _ => py_type;
  configurable_class_of := fun _ => None;
  wrap_auto_config_class_of := fun _ => None;
  strftime := fun dt fmt =>
    if ((dt =? 0)%Z && String.eqb fmt DEFAULT_DATETIME_FORMAT)%bool
    then "19700101000000.000000" else "";
  strptime := fun v fmt =>
    if (String.eqb v "19700101000000.000000" && String.eqb fmt DEFAULT_DATETIME_FORMAT)%bool
    then Ok 0%Z else Raise ValueError;
  call_type := fun _ _ _ => Raise TypeError;
  readonly_property := fun _ _ => false;
  builtin_attributes := fun _ => []
|}.

(** * Properties *)

(** Closes a decidable goal without variables by evaluating its decision. *)
Ltac by_computation :=
  lazymatch goal with
  | |- ?P => refine (@bool_decide_unpack P _ _); vm_compute; exact I
  end.

(** ** Access control *)

Section AccessControl.
Variable w : World.
Variable self : Context.

Lemma module_denied module_name :
  module_name ∈ specifically_denied_modules self ->
  module_access_is_allowed w self module_name = false.
Proof. intros Hd. unfold module_access_is_allowed. by rewrite decide_True. Qed.

Lemma module_allowed module_name :
  module_name ∉ specifically_denied_modules self ->
  module_name ∈ specifically_allowed_modules self ->
  module_access_is_allowed w self module_name = true.
Proof.
  intros Hd Ha. unfold module_access_is_allowed.
  rewrite decide_False by done. by rewrite decide_True.
Qed.

Lemma module_default module_name :
  module_name ∉ specifically_denied_modules self ->
  module_name ∉ specifically_allowed_modules self ->
  module_access_is_allowed w self module_name
  = imported_modules_allowed_by_default self
    && (all_modules_allowed_by_default self
        || bool_decide (is_Some (sys_modules w module_name))).
Proof.
  intros Hd Ha. unfold module_access_is_allowed.
  rewrite !decide_False by done.
  by destruct (imported_modules_allowed_by_default self).
Qed.

Lemma class_denied module_name class_name load_module :
  (module_name, class_name) ∈ specifically_denied_classes self ->
  class_access_is_allowed w self module_name class_name load_module = Ok false.
Proof. intros Hd. unfold class_access_is_allowed. by rewrite decide_True. Qed.

Lemma class_allowed module_name class_name load_module :
  (module_name, class_name) ∉ specifically_denied_classes self ->
  (module_name, class_name) ∈ specifically_allowed_classes self ->
  class_access_is_allowed w self module_name class_name load_module = Ok true.
Proof.
  intros Hd Ha. unfold class_access_is_allowed.
  rewrite decide_False by done. by rewrite decide_True.
Qed.

Lemma get_type_unregistered_inaccessible module_name class_name load_module :
  registry self !! (module_name, class_name) = None ->
  class_access_is_allowed w self module_name class_name load_module = Ok false ->
  get_type w self module_name class_name load_module
  = Raise (AccessDenied (VStr module_name) (VStr class_name) (name self)).
Proof. intros Hr Ha. unfold get_type. by rewrite Hr, Ha. Qed.
End AccessControl.

(** C2, as the code has it: a specifically denied module is never
    reachable; a specifically allowed module that is not denied always is;
    a module on neither list is reachable exactly when the
    imported-modules flag is set and, besides, the all-modules flag is set
    or the module is loaded.  The all-modules flag alone opens nothing. *)
Theorem module_reachability (w : World) (self : Context) (module_name : string) :
  (module_name ∈ specifically_denied_modules self ->
   module_access_is_allowed w self module_name = false)
  /\ (module_name ∉ specifically_denied_modules self ->
      module_name ∈ specifically_allowed_modules self ->
      module_access_is_allowed w self module_name = true)
  /\ (module_name ∉ specifically_denied_modules self ->
      module_name ∉ specifically_allowed_modules self ->
      (module_access_is_allowed w self module_name = true
       <-> imported_modules_allowed_by_default self = true
           /\ (all_modules_allowed_by_default self = true
               \/ is_Some (sys_modules w module_name)))).
Proof.
  split; [apply module_denied|]. split; [apply module_allowed|].
  intros Hd Ha. rewrite module_default by done.
  rewrite andb_true_iff, orb_true_iff, bool_decide_eq_true. tauto.
Qed.

Lemma module_reachability_witness :
  module_access_is_allowed example_world (example_context true true true) "os" = false
  /\ module_access_is_allowed example_world (example_context false false false) "json" = true
  /\ (module_access_is_allowed example_world (example_context false true false) "datetime" = true
      <-> true = true /\ (false = true \/ is_Some (sys_modules example_world "datetime"))).
Proof.
  split; [|split].
  - destruct (module_reachability example_world (example_context true true true) "os")
      as (Hdenied & _ & _).
    apply Hdenied. by_computation.
  - destruct (module_reachability example_world (example_context false false false) "json")
      as (_ & Hallowed & _).
    apply Hallowed; by_computation.
  - destruct (module_reachability example_world (example_context false true false) "datetime")
      as (_ & _ & Hdefault).
    apply Hdefault; by_computation.
Defined.

(** C2, as stated, fails: with the all-modules flag set and the
    imported-modules flag clear, a module on neither list is refused. *)
Lemma all_modules_flag_alone_refuses :
  ("sys" ∉ specifically_denied_modules (example_context true false false))
  /\ ("sys" ∉ specifically_allowed_modules (example_context true false false))
  /\ all_modules_allowed_by_default (example_context true false false) = true
  /\ module_access_is_allowed example_world (example_context true false false) "sys" = false.
Proof.
  split; [|split; [|split]].
  - by_computation.
  - by_computation.
  - reflexivity.
  - vm_compute. reflexivity.
Qed.

(** The lists decide before the flags are read: under any other default
    posture the two checks answer the same for a listed name. *)
Lemma module_lists_before_posture (w : World) (self : Context) (module_name : string)
    (a i p : bool) :
  module_name ∈ specifically_denied_modules self
  \/ module_name ∈ specifically_allowed_modules self ->
  module_access_is_allowed w (with_posture a i p self) module_name
  = module_access_is_allowed w self module_name.
Proof.
  intros Hlisted. unfold module_access_is_allowed; simpl.
  destruct (decide (module_name ∈ specifically_denied_modules self)); [done|].
  destruct (decide (module_name ∈ specifically_allowed_modules self)); [done|].
  tauto.
Qed.

Lemma class_lists_before_posture (w : World) (self : Context)
    (module_name class_name : string) (load_module a i p : bool) :
  (module_name, class_name) ∈ specifically_denied_classes self
  \/ (module_name, class_name) ∈ specifically_allowed_classes self ->
  class_access_is_allowed w (with_posture a i p self) module_name class_name load_module
  = class_access_is_allowed w self module_name class_name load_module.
Proof.
  intros Hlisted. unfold class_access_is_allowed; simpl.
  destruct (decide ((module_name, class_name) ∈ specifically_denied_classes self)); [done|].
  destruct (decide ((module_name, class_name) ∈ specifically_allowed_classes self)); [done|].
  tauto.
Qed.

(** C9: explicit deny, then explicit allow, then default posture.  A
    specifically denied pair (module) is refused; a specifically allowed
    pair (module) that is not denied is accepted; in both cases the answer
    is the same under every setting of the three default-posture flags; and
    resolving a pair that is neither registered nor accessible raises
    AccessDenied. *)
Theorem access_control_precedence (w : World) (self : Context)
    (module_name class_name : string) (load_module : bool) :
  ((module_name, class_name) ∈ specifically_denied_classes self ->
   forall a i p,
     class_access_is_allowed w (with_posture a i p self) module_name class_name load_module
     = Ok false)
  /\ ((module_name, class_name) ∉ specifically_denied_classes self ->
      (module_name, class_name) ∈ specifically_allowed_classes self ->
      forall a i p,
        class_access_is_allowed w (with_posture a i p self) module_name class_name load_module
        = Ok true)
  /\ (module_name ∈ specifically_denied_modules self ->
      forall a i p,
        module_access_is_allowed w (with_posture a i p self) module_name = false)
  /\ (module_name ∉ specifically_denied_modules self ->
      module_name ∈ specifically_allowed_modules self ->
      forall a i p,
        module_access_is_allowed w (with_posture a i p self) module_name = true)
  /\ (registry self !! (module_name, class_name) = None ->
      class_access_is_allowed w self module_name class_name load_module = Ok false ->
      get_type w self module_name class_name load_module
      = Raise (AccessDenied (VStr module_name) (VStr class_name) (name self))).
Proof.
  repeat split.
  - intros Hd a i p. rewrite class_lists_before_posture by auto. by apply class_denied.
  - intros Hd Ha a i p. rewrite class_lists_before_posture by auto. by apply class_allowed.
  - intros Hd a i p. rewrite module_lists_before_posture by auto. by apply module_denied.
  - intros Hd Ha a i p. rewrite module_lists_before_posture by auto. by apply module_allowed.
  - apply get_type_unregistered_inaccessible.
Qed.

Lemma access_control_precedence_witness :
  class_access_is_allowed example_world (with_posture true true true example_class_context)
    "os" "system" false = Ok false
  /\ class_access_is_allowed example_world (with_posture false false false example_class_context)
       "json" "JSONDecoder" false = Ok true
  /\ module_access_is_allowed example_world (with_posture true true true example_class_context)
       "os" = false
  /\ module_access_is_allowed example_world (with_posture false false false example_class_context)
       "json" = true
  /\ get_type example_world example_class_context "pickle" "Unpickler" false
     = Raise (AccessDenied (VStr "pickle") (VStr "Unpickler") "default").
Proof.
  destruct (access_control_precedence example_world example_class_context
              "os" "system" false) as (Hcd & _ & Hmd & _ & _).
  destruct (access_control_precedence example_world example_class_context
              "json" "JSONDecoder" false) as (_ & Hca & _ & Hma & _).
  destruct (access_control_precedence example_world example_class_context
              "pickle" "Unpickler" false) as (_ & _ & _ & _ & Hget).
  split; [|split; [|split; [|split]]].
  - apply Hcd. by_computation.
  - apply Hca; by_computation.
  - apply Hmd. by_computation.
  - apply Hma; by_computation.
  - apply Hget; vm_compute; reflexivity.
Defined.

(** ** Registration in a context *)

Section RegisterFacts.
Variable w : World.

Lemma register_key_Ok caller overwrite type_ module_name class_name self self' :
  register_key caller overwrite type_ module_name class_name self = Ok self' ->
  exists locations,
    self' = set_registration (key_of type_ module_name class_name) type_ caller
              locations self.
Proof.
  unfold register_key, key_of. intros H.
  destruct (negb _).
  { destruct (registered_from self !! _); discriminate. }
  simpl in H. destruct overwrite; simpl in H.
  - destruct (registry self !! _) as [old|]; simpl in H.
    + destruct (location_map self !! old); simpl in H; [|discriminate].
      injection H as <-. eauto.
    + injection H as <-. eauto.
  - injection H as <-. eauto.
Qed.

Lemma register_key_fresh caller overwrite type_ module_name class_name self :
registry self !! key_of type_ module_name class_name = None ->
register_key caller overwrite type_ module_name class_name self
= Ok (set_registration (key_of type_ module_name class_name) type_ caller
        (location_map self) self).
Proof.
  unfold register_key, key_of. intros Hr. rewrite Hr.
  destruct overwrite; simpl; [done|].
  destruct (bool_decide (None = Some type_)); done.
Qed.

Lemma register_key_conflict caller type_ module_name class_name self old info :
  registry self !! key_of type_ module_name class_name = Some old ->
  old <> type_ ->
  registered_from self !! key_of type_ module_name class_name = Some info ->
  register_key caller false type_ module_name class_name self
  = Raise (NamingConflict info).
Proof.
  unfold register_key, key_of. intros Hr Hne Hf. rewrite Hr, Hf. simpl.
  rewrite bool_decide_eq_false_2 by congruence. done.
Qed.

Lemma register_key_same caller type_ module_name class_name self :
  registry self !! key_of type_ module_name class_name = Some type_ ->
  register_key caller false type_ module_name class_name self
  = Ok (set_registration (key_of type_ module_name class_name) type_ caller
          (location_map self) self).
Proof.
  unfold register_key, key_of. intros Hr. rewrite Hr. simpl.
  by rewrite bool_decide_eq_true_2.
Qed.

Lemma register_key_overwrite caller type_ module_name class_name self old location :
  registry self !! key_of type_ module_name class_name = Some old ->
  location_map self !! old = Some location ->
  register_key caller true type_ module_name class_name self
  = Ok (set_registration (key_of type_ module_name class_name) type_ caller
          (delete old (location_map self)) self).
Proof.
  unfold register_key, key_of. intros Hr Hl. simpl. by rewrite Hr, Hl.
Qed.

(** Registering one class that is no WrapAutoConfig, without [auto]. *)
Lemma register_plain caller overwrite type_ module_name class_name self g :
  WrapAutoConfig_class w type_ = None ->
  register w caller overwrite false (one_type type_ module_name class_name) self g
  = match register_key caller overwrite type_ module_name class_name self with
    | Ok self' => ((self', g), Ok tt)
    | Raise e => ((self, g), Raise e)
    | Diverge => ((self, g), Diverge)
    end.
Proof.
  intros Hplain. unfold register; simpl. rewrite Hplain. simpl.
  by destruct (register_key _ _ _ _ _ _).
Qed.
End RegisterFacts.

(** C6, as the code has it: once a class is registered in a context,
    registering a different class under the same (module, class) pair
    without [overwrite] raises NamingConflict with the provenance of the
    first registration, and leaves the context as it was; with [overwrite]
    it succeeds, the pair is bound to the new class, and the reverse-lookup
    entry of the old class is gone. *)
Theorem register_twice (w : World) (first second : Traceback) (overwrite1 : bool)
    (T1 T2 : pytype) (module1 class1 module2 class2 : option string)
    (self self1 : Context) (g g1 : Globals) :
  WrapAutoConfig_class w T1 = None ->
  WrapAutoConfig_class w T2 = None ->
  key_of T1 module1 class1 = key_of T2 module2 class2 ->
  T1 <> T2 ->
  register w first overwrite1 false (one_type T1 module1 class1) self g
  = ((self1, g1), Ok tt) ->
  register w second false false (one_type T2 module2 class2) self1 g1
  = ((self1, g1), Raise (NamingConflict first))
  /\ exists self2,
       register w second true false (one_type T2 module2 class2) self1 g1
       = ((self2, g1), Ok tt)
       /\ registry self2 !! key_of T2 module2 class2 = Some T2
       /\ registered_from self2 !! key_of T2 module2 class2 = Some second
       /\ location_map self2 !! T1 = None
       /\ location_map self2 !! T2 = Some (key_of T2 module2 class2).
Proof.
  intros Hp1 Hp2 Hkey Hne Hfirst.
  rewrite register_plain in Hfirst by done.
  destruct (register_key first overwrite1 T1 module1 class1 self) as [s| |] eqn:Hk;
    try discriminate.
  injection Hfirst as -> ->.
  apply register_key_Ok in Hk as [locations ->].
  rewrite !register_plain by done. rewrite <- Hkey.
  split.
  - erewrite register_key_conflict; [done| |done|]; rewrite <- Hkey; simpl.
    + apply lookup_insert_eq.
    + apply lookup_insert_eq.
  - eexists. erewrite register_key_overwrite; cycle 1.
    + rewrite <- Hkey. simpl. apply lookup_insert_eq.
    + simpl. apply lookup_insert_eq.
    + rewrite <- Hkey. split; [done|]. cbn.
      rewrite !lookup_insert_eq. repeat split.
      rewrite lookup_insert_ne by congruence. apply lookup_delete_eq.
Qed.

Lemma register_Point_first :
  register example_world first_site false false (one_type Point None None)
    (new_Context example_world "default") (module_globals example_world example_site)
  = ((Point_registered, module_globals example_world example_site), Ok tt).
Proof.
  rewrite register_plain by reflexivity.
  rewrite register_key_fresh by apply lookup_empty. reflexivity.
Defined.

Lemma register_twice_witness :
  register example_world second_site false false (one_type Point' None None)
    Point_registered (module_globals example_world example_site)
  = ((Point_registered, module_globals example_world example_site),
     Raise (NamingConflict first_site))
  /\ exists self2,
       register example_world second_site true false (one_type Point' None None)
         Point_registered (module_globals example_world example_site)
       = ((self2, module_globals example_world example_site), Ok tt)
       /\ registry self2 !! key_of Point' None None = Some Point'
       /\ registered_from self2 !! key_of Point' None None = Some second_site
       /\ location_map self2 !! Point = None
       /\ location_map self2 !! Point' = Some (key_of Point' None None).
Proof.
  apply (register_twice example_world first_site second_site false Point Point'
           None None None None (new_Context example_world "default")
           Point_registered (module_globals example_world example_site)
           (module_globals example_world example_site)).
  - reflexivity.
  - reflexivity.
  - reflexivity.
  - discriminate.
  - apply register_Point_first.
Defined.

(** C6, as stated, fails: the same class registered a second time under
    its pair, without [overwrite], is accepted. *)
Lemma register_same_class_twice :
  register example_world first_site false false (one_type Point None None)
    (new_Context example_world "default") (module_globals example_world example_site)
  = ((Point_registered, module_globals example_world example_site), Ok tt)
  /\ register example_world second_site false false (one_type Point None None)
       Point_registered (module_globals example_world example_site)
     = ((set_registration ("app", "Point") Point second_site
           (location_map Point_registered) Point_registered,
         module_globals example_world example_site), Ok tt).
Proof.
  split; [apply register_Point_first|].
  rewrite register_plain by reflexivity.
  rewrite register_key_same; [reflexivity|]. apply lookup_insert_eq.
Qed.

(** ** The hook registry *)

Section HookRegistry.
Variable caller : Traceback.

Lemma check_unregistered_conflict {H} (types : list pytype) (reg : gmap pytype H)
    (from : gmap pytype Traceback) :
  (forall t, is_Some (reg !! t) -> is_Some (from !! t)) ->
  (exists t, t ∈ types /\ is_Some (reg !! t)) ->
  exists t info,
    t ∈ types /\ is_Some (reg !! t) /\ from !! t = Some info
    /\ check_unregistered types reg from = Raise (NamingConflict info).
Proof.
  intros Hinv. induction types as [|t0 rest IH]; intros (t & Hin & Hreg).
  - by apply elem_of_nil in Hin.
  - simpl. destruct (reg !! t0) as [h|] eqn:H0.
    + destruct (Hinv t0) as [info Hinfo]; [by rewrite H0|].
      exists t0, info. rewrite Hinfo. split; [left|]. split; [by rewrite H0|done].
    + apply elem_of_cons in Hin as [->|Hin].
      { rewrite H0 in Hreg. by destruct Hreg. }
      destruct IH as (t' & info & ? & ? & ? & ?); [by eauto|].
      exists t', info. split; [by right|done].
Qed.

(** Without [overwrite], a type that has an entry makes the registration
    raise, whether the function is passed or not: the error carries the
    provenance of an earlier registration. *)
Lemma config_getter_conflict types typed_ func g :
  (forall t, is_Some (GET_CONFIG_REGISTRY g !! t) -> is_Some (GET_CONFIG_FROM g !! t)) ->
  (exists t, t ∈ types /\ is_Some (GET_CONFIG_REGISTRY g !! t)) ->
  exists t info,
    t ∈ types /\ GET_CONFIG_FROM g !! t = Some info
    /\ config_getter caller types typed_ func false g = Raise (NamingConflict info).
Proof.
  intros Hinv Hex.
  destruct (check_unregistered_conflict types _ _ Hinv Hex) as (t & info & ? & ? & ? & Hc).
  exists t, info. unfold config_getter. by rewrite Hc.
Qed.

Lemma config_setter_conflict types func g :
  (forall t, is_Some (CONFIGURE_REGISTRY g !! t) -> is_Some (CONFIGURE_FROM g !! t)) ->
  (exists t, t ∈ types /\ is_Some (CONFIGURE_REGISTRY g !! t)) ->
  exists t info,
    t ∈ types /\ CONFIGURE_FROM g !! t = Some info
    /\ config_setter caller types func false g = Raise (NamingConflict info).
Proof.
  intros Hinv Hex.
  destruct (check_unregistered_conflict types _ _ Hinv Hex) as (t & info & ? & ? & ? & Hc).
  exists t, info. unfold config_setter. by rewrite Hc.
Qed.

(** With [overwrite] and the function passed in the call, the entry is
    replaced. *)
Lemma config_getter_overwrite_direct type_ typed_ func g :
  exists g',
    config_getter caller [type_] typed_ (Some func) true g = Ok (g', inl func)
    /\ GET_CONFIG_REGISTRY g' !! type_
       = Some (if typed_ then config_type_boxer type_ func else func)
    /\ GET_CONFIG_FROM g' !! type_ = Some caller.
Proof.
  eexists. split; [reflexivity|]. cbn. by rewrite !lookup_insert_eq.
Qed.

Lemma config_setter_overwrite_direct type_ func g :
  exists g',
    config_setter caller [type_] (Some func) true g = Ok (g', inl func)
    /\ CONFIGURE_REGISTRY g' !! type_ = Some func
    /\ CONFIGURE_FROM g' !! type_ = Some caller.
Proof.
  eexists. split; [reflexivity|]. cbn. by rewrite !lookup_insert_eq.
Qed.
End HookRegistry.

(** C7, where the code departs from it: used as a decorator with
    [overwrite=True], [config_getter] (and [config_setter]) passes its own
    check and returns a closure that calls it again without the flag; when
    the type has an entry, applying the closure raises NamingConflict and
    the old entry stays. *)
Theorem decorator_drops_overwrite (caller : Traceback) (type_ : pytype) (typed_ : bool)
    (g : Globals) :
  (forall old info (func : getter),
     GET_CONFIG_REGISTRY g !! type_ = Some old ->
     GET_CONFIG_FROM g !! type_ = Some info ->
     exists d,
       config_getter caller [type_] typed_ None true g = Ok (g, inr d)
       /\ apply_getter_decorator caller d func g = Raise (NamingConflict info))
  /\ (forall old info (func : setter),
        CONFIGURE_REGISTRY g !! type_ = Some old ->
        CONFIGURE_FROM g !! type_ = Some info ->
        exists d,
          config_setter caller [type_] None true g = Ok (g, inr d)
          /\ apply_setter_decorator caller d func g = Raise (NamingConflict info)).
Proof.
  split; intros old info func Hreg Hfrom.
  - eexists. split; [reflexivity|].
    unfold apply_getter_decorator, config_getter; simpl. by rewrite Hreg, Hfrom.
  - eexists. split; [reflexivity|].
    unfold apply_setter_decorator, config_setter; simpl. by rewrite Hreg, Hfrom.
Qed.

(** [@config_getter(int, overwrite=True)] and [@config_setter(int,
    overwrite=True)] applied to new hooks, after import. *)
Lemma decorator_drops_overwrite_witness :
  (exists d,
     config_getter second_site [py_int] true None true
       (module_globals example_world example_site)
     = Ok (module_globals example_world example_site, inr d)
     /\ apply_getter_decorator second_site d get_iterable_config
          (module_globals example_world example_site)
        = Raise (NamingConflict example_site))
  /\ (exists d,
        config_setter second_site [py_int] None true
          (module_globals example_world example_site)
        = Ok (module_globals example_world example_site, inr d)
        /\ apply_setter_decorator second_site d configure_iterable
             (module_globals example_world example_site)
           = Raise (NamingConflict example_site)).
Proof.
  destruct (decorator_drops_overwrite second_site py_int true
              (module_globals example_world example_site)) as [Hget Hset].
  split.
  - apply (Hget get_simple_config); vm_compute; reflexivity.
  - apply (Hset configure_simple); vm_compute; reflexivity.
Defined.

(** ** The boxing protocol *)

Lemma py_eq_str (v : value) (s : string) : py_eq v (VStr s) = true <-> v = VStr s.
Proof.
  destruct v; simpl; try (split; [discriminate|]; discriminate).
  rewrite String.eqb_eq. split; congruence.
Qed.

Lemma py_eq_str_refl (s : string) : py_eq (VStr s) (VStr s) = true.
Proof. by apply py_eq_str. Qed.

Lemma dict_get_str_Some (s : string) (items : list (value * value)) :
  VStr s ∈ map fst items -> is_Some (dict_get (VStr s) items).
Proof.
  induction items as [|[k v] rest IH]; simpl; intros Hin.
  - by apply elem_of_nil in Hin.
  - destruct (py_eq k (VStr s)) eqn:E; [by eexists|].
    apply elem_of_cons in Hin as [Heq|Hin]; [|by apply IH].
    subst k. by rewrite py_eq_str_refl in E.
Qed.

Lemma dict_get_str_elem (s : string) (items : list (value * value)) (v : value) :
  dict_get (VStr s) items = Some v -> (VStr s, v) ∈ items.
Proof.
  induction items as [|[k v'] rest IH]; simpl; [done|].
  destruct (py_eq k (VStr s)) eqn:E.
  - apply py_eq_str in E as ->. intros [= ->]. left.
  - intros H. right. by apply IH.
Qed.

Lemma keys_distinct_NoDup_str (items : list (value * value)) :
  keys_distinct items = true ->
  Forall (fun kv => is_str (fst kv) = true) items ->
  NoDup (map fst items).
Proof.
  induction items as [|[k v] rest IH]; simpl; [constructor|].
  rewrite andb_true_iff, negb_true_iff. intros [Hk Hrest] Hstr.
  inversion Hstr as [|? ? Hks Hstr']; subst. constructor; [|by apply IH].
  intros Hin. apply list_elem_of_fmap in Hin as ([k' v'] & -> & Hin').
  simpl in *. destruct k'; try discriminate.
  assert (existsb (fun kv => py_eq (fst kv) (VStr s)) rest = true) as Hex; [|congruence].
  apply existsb_exists. exists (VStr s, v'). split; [by apply list_elem_of_In|].
  apply py_eq_str_refl.
Qed.

Lemma keys_are_box_keys_str (items : list (value * value)) :
  keys_are_box_keys items = true ->
  Forall (fun kv => is_str (fst kv) = true) items
  /\ Forall (fun kv => fst kv ∈ box_key_values) items
  /\ length items = 3%nat.
Proof.
  unfold keys_are_box_keys. rewrite andb_true_iff, Nat.eqb_eq, forallb_forall.
  intros [Hlen Hall]. split; [|split; [|done]].
  - apply Forall_forall. intros [k v] Hin%list_elem_of_In%Hall. simpl in *.
    by destruct k.
  - apply Forall_forall. intros [k v] Hin%list_elem_of_In%Hall. simpl in *.
    destruct k; try discriminate. apply bool_decide_eq_true in Hin.
    unfold box_key_values. apply list_elem_of_fmap. eauto.
Qed.

(** On a dictionary, the test of the code is the spec's key-set condition. *)
Lemma is_boxed_iff_key_set (items : list (value * value)) :
  keys_distinct items = true ->
  is_boxed (VDict items) = true <-> has_box_key_set (VDict items).
Proof.
  intros Hwf. assert (NoDup box_key_values) as Hnd.
  { unfold box_key_values, box_keys. simpl.
    repeat (constructor; [rewrite ?elem_of_cons, elem_of_nil; intros H;
                          repeat (destruct H as [H|H]; try discriminate); done|]).
    constructor. }
  split.
  - intros Hb. simpl in Hb. destruct (keys_are_box_keys_str _ Hb) as (Hstr & Hin & Hlen).
    exists items. split; [done|].
    pose proof (keys_distinct_NoDup_str _ Hwf Hstr) as Hnd'.
    assert (map fst items ⊆ box_key_values) as Hsub.
    { intros k ([k' v] & -> & Hk)%list_elem_of_fmap.
      rewrite Forall_forall in Hin. by apply (Hin (k', v)). }
    assert (map fst items ≡ₚ box_key_values) as Hperm.
    { apply submseteq_length_Permutation; [by apply NoDup_submseteq|].
      by rewrite length_map, Hlen. }
    intros k. by rewrite Hperm.
  - intros (items' & [= <-] & Hset). simpl. unfold keys_are_box_keys.
    assert (Forall (fun kv => is_str (fst kv) = true) items) as Hstr.
    { apply Forall_forall. intros [k v] Hin.
      assert (k ∈ box_key_values) as Hk.
      { apply Hset. apply list_elem_of_fmap. by exists (k, v). }
      apply list_elem_of_fmap in Hk as (s & -> & _). done. }
    pose proof (keys_distinct_NoDup_str _ Hwf Hstr) as Hnd'.
    assert (map fst items ≡ₚ box_key_values) as Hperm by by apply NoDup_Permutation.
    apply andb_true_iff. split.
    + apply Nat.eqb_eq. rewrite <- (length_map fst items), Hperm. done.
    + apply forallb_forall. intros [k v] Hin%list_elem_of_In. simpl.
      assert (k ∈ box_key_values) as Hk.
      { apply Hset. apply list_elem_of_fmap. by exists (k, v). }
      apply list_elem_of_fmap in Hk as (s & -> & Hs). by apply bool_decide_eq_true.
Qed.

Lemma not_boxed_iff (c : value) :
  well_formed_dict c = true ->
  is_boxed c = false <-> ~ has_box_key_set c.
Proof.
  intros Hwf. destruct (is_boxed c) eqn:Hb.
  - split; [discriminate|]. intros Hn. exfalso. apply Hn.
    destruct c; try discriminate. by apply is_boxed_iff_key_set.
  - split; [|done]. intros _ Hk. destruct Hk as (items & -> & Hset).
    assert (is_boxed (VDict items) = true); [|congruence].
    apply is_boxed_iff_key_set; [done|]. by exists items.
Qed.

(** A boxed value has an entry under each of the three keys. *)
Lemma boxed_subscripts (c : value) :
  has_box_key_set c ->
  exists m cl inst,
    subscript c "__module__" = Ok m
    /\ subscript c "__class__" = Ok cl
    /\ subscript c "__instance__" = Ok inst.
Proof.
  intros (items & -> & Hset).
  assert (forall s, s ∈ box_keys -> exists v, subscript (VDict items) s = Ok v) as Hget.
  { intros s Hs. destruct (dict_get_str_Some s items) as [v Hv].
    - apply Hset. unfold box_key_values. apply list_elem_of_fmap. eauto.
    - exists v. simpl. unfold dict_getitem. simpl. by rewrite Hv. }
  destruct (Hget "__module__") as [m Hm]; [by_computation|].
  destruct (Hget "__class__") as [cl Hcl]; [by_computation|].
  destruct (Hget "__instance__") as [inst Hinst]; [by_computation|].
  by exists m, cl, inst.
Qed.

Lemma box_facts (module_name class_name : string) (config : value) :
  has_box_key_set (box module_name class_name config)
  /\ is_boxed (box module_name class_name config) = true
  /\ subscript (box module_name class_name config) "__module__" = Ok (VStr module_name)
  /\ subscript (box module_name class_name config) "__class__" = Ok (VStr class_name)
  /\ subscript (box module_name class_name config) "__instance__" = Ok config.
Proof.
  split; [|by repeat split].
  eexists. split; [reflexivity|]. intros k. simpl. unfold box_key_values. simpl. done.
Qed.

Section BoxingFacts.
Variable w : World.
Variable g : Globals.

Lemma is_boxed_as_same config module_name class_name :
  is_boxed config = true ->
  subscript config "__module__" = Ok (VStr module_name) ->
  subscript config "__class__" = Ok (VStr class_name) ->
  is_boxed_as config module_name class_name = Ok true.
Proof.
  intros Hb Hm Hc. unfold is_boxed_as. rewrite Hb, Hm. cbn.
  rewrite String.eqb_refl. cbn. rewrite Hc. cbn. by rewrite String.eqb_refl.
Qed.

Lemma is_boxed_as_unboxed config module_name class_name :
  is_boxed config = false ->
  is_boxed_as config module_name class_name = Ok false.
Proof. intros Hb. unfold is_boxed_as. by rewrite Hb. Qed.

Lemma is_boxed_as_other config module_name class_name m cl :
  subscript config "__module__" = Ok m ->
  subscript config "__class__" = Ok cl ->
  (m, cl) <> (VStr module_name, VStr class_name) ->
  is_boxed_as config module_name class_name = Ok false.
Proof.
  intros Hm Hc Hne. unfold is_boxed_as.
  destruct (is_boxed config); [|done]. simpl. rewrite Hm. simpl.
  destruct (py_eq m (VStr module_name)) eqn:Em; [|done]. simpl.
  rewrite Hc. simpl.
  destruct (py_eq cl (VStr class_name)) eqn:Ec; [|done].
  apply py_eq_str in Em, Ec. congruence.
Qed.

Lemma box_type_located type_ config context ctx module_name class_name :
  CONTEXTS g !! context = Some ctx ->
  locate w ctx type_ = Ok (module_name, class_name) ->
  box_type w g type_ config context
  = (same ← is_boxed_as config module_name class_name;
     if (same : bool) then Ok config else Ok (box module_name class_name config)).
Proof.
  intros Hctx Hloc. unfold box_type, get_context. rewrite Hctx. simpl.
  by rewrite Hloc.
Qed.

Lemma unbox_type_unboxed config context :
  is_boxed config = false ->
  unbox_type w g config context = Ok (type_of w config, config).
Proof. intros Hb. unfold unbox_type. by rewrite Hb. Qed.

Lemma unbox_type_boxed config context m cl inst :
  is_boxed config = true ->
  subscript config "__module__" = Ok m ->
  subscript config "__class__" = Ok cl ->
  subscript config "__instance__" = Ok inst ->
  unbox_type w g config context
  = ('(ctx, _) ← get_context w context false g;
     type_ ← get_type_of_tag w ctx m cl;
     Ok (type_, inst)).
Proof.
  intros Hb Hm Hc Hi. unfold unbox_type. rewrite Hb.
  destruct (get_context w context false g) as [[ctx g']| |]; simpl; [|done..].
  rewrite Hm. simpl. rewrite Hc. simpl.
  destruct (get_type_of_tag w ctx m cl); simpl; [|done..]. by rewrite Hi.
Qed.
End BoxingFacts.

(** C4: a configuration that is not a mapping with exactly the three tag
    keys comes back with its own runtime type, unchanged; one that is yields
    the class its tag resolves to in the context (the lookup of
    [Context.get_type]) and the value under [__instance__]. *)
Theorem unbox_type_spec (w : World) (g : Globals) (c : value) (context : option string) :
  well_formed_dict c = true ->
  (~ has_box_key_set c -> unbox_type w g c context = Ok (type_of w c, c))
  /\ (has_box_key_set c ->
      exists m cl inst,
        subscript c "__module__" = Ok m
        /\ subscript c "__class__" = Ok cl
        /\ subscript c "__instance__" = Ok inst
        /\ unbox_type w g c context
           = ('(ctx, _) ← get_context w context false g;
              type_ ← get_type_of_tag w ctx m cl;
              Ok (type_, inst))).
Proof.
  intros Hwf. split.
  - intros Hn. apply unbox_type_unboxed. by apply not_boxed_iff.
  - intros Hk. destruct (boxed_subscripts c Hk) as (m & cl & inst & Hm & Hc & Hi).
    exists m, cl, inst. repeat split; try done.
    apply unbox_type_boxed; try done.
    destruct (is_boxed c) eqn:Hb; [done|]. by apply not_boxed_iff in Hb.
Qed.

Lemma four_keys_not_boxed : ~ has_box_key_set four_keys.
Proof. by apply not_boxed_iff. Defined.

Lemma unbox_type_spec_witness :
  unbox_type example_world (module_globals example_world example_site) four_keys None
  = Ok (py_dict, four_keys)
  /\ unbox_type example_world (module_globals example_world example_site) boxed_five None
     = Ok (py_int, VInt 5).
Proof.
  split.
  - apply (unbox_type_spec example_world (module_globals example_world example_site)
             four_keys None); [reflexivity | apply four_keys_not_boxed].
  - destruct (unbox_type_spec example_world (module_globals example_world example_site)
                boxed_five None) as [_ Hboxed]; [reflexivity|].
    destruct Hboxed as (m & cl & inst & Hm & Hc & Hi & ->); [apply box_facts|].
    injection Hm as <-. injection Hc as <-. injection Hi as <-.
    vm_compute. reflexivity.
Defined.

(** C5: for a class the context locates as (module, class), [box_type]
    returns a configuration that is already boxed with exactly that tag as
    it is; any other configuration comes back wrapped in a mapping with
    exactly the three keys, its tag (module, class) and the configuration
    under [__instance__]. *)
Theorem box_type_idempotent (w : World) (g : Globals) (type_ : pytype) (c : value)
    (context : option string) (ctx : Context) (module_name class_name : string) :
  CONTEXTS g !! context = Some ctx ->
  locate w ctx type_ = Ok (module_name, class_name) ->
  well_formed_dict c = true ->
  (has_box_key_set c ->
   subscript c "__module__" = Ok (VStr module_name) ->
   subscript c "__class__" = Ok (VStr class_name) ->
   box_type w g type_ c context = Ok c)
  /\ (~ (has_box_key_set c
         /\ subscript c "__module__" = Ok (VStr module_name)
         /\ subscript c "__class__" = Ok (VStr class_name)) ->
      box_type w g type_ c context = Ok (box module_name class_name c)
      /\ has_box_key_set (box module_name class_name c)
      /\ subscript (box module_name class_name c) "__module__" = Ok (VStr module_name)
      /\ subscript (box module_name class_name c) "__class__" = Ok (VStr class_name)
      /\ subscript (box module_name class_name c) "__instance__" = Ok c).
Proof.
  intros Hctx Hloc Hwf. rewrite (box_type_located w g _ _ _ _ _ _ Hctx Hloc). split.
  - intros Hk Hm Hc. rewrite is_boxed_as_same; try done.
    destruct (is_boxed c) eqn:Hb; [done|]. by apply not_boxed_iff in Hb.
  - intros Hn.
    assert (is_boxed_as c module_name class_name = Ok false) as ->.
    { destruct (is_boxed c) eqn:Hb; [|by apply is_boxed_as_unboxed].
      assert (has_box_key_set c) as Hk.
      { destruct c; try discriminate. by apply is_boxed_iff_key_set. }
      destruct (boxed_subscripts c Hk) as (m & cl & inst & Hm & Hc & _).
      apply (is_boxed_as_other _ _ _ m cl); try done.
      intros [= -> ->]. by apply Hn. }
    split; [done|]. pose proof (box_facts module_name class_name c). tauto.
Qed.

Lemma box_type_idempotent_witness :
  box_type example_world Point_globals Point (box "app" "Point" (VDict [])) None
  = Ok (box "app" "Point" (VDict []))
  /\ box_type example_world Point_globals Point (VDict []) None
     = Ok (box "app" "Point" (VDict [])).
Proof.
  destruct (box_type_idempotent example_world Point_globals Point
              (box "app" "Point" (VDict [])) None Point_registered "app" "Point")
    as [Hsame _]; [reflexivity..|].
  destruct (box_type_idempotent example_world Point_globals Point
              (VDict []) None Point_registered "app" "Point")
    as [_ Hwrap]; [reflexivity..|].
  split.
  - apply Hsame; [apply box_facts | reflexivity | reflexivity].
  - apply Hwrap. intros [_ [Hm _]]. discriminate Hm.
Defined.

(** C10: a configuration that is boxed under a tag other than the one the
    context gives the class is wrapped again: the result is a boxed value
    with the class's tag whose [__instance__] is the whole inner boxed
    value. *)
Theorem box_type_rewraps_other_tag (w : World) (g : Globals) (type_ : pytype)
    (c : value) (context : option string) (ctx : Context)
    (module_name class_name : string) (m cl : value) :
  CONTEXTS g !! context = Some ctx ->
  locate w ctx type_ = Ok (module_name, class_name) ->
  has_box_key_set c ->
  subscript c "__module__" = Ok m ->
  subscript c "__class__" = Ok cl ->
  (m, cl) <> (VStr module_name, VStr class_name) ->
  box_type w g type_ c context = Ok (box module_name class_name c)
  /\ has_box_key_set (box module_name class_name c)
  /\ subscript (box module_name class_name c) "__module__" = Ok (VStr module_name)
  /\ subscript (box module_name class_name c) "__class__" = Ok (VStr class_name)
  /\ subscript (box module_name class_name c) "__instance__" = Ok c.
Proof.
  intros Hctx Hloc Hk Hm Hc Hne.
  rewrite (box_type_located w g _ _ _ _ _ _ Hctx Hloc).
  rewrite (is_boxed_as_other _ _ _ m cl) by done.
  split; [done|]. pose proof (box_facts module_name class_name c). tauto.
Qed.

Lemma box_type_rewraps_other_tag_witness :
  box_type example_world Point_globals Point boxed_five None
  = Ok (box "app" "Point" boxed_five)
  /\ has_box_key_set (box "app" "Point" boxed_five)
  /\ subscript (box "app" "Point" boxed_five) "__module__" = Ok (VStr "app")
  /\ subscript (box "app" "Point" boxed_five) "__class__" = Ok (VStr "Point")
  /\ subscript (box "app" "Point" boxed_five) "__instance__" = Ok boxed_five.
Proof.
  apply (box_type_rewraps_other_tag example_world Point_globals Point boxed_five None
           Point_registered "app" "Point" (VStr "builtins") (VStr "int")).
  - reflexivity.
  - reflexivity.
  - apply box_facts.
  - reflexivity.
  - reflexivity.
  - discriminate.
Defined.

(** ** The [typed] flag of [get_config] *)

Lemma bind_Ok {A B} (m : result A) (k : A -> result B) (b : B) :
  m ≫= k = Ok b -> exists a, m = Ok a /\ k a = Ok b.
Proof. destruct m; simpl; [eauto|discriminate..]. Qed.

Lemma is_boxed_as_true_inv (config : value) (module_name class_name : string) :
  is_boxed_as config module_name class_name = Ok true ->
  is_boxed config = true
  /\ subscript config "__module__" = Ok (VStr module_name)
  /\ subscript config "__class__" = Ok (VStr class_name).
Proof.
  unfold is_boxed_as. destruct (is_boxed config); simpl; [|discriminate].
  intros H. split; [done|].
  destruct (subscript config "__module__") as [m| |]; simpl in H; try discriminate.
  destruct (py_eq m (VStr module_name)) eqn:Em; simpl in H; [|discriminate].
  destruct (subscript config "__class__") as [cl| |]; simpl in H; try discriminate.
  injection H as Ec. apply py_eq_str in Em, Ec. by subst.
Qed.

(** What [box_type] returns is boxed, under the tag the context gives the
    class. *)
Lemma box_type_Ok (w : World) (g : Globals) (type_ : pytype) (config r : value)
    (context : option string) :
  box_type w g type_ config context = Ok r ->
  exists ctx module_name class_name,
    CONTEXTS g !! context = Some ctx
    /\ locate w ctx type_ = Ok (module_name, class_name)
    /\ is_boxed r = true
    /\ subscript r "__module__" = Ok (VStr module_name)
    /\ subscript r "__class__" = Ok (VStr class_name).
Proof.
  unfold box_type, get_context. intros H.
  destruct (CONTEXTS g !! context) as [ctx|] eqn:Hctx; [|discriminate]. simpl in H.
  destruct (locate w ctx type_) as [[m cl]| |] eqn:Hloc; simpl in H; try discriminate.
  destruct (is_boxed_as config m cl) as [[]| |] eqn:Hsame; simpl in H; try discriminate;
    injection H as <-; exists ctx, m, cl; repeat split; try done.
  - by apply is_boxed_as_true_inv in Hsame as (? & ? & ?).
  - by apply is_boxed_as_true_inv in Hsame as (? & ? & ?).
  - by apply is_boxed_as_true_inv in Hsame as (? & ? & ?).
Qed.

(** What [unbox_type] returns as configuration: the configuration itself, or
    what it holds under [__instance__]. *)
Lemma unbox_type_Ok (w : World) (g : Globals) (config r : value) (type_ : pytype)
    (context : option string) :
  unbox_type w g config context = Ok (type_, r) ->
  (is_boxed config = false /\ r = config)
  \/ (is_boxed config = true /\ subscript config "__instance__" = Ok r).
Proof.
  unfold unbox_type. destruct (is_boxed config); [|intros [= _ <-]; by left].
  intros H. right. split; [done|].
  apply bind_Ok in H as ([ctx g'] & _ & H).
  apply bind_Ok in H as (m & _ & H). apply bind_Ok in H as (cl & _ & H).
  apply bind_Ok in H as (t & _ & H). apply bind_Ok in H as (inst & Hi & H).
  by injection H as _ <-.
Qed.

(** C3, as the code has it.  When [get_config] returns with [typed] true,
    or unset on a Configurable object, the result is boxed under the tag
    the context gives the object's runtime type.  With [typed] false one box
    is removed from what the object's encoder produced: the result is that
    configuration itself when it is not boxed, and what it holds under
    [__instance__] when it is. *)
Theorem get_config_typed (w : World) (g : Globals) (fuel : nat) (obj : value)
    (typed_ : option bool) (context : option string) (r : value) :
  get_config w g fuel obj typed_ context = Ok r ->
  (typed_ = Some true \/ (typed_ = None /\ is_Some (Configurable_of w obj)) ->
   exists ctx module_name class_name,
     CONTEXTS g !! context = Some ctx
     /\ locate w ctx (type_of w obj) = Ok (module_name, class_name)
     /\ is_boxed r = true
     /\ subscript r "__module__" = Ok (VStr module_name)
     /\ subscript r "__class__" = Ok (VStr class_name))
  /\ (typed_ = Some false ->
      exists fuel' config,
        fuel = S fuel'
        /\ get_config_dispatch w g (get_config w g fuel') (configure w g fuel') obj context
           = Ok config
        /\ ((is_boxed config = false /\ r = config)
            \/ (is_boxed config = true /\ subscript config "__instance__" = Ok r))).
Proof.
  destruct fuel as [|fuel']; [discriminate|]. simpl. unfold get_config_body.
  intros H. apply bind_Ok in H as (config & Hd & H). split.
  - intros [->|[-> [impl Himpl]]].
    + by apply box_type_Ok in H.
    + rewrite Himpl in H. by apply box_type_Ok in H.
  - intros ->. exists fuel', config. split; [done|]. split; [done|].
    apply bind_Ok in H as ([t c'] & Hu & [= <-]). by apply unbox_type_Ok in Hu.
Qed.

Lemma get_config_typed_witness :
  (exists ctx module_name class_name,
      CONTEXTS (module_globals example_world example_site) !! None = Some ctx
      /\ locate example_world ctx py_tuple = Ok (module_name, class_name)
      /\ is_boxed (box "builtins" "tuple" (VList [VInt 1])) = true
      /\ subscript (box "builtins" "tuple" (VList [VInt 1])) "__module__"
         = Ok (VStr module_name)
      /\ subscript (box "builtins" "tuple" (VList [VInt 1])) "__class__"
         = Ok (VStr class_name))
  /\ (exists fuel' config,
        3%nat = S fuel'
        /\ get_config_dispatch example_world (module_globals example_world example_site)
             (get_config example_world (module_globals example_world example_site) fuel')
             (configure example_world (module_globals example_world example_site) fuel')
             (VTuple [VInt 1]) None
           = Ok config
        /\ ((is_boxed config = false /\ VList [VInt 1] = config)
            \/ (is_boxed config = true
                /\ subscript config "__instance__" = Ok (VList [VInt 1])))).
Proof.
  split.
  - apply (get_config_typed example_world (module_globals example_world example_site)
             3 (VTuple [VInt 1]) (Some true) None).
    + vm_compute. reflexivity.
    + by left.
  - apply (get_config_typed example_world (module_globals example_world example_site)
             3 (VTuple [VInt 1]) (Some false) None).
    + vm_compute. reflexivity.
    + reflexivity.
Defined.

(** C3, as stated, fails for [typed=False]: the result can be a boxed
    value. *)
Lemma get_config_untyped_still_boxed :
  get_config example_world (module_globals example_world example_site) 3
    boxed_twice (Some false) None = Ok boxed_five
  /\ is_boxed boxed_five = true
  /\ has_box_key_set boxed_five.
Proof.
  split; [vm_compute; reflexivity|]. split; [reflexivity|]. apply box_facts.
Qed.

(** ** Encoding the properties of an object *)

Lemma dict_get_replace_same (key v : value) (items : list (value * value)) :
  is_Some (dict_get key items) -> dict_get key (dict_replace key v items) = Some v.
Proof.
  induction items as [|[k v'] rest IH]; simpl; [by intros []|].
  destruct (py_eq k key) eqn:E; simpl; rewrite E; [done|]. apply IH.
Qed.

Lemma dict_get_replace_other (s s' : string) (v : value) (items : list (value * value)) :
  s <> s' ->
  dict_get (VStr s') (dict_replace (VStr s) v items) = dict_get (VStr s') items.
Proof.
  intros Hne. induction items as [|[k v'] rest IH]; simpl; [done|].
  destruct (py_eq k (VStr s)) eqn:E; simpl.
  - apply py_eq_str in E as ->. simpl.
    destruct (String.eqb s s') eqn:E'; [|done]. by apply String.eqb_eq in E'.
  - by rewrite IH.
Qed.

Lemma dict_get_app (key : value) (items items' : list (value * value)) :
  dict_get key (items ++ items')
  = match dict_get key items with
    | Some v => Some v
    | None => dict_get key items'
    end.
Proof.
  induction items as [|[k v] rest IH]; simpl; [done|]. by destruct (py_eq k key).
Qed.

(** Storing under a string key, and reading back. *)
Lemma dict_setitem_str (s : string) (v : value) (items : list (value * value)) :
  exists items',
    dict_setitem (VStr s) v items = Ok items'
    /\ dict_get (VStr s) items' = Some v
    /\ forall s', s <> s' -> dict_get (VStr s') items' = dict_get (VStr s') items.
Proof.
  unfold dict_setitem. simpl. destruct (dict_get (VStr s) items) as [old|] eqn:Hget.
  - eexists. split; [done|]. split.
    + apply dict_get_replace_same. by rewrite Hget.
    + intros s' Hne. by apply dict_get_replace_other.
  - eexists. split; [done|]. split.
    + rewrite dict_get_app, Hget. simpl. by rewrite String.eqb_refl.
    + intros s' Hne. rewrite dict_get_app. destruct (dict_get (VStr s') items); [done|].
      simpl. destruct (String.eqb s s') eqn:E; [|done]. by apply String.eqb_eq in E.
Qed.

Section PropertiesConfig.
Variable w : World.
Variable g : Globals.
Variable rec : value -> option bool -> option string -> result value.
Variable is_unconfigured : string -> bool.
Variable property_type_of : string -> option pytype.
Variable instance : value.
Variable context : option string.

Lemma properties_config_entry (names : list string) :
  forall (acc config : list (value * value)) (property_name : string) (t : pytype),
    properties_config w g rec is_unconfigured property_type_of instance context names acc
    = Ok config ->
    property_type_of property_name = Some t ->
    is_encoded w is_unconfigured instance property_name ->
    property_name ∈ names
    \/ (exists entry, declared_entry w g rec instance context property_name entry
                      /\ dict_get (VStr property_name) acc = Some entry) ->
    exists entry, declared_entry w g rec instance context property_name entry
                  /\ dict_get (VStr property_name) config = Some entry.
Proof.
  induction names as [|n rest IH]; intros acc config p t Hrun Ht Henc Hcase.
  - simpl in Hrun. injection Hrun as <-. destruct Hcase as [Hin|Hacc]; [|done].
    by apply elem_of_nil in Hin.
  - simpl in Hrun. destruct (decide (n = p)) as [->|Hne].
    + destruct Henc as [Hu Hc]. rewrite Hu in Hrun. simpl in Hc. rewrite Hc in Hrun.
      apply bind_Ok in Hrun as (pc & Hpc & Hrun). rewrite Ht in Hrun.
      apply bind_Ok in Hrun as (entry & Hentry & Hrun).
      apply bind_Ok in Hentry as ([ty u] & Hunbox & [= <-]).
      apply bind_Ok in Hrun as (acc' & Hset & Hrun).
      destruct (dict_setitem_str p (VTuple [VType ty; u]) acc)
        as (acc'' & Hset' & Hget & _).
      rewrite Hset' in Hset. injection Hset as <-.
      apply (IH _ _ p t Hrun Ht); [done|]. right. eexists. split; [|done].
      by exists pc, ty, u.
    + assert (p ∈ rest \/ (exists entry, declared_entry w g rec instance context p entry
                                         /\ dict_get (VStr p) acc = Some entry)) as Hcase'.
      { destruct Hcase as [Hin|Hacc]; [|by right].
        apply elem_of_cons in Hin as [->|Hin]; [done|by left]. }
      destruct (is_unconfigured n); [by apply (IH _ _ p t Hrun)|].
      destruct (callable _ && negb _); [by apply (IH _ _ p t Hrun)|].
      apply bind_Ok in Hrun as (pc & Hpc & Hrun).
      apply bind_Ok in Hrun as (entry & Hentry & Hrun).
      apply bind_Ok in Hrun as (acc' & Hset & Hrun).
      destruct (dict_setitem_str n entry acc) as (acc'' & Hset' & _ & Hother).
      rewrite Hset' in Hset. injection Hset as <-.
      apply (IH _ _ p t Hrun Ht); [done|].
      destruct Hcase' as [Hin|(e & He & Hacc)]; [by left|]. right.
      exists e. split; [done|]. by rewrite Hother.
Qed.
End PropertiesConfig.

(** C8, where the code departs from it.  For a property with a declared
    type, AutoConfigured.get_config and WrapAutoConfig.get_config bind
    [property_config] to what [unbox_type] returns, which is the pair
    (type, configuration): the entry of the encoded mapping is that pair,
    a tuple holding a class object, and not the unboxed configuration. *)
Theorem declared_property_encoded_as_pair (w : World) (g : Globals)
    (rec : value -> option bool -> option string -> result value)
    (context : option string) (property_name : string) (t : pytype) :
  (forall is_unconfigured property_type_of self config,
     AutoConfigured_get_config w g rec is_unconfigured property_type_of self context
     = Ok config ->
     property_type_of property_name = Some t ->
     property_name ∈ dir_value w self ->
     is_encoded w is_unconfigured self property_name ->
     exists entry,
       declared_entry w g rec self context property_name entry
       /\ subscript config property_name = Ok entry
       /\ is_Configuration entry = false)
  /\ (forall wrap instance config,
        WrapAutoConfig_get_config_method w g rec wrap instance context = Ok config ->
        WrapAutoConfig_get_property_type wrap property_name = Some t ->
        property_name ∈ dir_value w instance ->
        is_encoded w (WrapAutoConfig_is_unconfigured_property wrap) instance property_name ->
        exists entry,
          declared_entry w g rec instance context property_name entry
          /\ subscript config property_name = Ok entry
          /\ is_Configuration entry = false).
Proof.
  assert (forall is_unconfigured property_type_of self config,
            VDict <$> properties_config w g rec is_unconfigured property_type_of self
                        context (dir_value w self) [] = Ok config ->
            property_type_of property_name = Some t ->
            property_name ∈ dir_value w self ->
            is_encoded w is_unconfigured self property_name ->
            exists entry,
              declared_entry w g rec self context property_name entry
              /\ subscript config property_name = Ok entry
              /\ is_Configuration entry = false) as Hloop.
  { intros is_unconfigured property_type_of self config Hrun Ht Hin Henc.
    destruct (properties_config _ _ _ _ _ _ _ _ _) as [items| |] eqn:Hitems;
      try discriminate.
    injection Hrun as <-.
    destruct (properties_config_entry w g rec is_unconfigured property_type_of self
                context _ _ _ property_name t Hitems Ht Henc) as (entry & He & Hget);
      [by left|].
    exists entry. split; [done|]. split.
    - simpl. unfold dict_getitem. simpl. by rewrite Hget.
    - by destruct He as (? & ? & ? & _ & _ & ->). }
  split.
  - intros. by eapply Hloop.
  - intros wrap instance config. apply Hloop.
Qed.

Lemma declared_property_encoded_as_pair_witness :
  (exists entry,
     declared_entry Point_world Point_globals (get_config Point_world Point_globals 2)
       a_point None "x" entry
     /\ subscript (VDict [(VStr "x", VTuple [VType py_int; VInt 5])]) "x" = Ok entry
     /\ is_Configuration entry = false)
  /\ (exists entry,
        declared_entry Point_world Point_globals (get_config Point_world Point_globals 2)
          a_point' None "x" entry
        /\ subscript (VDict [(VStr "x", VTuple [VType py_int; VInt 5])]) "x" = Ok entry
        /\ is_Configuration entry = false).
Proof.
  destruct (declared_property_encoded_as_pair Point_world Point_globals
              (get_config Point_world Point_globals 2) None "x" py_int) as [Hauto Hwrap].
  split.
  - apply (Hauto startswith_underscore Point_property_type a_point).
    + vm_compute. reflexivity.
    + reflexivity.
    + by_computation.
    + split; reflexivity.
  - apply (Hwrap Point'_wrapper a_point').
    + vm_compute. reflexivity.
    + reflexivity.
    + by_computation.
    + split; reflexivity.
Defined.

(** The whole of [get_config] on that instance, in the context where
    [Point] is registered: the entry for [x] is [(int, 5)]. *)
Lemma get_config_a_point :
  get_config Point_world Point_globals 3 a_point None None
  = Ok (box "app" "Point" (VDict [(VStr "x", VTuple [VType py_int; VInt 5])])).
Proof. vm_compute. reflexivity. Qed.

(** ** The round trip through [get_config] and [configure] *)

Lemma sequence_map_Ok {A B} (f : A -> result B) (h : A -> B) (xs : list A) :
  (forall x, x ∈ xs -> f x = Ok (h x)) -> sequence (map f xs) = Ok (map h xs).
Proof.
  induction xs as [|x xs IH]; intros Hf; simpl; [done|].
  rewrite (Hf x) by left. simpl. rewrite IH; [done|].
  intros y Hy. apply Hf. by right.
Qed.

Lemma sequence_map_id {A} (f : A -> result A) (xs : list A) :
  (forall x, x ∈ xs -> f x = Ok x) -> sequence (map f xs) = Ok xs.
Proof. intros Hf. rewrite (sequence_map_Ok f id) by done. by rewrite map_id. Qed.

Lemma height_elem (x : value) (xs : list value) :
  x ∈ xs -> (height x <= fold_right (fun x n => Nat.max (height x) n) O xs)%nat.
Proof.
  induction xs as [|y ys IH]; intros Hin; [by apply elem_of_nil in Hin|].
  simpl. apply elem_of_cons in Hin as [->|Hin]; [lia|]. specialize (IH Hin). lia.
Qed.

Lemma height_item (kv : value * value) (items : list (value * value)) :
  kv ∈ items ->
  (height (snd kv) <= fold_right (fun kv n => Nat.max (height (snd kv)) n) O items)%nat.
Proof.
  induction items as [|y ys IH]; intros Hin; [by apply elem_of_nil in Hin|].
  simpl. apply elem_of_cons in Hin as [->|Hin]; [lia|]. specialize (IH Hin). lia.
Qed.

(** A dict comprehension over items whose keys are distinct strings stores
    them as they come. *)
Lemma dict_of_items_distinct (items : list (value * value)) :
  forall acc,
    Forall (fun kv => is_str (fst kv) = true) items ->
    keys_distinct items = true ->
    (forall kv, kv ∈ items -> dict_get (fst kv) acc = None) ->
    dict_of_items acc items = Ok (acc ++ items)%list.
Proof.
  induction items as [|[k v] rest IH]; intros acc Hstr Hdist Hfresh; simpl.
  - by rewrite app_nil_r.
  - inversion Hstr as [|? ? Hk Hstr']; subst. simpl in Hk.
    destruct k as [| | | |s| | | | | | | |]; try discriminate.
    simpl in Hdist. apply andb_true_iff in Hdist as [Hs Hdist].
    apply negb_true_iff in Hs.
    pose proof (Hfresh (VStr s, v) ltac:(left)) as Hnew. simpl in Hnew.
    unfold dict_setitem. simpl. rewrite Hnew. simpl.
    rewrite IH; [by rewrite <- app_assoc|done|done|].
    intros [k' v'] Hin. simpl.
    pose proof (Hfresh (k', v') ltac:(by right)) as Hold. simpl in Hold.
    rewrite dict_get_app, Hold.
    rewrite Forall_forall in Hstr'. specialize (Hstr' _ Hin). simpl in Hstr'.
    destruct k' as [| | | |s'| | | | | | | |]; try discriminate. simpl.
    destruct (String.eqb s s') eqn:E; [|done].
    assert (existsb (fun kv => py_eq (fst kv) (VStr s)) rest = true) as Hex; [|congruence].
    apply existsb_exists. exists (VStr s', v'). split; [by apply list_elem_of_In|].
    simpl. by rewrite String.eqb_sym.
Qed.

Lemma Configuration_keys (items : list (value * value)) :
  is_Configuration (VDict items) = true ->
  Forall (fun kv => is_str (fst kv) = true) items
  /\ forall kv, kv ∈ items -> is_Configuration (snd kv) = true.
Proof.
  simpl. rewrite forallb_forall. intros H. split.
  - apply Forall_forall. intros kv Hin%list_elem_of_In%H. by apply andb_true_iff in Hin as [? ?].
  - intros kv Hin%list_elem_of_In%H. by apply andb_true_iff in Hin as [? ?].
Qed.

(** Registering hooks for types that have none. *)
Lemma decorate_getter_fresh (caller : Traceback) (types : list pytype) (typed_ : bool)
    (f : getter) (g : Globals) :
  check_unregistered types (GET_CONFIG_REGISTRY g) (GET_CONFIG_FROM g) = Ok tt ->
  decorate_getter caller types typed_ f g
  = Ok (foldl (fun g type_ =>
                 set_getter type_ (if typed_ then config_type_boxer type_ f else f) caller g)
              g types).
Proof.
  intros Hfresh. unfold decorate_getter, apply_getter_decorator, config_getter.
  rewrite Hfresh. cbn [mbind result_bind getter_ts getter_td]. by rewrite Hfresh.
Qed.

Lemma decorate_setter_fresh (caller : Traceback) (types : list pytype)
    (f : setter) (g : Globals) :
  check_unregistered types (CONFIGURE_REGISTRY g) (CONFIGURE_FROM g) = Ok tt ->
  decorate_setter caller types f g
  = Ok (foldl (fun g type_ => set_setter type_ f caller g) g types).
Proof.
  intros Hfresh. unfold decorate_setter, apply_setter_decorator, config_setter.
  rewrite Hfresh. cbn [mbind result_bind setter_t]. by rewrite Hfresh.
Qed.

Section RoundTrip.
Variable w : World.
Variable site : Traceback.

Lemma import_json_configs_Ok : import_json_configs w site = Ok (module_globals w site).
Proof.
  unfold import_json_configs.
  repeat first
    [ rewrite decorate_getter_fresh by (vm_compute; reflexivity)
    | rewrite decorate_setter_fresh by (vm_compute; reflexivity) ];
    cbn [mbind result_bind].
  cbn [foldl set_getter set_setter empty_globals CONTEXTS GET_CONFIG_REGISTRY
         CONFIGURE_REGISTRY GET_CONFIG_FROM CONFIGURE_FROM].
  reflexivity.
Qed.

Lemma Configuration_not_Configurable v :
  is_Configuration v = true -> Configurable_of w v = None.
Proof. destruct v; try discriminate; intros _; reflexivity. Qed.

Lemma Configuration_type_not_Configurable v :
  is_Configuration v = true -> Configurable_class w (type_of w v) = None.
Proof. apply Configuration_not_Configurable. Qed.

Lemma Configuration_getter_registered v :
  is_Configuration v = true ->
  GET_CONFIG_REGISTRY (module_globals w site) !! type_of w v = Some (Configuration_getter v).
Proof. destruct v; try discriminate; intros _; vm_compute; reflexivity. Qed.

Lemma Configuration_setter_registered v :
  is_Configuration v = true ->
  CONFIGURE_REGISTRY (module_globals w site) !! type_of w v = Some (Configuration_setter v).
Proof. destruct v; try discriminate; intros _; vm_compute; reflexivity. Qed.

Lemma None_instance_kept type_ :
  (if isinstance w VNone type_ then VNone else VNone) = VNone.
Proof. by destruct (isinstance w VNone type_). Qed.

Lemma isinstance_own_type v : isinstance w v (type_of w v) = true.
Proof. unfold isinstance, issubclass. by rewrite bool_decide_eq_true_2. Qed.

(** [get_config] returns a Configuration as it is. *)
Lemma get_config_Configuration (fuel : nat) :
  forall v context,
    is_Configuration v = true ->
    dicts_well_formed v = true ->
    (height v < fuel)%nat ->
    get_config w (module_globals w site) fuel v None context = Ok v.
Proof.
  induction fuel as [|fuel IH]; intros v context Hc Hwf Hh; [lia|].
  simpl. unfold get_config_body, get_config_dispatch.
  rewrite (Configuration_not_Configurable v Hc).
  rewrite (Configuration_getter_registered v Hc).
  destruct v; try discriminate Hc; try reflexivity.
  - (* list *)
    simpl in *. rewrite sequence_map_id; [done|].
    intros x Hx. rewrite forallb_forall in Hc, Hwf.
    pose proof (height_elem x xs Hx).
    apply IH; [apply Hc | apply Hwf | lia]; by apply list_elem_of_In.
  - (* dict *)
    destruct (Configuration_keys items Hc) as [Hstr Hvals].
    simpl in Hwf. apply andb_true_iff in Hwf as [Hdist Hwf].
    rewrite forallb_forall in Hwf. simpl in Hh.
    simpl. replace (forallb (fun kv => is_str (fst kv)) items) with true.
    2:{ symmetry. apply forallb_forall. intros kv Hin%list_elem_of_In.
        rewrite Forall_forall in Hstr. by apply Hstr. }
    rewrite sequence_map_id.
    + simpl. by rewrite dict_of_items_distinct.
    + intros [k v] Hin. pose proof (height_item _ _ Hin). simpl in *.
      rewrite IH; [done|by apply (Hvals (k, v))| |lia].
      apply (Hwf (k, v)). by apply list_elem_of_In.
Qed.

(** [configure] returns a Configuration without boxed mappings as it is. *)
Lemma configure_Configuration (fuel : nat) :
  forall v context,
    is_Configuration v = true ->
    dicts_well_formed v = true ->
    unboxed_throughout v = true ->
    (height v < fuel)%nat ->
    configure w (module_globals w site) fuel v VNone context = Ok v.
Proof.
  induction fuel as [|fuel IH]; intros v context Hc Hwf Hu Hh; [lia|].
  simpl. unfold configure_body.
  rewrite unbox_type_unboxed.
  2:{ destruct v; try done. simpl in *. apply andb_true_iff in Hu as [Hu _].
      by apply negb_true_iff in Hu. }
  cbn [mbind result_bind]. rewrite None_instance_kept.
  rewrite (Configuration_type_not_Configurable v Hc).
  rewrite (Configuration_setter_registered v Hc).
  destruct v; try discriminate Hc; try reflexivity.
  - (* list *)
    simpl in *. unfold drain. rewrite sequence_map_id; [done|].
    intros x Hx. rewrite forallb_forall in Hc, Hwf, Hu.
    pose proof (height_elem x xs Hx).
    apply IH; [apply Hc | apply Hwf | apply Hu | lia]; by apply list_elem_of_In.
  - (* dict *)
    destruct (Configuration_keys items Hc) as [Hstr Hvals].
    simpl in Hwf. apply andb_true_iff in Hwf as [Hdist Hwf].
    simpl in Hu. apply andb_true_iff in Hu as [_ Hu].
    rewrite forallb_forall in Hwf, Hu. simpl in Hh.
    simpl. rewrite sequence_map_id.
    + simpl. by rewrite dict_of_items_distinct.
    + intros [k v] Hin. pose proof (height_item _ _ Hin). simpl in *.
      rewrite IH; [done|by apply (Hvals (k, v))| | |lia].
      * apply (Hwf (k, v)). by apply list_elem_of_In.
      * apply (Hu (k, v)). by apply list_elem_of_In.
Qed.
End RoundTrip.

(** C1, as the code has it: under the state the import leaves and the
    default context, [configure(get_config(v))] is [v] for every scalar,
    list or string-keyed mapping of such values (recursively) that contains
    no mapping whose key set is exactly the three tag keys; any budget above
    the nesting depth of [v] is enough. *)
Theorem round_trip_identity (w : World) (site : Traceback) (g : Globals)
    (v : value) (fuel : nat) :
  import_json_configs w site = Ok g ->
  is_Configuration v = true ->
  dicts_well_formed v = true ->
  unboxed_throughout v = true ->
  (height v < fuel)%nat ->
  round_trip w g fuel v = Ok v.
Proof.
  rewrite import_json_configs_Ok. intros [= <-] Hc Hwf Hu Hh. unfold round_trip.
  rewrite get_config_Configuration by done. simpl.
  by apply configure_Configuration.
Qed.

Lemma round_trip_identity_witness :
  round_trip example_world (module_globals example_world example_site) 4 nested_value
  = Ok nested_value.
Proof.
  apply (round_trip_identity example_world example_site
           (module_globals example_world example_site) nested_value 4).
  - apply import_json_configs_Ok.
  - reflexivity.
  - reflexivity.
  - reflexivity.
  - vm_compute. lia.
Defined.

Lemma configure_body_boxed_five
    (rec : value -> value -> option string -> result value) :
  configure_body example_world (module_globals example_world example_site) rec
    boxed_five VNone None = Ok (VInt 5).
Proof. vm_compute. reflexivity. Qed.

(** C1, as stated, fails: a string-keyed mapping of scalars with exactly
    the three tag keys is encoded as itself and decoded as the value under
    [__instance__]. *)
Lemma round_trip_of_tag_keys :
  is_Configuration boxed_five = true
  /\ dicts_well_formed boxed_five = true
  /\ get_config example_world (module_globals example_world example_site) 2
       boxed_five None None = Ok boxed_five
  /\ round_trip example_world (module_globals example_world example_site) 2 boxed_five
     = Ok (VInt 5)
  /\ py_eq (VInt 5) boxed_five = false
  /\ forall fuel,
       round_trip example_world (module_globals example_world example_site) fuel boxed_five
       <> Ok boxed_five.
Proof.
  split; [reflexivity|]. split; [reflexivity|].
  split; [vm_compute; reflexivity|]. split; [vm_compute; reflexivity|].
  split; [reflexivity|].
  intros [|[|fuel]]; [vm_compute; discriminate..|].
  unfold round_trip. rewrite get_config_Configuration; [|reflexivity..|simpl; lia].
  cbn [mbind result_bind].
  change (configure example_world (module_globals example_world example_site)
            (S (S fuel)) boxed_five VNone None)
    with (configure_body example_world (module_globals example_world example_site)
            (configure example_world (module_globals example_world example_site) (S fuel))
            boxed_five VNone None).
  rewrite configure_body_boxed_five. discriminate.
Qed.

(** * Further properties of the context *)

Lemma new_Context_class_access (w : World) (name_ module_name class_name : string)
    (load_module : bool) :
  exists allowed,
    class_access_is_allowed w (new_Context w name_) module_name class_name load_module
    = Ok allowed
    /\ (allowed = true <-> initially_allowed w module_name class_name).
Proof.
  unfold class_access_is_allowed. cbn.
  destruct (decide ((module_name, class_name) ∈ (∅ : gset (string * string))))
    as [Hin|_]; [set_solver|].
  match goal with |- context [decide (?x ∈ ?X)] => destruct (decide (x ∈ X)) as [Hin|Hout] end.
  - exists true. split; [done|]. split; [|done]. intros _.
    unfold initially_allowed.
    rewrite !elem_of_union, !elem_of_list_to_set, !list_elem_of_fmap,
      elem_of_singleton in Hin.
    destruct Hin as [[(c & [= -> ->] & Hc)|(c & [= -> ->] & Hc)]|[= -> ->]]; auto.
  - exists false. split; [done|]. split; [done|]. intros Hallowed. exfalso. apply Hout.
    rewrite !elem_of_union, !elem_of_list_to_set, !list_elem_of_fmap, elem_of_singleton.
    destruct Hallowed as [[-> Hc]|[[-> Hc]|[-> ->]]]; eauto.
Qed.

(** A new context reaches the module [builtins] and no other; it allows
    exactly the public classes of [builtins] and [datetime] and
    [abc.ABCMeta], and answers without importing anything. *)
Theorem new_Context_access (w : World) (name_ module_name class_name : string)
    (load_module : bool) :
  (module_access_is_allowed w (new_Context w name_) module_name = true
   <-> module_name = "builtins")
  /\ (exists allowed,
        class_access_is_allowed w (new_Context w name_) module_name class_name load_module
        = Ok allowed
        /\ (allowed = true <-> initially_allowed w module_name class_name)).
Proof.
  split; [|apply new_Context_class_access].
  unfold module_access_is_allowed. cbn.
  destruct (decide (module_name ∈ (∅ : gset string))) as [Hin|_]; [set_solver|].
  destruct (decide (module_name ∈ ({[ "builtins" ]} : gset string))) as [Hin|Hout].
  - split; [|done]. intros _. set_solver.
  - split; [done|]. intros ->. set_solver.
Qed.

Lemma new_Context_access_witness :
  (module_access_is_allowed example_world (new_Context example_world "default") "datetime"
   = true <-> "datetime" = "builtins")
  /\ (exists allowed,
        class_access_is_allowed example_world (new_Context example_world "default")
          "datetime" "date" false = Ok allowed
        /\ (allowed = true <-> initially_allowed example_world "datetime" "date")).
Proof. apply (new_Context_access example_world "default" "datetime" "date" false). Defined.

Lemma get_public_names_elem (module : PyModule) (n : string) :
  n ∈ get_public_names module ->
  hasattr_module module n = true /\ startswith_underscore n = false.
Proof.
  unfold get_public_names. intros Hin. apply list_elem_of_filter in Hin as [HP _].
  apply andb_true_iff in HP as [Hattr Hpublic]. by apply negb_true_iff in Hpublic.
Qed.

(** A pair that is on neither class list is accepted only under the
    public-classes posture, for an accessible module, and for a name that
    the module has and that does not start with an underscore: a private
    name is never reachable through the default posture. *)
Theorem class_access_default_posture (w : World) (self : Context)
    (module_name class_name : string) (load_module : bool) :
  (module_name, class_name) ∉ specifically_allowed_classes self ->
  class_access_is_allowed w self module_name class_name load_module = Ok true ->
  public_classes_allowed_by_default self = true
  /\ module_access_is_allowed w self module_name = true
  /\ startswith_underscore class_name = false
  /\ exists module,
       (if load_module then import_module w module_name
        else from_option ImportError (sys_modules w module_name)) = Ok module
       /\ hasattr_module module class_name = true.
Proof.
  intros Hout. unfold class_access_is_allowed, get_module.
  destruct (decide (_ ∈ specifically_denied_classes self)); [discriminate|].
  rewrite decide_False by done.
  destruct (public_classes_allowed_by_default self); [|discriminate]. simpl.
  destruct (module_access_is_allowed w self module_name); [|discriminate]. simpl.
  destruct load_module.
  - destruct (import_module w module_name) as [m| |]; simpl; try discriminate.
    intros [= Hin%bool_decide_eq_true%get_public_names_elem]. destruct Hin. eauto 6.
  - simpl. destruct (sys_modules w module_name) as [m|]; simpl; [|discriminate].
    intros [= Hin%bool_decide_eq_true%get_public_names_elem]. destruct Hin. eauto 6.
Qed.

Lemma class_access_default_posture_witness :
  public_classes_allowed_by_default
    (with_classes ∅ ∅ (example_context false false true)) = true
  /\ module_access_is_allowed example_world
       (with_classes ∅ ∅ (example_context false false true)) "builtins" = true
  /\ startswith_underscore "int" = false
  /\ exists module,
       from_option ImportError (sys_modules example_world "builtins") = Ok module
       /\ hasattr_module module "int" = true.
Proof.
  apply (class_access_default_posture example_world
           (with_classes ∅ ∅ (example_context false false true)) "builtins" "int" false).
  - by_computation.
  - vm_compute. reflexivity.
Defined.

Lemma get_type_accessible (w : World) (self : Context) (module_name class_name : string)
    (load_module : bool) (type_ : pytype) (module : PyModule) :
  registry self !! (module_name, class_name) = None ->
  class_access_is_allowed w self module_name class_name load_module = Ok true ->
  import_module w module_name = Ok module ->
  assoc class_name (mod_dict module) = Some (VType type_) ->
  get_type w self module_name class_name load_module = Ok type_.
Proof.
  intros Hr Ha Hm Hattr. unfold get_type. rewrite Hr, Ha. simpl. rewrite Hm. simpl.
  unfold getattr_module. by rewrite Hattr.
Qed.

(** [get_type] returns a class in two cases only: the pair is registered
    to it (whatever the access lists say), or the pair is unregistered, the
    access check accepts it, and the class is the attribute of that name in
    the imported module. *)
Theorem get_type_sound (w : World) (self : Context) (module_name class_name : string)
    (load_module : bool) (type_ : pytype) :
  get_type w self module_name class_name load_module = Ok type_
  <-> registry self !! (module_name, class_name) = Some type_
      \/ (registry self !! (module_name, class_name) = None
          /\ class_access_is_allowed w self module_name class_name load_module = Ok true
          /\ exists module,
               import_module w module_name = Ok module
               /\ assoc class_name (mod_dict module) = Some (VType type_)).
Proof.
  unfold get_type. destruct (registry self !! (module_name, class_name)) as [t|].
  { split; [intros [= ->]; by left|]. by intros [[= ->]|[[=] _]]. }
  split.
  - intros H. right. split; [done|].
    destruct (class_access_is_allowed _ _ _ _ _) as [[]| |]; simpl in H; try discriminate.
    split; [done|].
    destruct (import_module w module_name) as [m| |]; simpl in H; try discriminate.
    exists m. split; [done|]. unfold getattr_module in H.
    destruct (assoc class_name (mod_dict m)) as [[]|]; simpl in H; try discriminate.
    by injection H as ->.
  - intros [[=]|(_ & Ha & m & Hm & Hattr)]. rewrite Ha. simpl. rewrite Hm. simpl.
    unfold getattr_module. by rewrite Hattr.
Qed.

Lemma get_type_sound_witness :
  get_type example_world Point_registered "app" "Point" false = Ok Point.
Proof.
  apply (get_type_sound example_world Point_registered "app" "Point" false Point).
  left. apply lookup_insert_eq.
Defined.

(** ** What [register] keeps *)

Lemma new_Context_consistent (w : World) (name_ : string) :
  Context_consistent (new_Context w name_).
Proof.
  split; cbn.
  - intros type_ key H. by rewrite lookup_empty in H.
  - intros key [t H]. by rewrite lookup_empty in H.
Qed.

Lemma register_key_consistent (caller : Traceback) (overwrite : bool) (type_ : pytype)
    (module_name class_name : option string) (self self' : Context) :
  Context_consistent self ->
  register_key caller overwrite type_ module_name class_name self = Ok self' ->
  Context_consistent self'.
Proof.
  intros [Hloc Hfrom] Hreg. unfold register_key in Hreg.
  fold (key_of type_ module_name class_name) in Hreg.
  set (key := key_of type_ module_name class_name) in *.
  destruct (negb _) eqn:Hguard.
  { destruct (registered_from self !! key); discriminate. }
  simpl in Hreg. apply negb_false_iff in Hguard.
  assert (exists locations,
             self' = set_registration key type_ caller locations self
             /\ (forall t k, t <> type_ -> locations !! t = Some k ->
                             location_map self !! t = Some k
                             /\ registry self !! key <> Some t)) as (locs & -> & Hlocs).
  { destruct overwrite; simpl in Hreg.
    - destruct (registry self !! key) as [old|] eqn:Hold; simpl in Hreg.
      + destruct (location_map self !! old) eqn:Hl; simpl in Hreg; [|discriminate].
        injection Hreg as <-. eexists. split; [done|]. intros t k _ Ht.
        apply lookup_delete_Some in Ht as [Hne Ht]. split; [done|]. congruence.
      + injection Hreg as <-. eexists. split; [done|]. intros t k _ Ht. by split.
    - injection Hreg as <-. eexists. split; [done|]. intros t k Hne Ht. split; [done|].
      simpl in Hguard. apply orb_true_iff in Hguard as [Hnone|Hsame].
      + apply bool_decide_eq_true in Hnone. by rewrite Hnone.
      + apply bool_decide_eq_true in Hsame. rewrite Hsame. congruence. }
  split; cbn.
  - intros t k Ht. destruct (decide (t = type_)) as [->|Hne].
    + rewrite lookup_insert_eq in Ht. injection Ht as <-. apply lookup_insert_eq.
    + rewrite lookup_insert_ne in Ht by done.
      destruct (Hlocs t k Hne Ht) as [Hold Hkey].
      destruct (decide (k = key)) as [->|Hk].
      * apply Hloc in Hold. congruence.
      * rewrite lookup_insert_ne by done. by apply Hloc.
  - intros k Hk. destruct (decide (k = key)) as [->|Hne].
    + rewrite lookup_insert_eq. by eexists.
    + rewrite lookup_insert_ne in Hk by done. rewrite lookup_insert_ne by done.
      by apply Hfrom.
Qed.

Lemma register_one_context (w : World) (caller : Traceback) (overwrite auto : bool)
    (item : pytype * option string * option string) (self self' : Context)
    (g g' : Globals) (r : result unit) :
  register_one w caller overwrite auto item self g = ((self', g'), r) ->
  (r = Ok tt
   /\ register_key caller overwrite (registered_class w item.1.1) item.1.2 item.2 self
      = Ok self')
  \/ (r <> Ok tt /\ self' = self).
Proof.
  destruct item as [[type_ module_name] class_name]. unfold register_one, registered_class.
  cbn [fst snd].
  destruct (WrapAutoConfig_class w type_) as [[wrapped_|]|].
  - destruct (register_key _ _ wrapped_ _ _ _) eqn:Hk; intros [= <- <- <-]; auto.
    all: right; by split.
  - intros [= <- <- <-]. right. by split.
  - destruct (auto && negb (is_configurable w g type_)).
    + destruct (auto_config caller type_ true None None g) as [g1 [[]| |]].
      * destruct (register_key _ _ type_ _ _ _) eqn:Hk; intros [= <- <- <-]; auto.
        all: right; by split.
      * intros [= <- <- <-]. right. by split.
      * intros [= <- <- <-]. right. by split.
    + destruct (register_key _ _ type_ _ _ _) eqn:Hk; intros [= <- <- <-]; auto.
      all: right; by split.
Qed.

Lemma register_loop_consistent (w : World) (caller : Traceback) (overwrite auto : bool)
    (items : list (pytype * option string * option string)) :
  forall self g self' g' r,
    Context_consistent self ->
    register_loop w caller overwrite auto items self g = ((self', g'), r) ->
    Context_consistent self'.
Proof.
  induction items as [|item rest IH]; intros self g self' g' r Hc; simpl.
  - by intros [= <- _ _].
  - destruct (register_one w caller overwrite auto item self g) as [[s1 g1] r1] eqn:H1.
    destruct (register_one_context _ _ _ _ _ _ _ _ _ _ H1) as [[-> Hk]|[Hr ->]].
    + apply IH. by eapply register_key_consistent.
    + destruct r1 as [[]| |]; [done|by intros [= <- _ _]..].
Qed.

(** Whatever [register] is asked and however the call ends, the context
    it leaves is consistent if the one it found was: a located class is the
    class registered at its location, and every registered pair has the
    provenance that the conflict message reads. *)
Theorem register_keeps_consistency (w : World) (caller : Traceback)
    (overwrite auto : bool) (target : register_target) (self self' : Context)
    (g g' : Globals) (r : result unit) :
  Context_consistent self ->
  register w caller overwrite auto target self g = ((self', g'), r) ->
  Context_consistent self'.
Proof.
  intros Hc. unfold register. destruct (register_items target) as [items| |].
  - by apply register_loop_consistent.
  - by intros [= <- _ _].
  - by intros [= <- _ _].
Qed.

Lemma register_keeps_consistency_witness : Context_consistent Point_registered.
Proof.
  apply (register_keeps_consistency example_world first_site false false
           (one_type Point None None) (new_Context example_world "default")
           Point_registered (module_globals example_world example_site)
           (module_globals example_world example_site) (Ok tt)).
  - apply new_Context_consistent.
  - apply register_Point_first.
Defined.

Lemma Point_registered_consistent : Context_consistent Point_registered.
Proof.
  eapply register_loop_consistent; [apply new_Context_consistent|].
  exact register_Point_first.
Qed.

Lemma locate_Ok_inv (w : World) (self : Context) (type_ : pytype)
    (module_name class_name : string) :
  locate w self type_ = Ok (module_name, class_name) ->
  location_map self !! type_ = Some (module_name, class_name)
  \/ (module_name = ty_module type_ /\ class_name = ty_name type_
      /\ get_type w self (ty_module type_) (ty_name type_) false = Ok type_).
Proof.
  unfold locate. destruct (location_map self !! type_) as [location|] eqn:Hl.
  - intros [= ->]. by left.
  - destruct (get_type w self (ty_module type_) (ty_name type_) false) as [found| |] eqn:Hg;
      simpl; try discriminate.
    destruct (bool_decide (found = type_)) eqn:Hsame; simpl; [|discriminate].
    apply bool_decide_eq_true in Hsame as ->. intros [= <- <-]. by right.
Qed.

Lemma located_resolves (w : World) (self : Context) (type_ : pytype)
    (key : string * string) (load_module : bool) :
  Context_consistent self ->
  location_map self !! type_ = Some key ->
  get_type w self key.1 key.2 load_module = Ok type_.
Proof.
  intros [Hloc _] Hl. apply Hloc in Hl. destruct key as [module_name class_name].
  unfold get_type. cbn [fst snd]. by rewrite Hl.
Qed.

(** In a consistent context, the pair that [locate] gives for a class
    resolves back to that class: what [box_type] tags, [unbox_type] can
    resolve. *)
Theorem locate_then_get_type (w : World) (self : Context) (type_ : pytype)
    (module_name class_name : string) :
  Context_consistent self ->
  locate w self type_ = Ok (module_name, class_name) ->
  get_type w self module_name class_name false = Ok type_.
Proof.
  intros Hcons [Hl|(-> & -> & Hg)]%locate_Ok_inv; [|done].
  apply (located_resolves w self type_ (module_name, class_name) false Hcons Hl).
Qed.

Lemma locate_then_get_type_witness :
  get_type example_world Point_registered "app" "Point" false = Ok Point.
Proof.
  apply (locate_then_get_type example_world Point_registered Point "app" "Point").
  - apply Point_registered_consistent.
  - reflexivity.
Defined.

(** After a successful registration of one class, the pair resolves to the
    class that was filed (the wrapped class, for a WrapAutoConfig subclass)
    and the class is located at the pair. *)
Theorem register_then_resolve (w : World) (caller : Traceback) (overwrite auto : bool)
    (type_ : pytype) (module_name class_name : option string)
    (self self' : Context) (g g' : Globals) (load_module : bool) :
  register w caller overwrite auto (one_type type_ module_name class_name) self g
  = ((self', g'), Ok tt) ->
  let filed := registered_class w type_ in
  let key := key_of filed module_name class_name in
  get_type w self' key.1 key.2 load_module = Ok filed
  /\ locate w self' filed = Ok key
  /\ registered_from self' !! key = Some caller.
Proof.
  change (register w caller overwrite auto (one_type type_ module_name class_name) self g)
    with (match register_one w caller overwrite auto (type_, module_name, class_name) self g
          with
          | ((s, g0), Ok _) => ((s, g0), Ok tt)
          | stopped => stopped
          end).
  destruct (register_one w caller overwrite auto (type_, module_name, class_name) self g)
    as [[s1 g1] r1] eqn:H1.
  destruct (register_one_context _ _ _ _ _ _ _ _ _ _ H1) as [[-> Hk]|[Hr ->]].
  - intros [= <- <-]. cbn [fst snd] in Hk. apply register_key_Ok in Hk as [locs ->].
    cbn zeta. unfold get_type, locate.
    destruct (key_of (registered_class w type_) module_name class_name) as [m c] eqn:Hkey.
    cbn. by rewrite !lookup_insert_eq.
  - destruct r1 as [[]| |]; [done|discriminate..].
Qed.

Lemma register_then_resolve_witness :
  get_type example_world Point_registered "app" "Point" true = Ok Point
  /\ locate example_world Point_registered Point = Ok ("app", "Point")
  /\ registered_from Point_registered !! ("app", "Point") = Some first_site.
Proof.
  apply (register_then_resolve example_world first_site false false Point None None
           (new_Context example_world "default") Point_registered
           (module_globals example_world example_site)
           (module_globals example_world example_site) true).
  apply register_Point_first.
Defined.

Lemma register_loop_app (w : World) (caller : Traceback) (overwrite auto : bool)
    (items1 items2 : list (pytype * option string * option string)) :
  forall self g,
    register_loop w caller overwrite auto (items1 ++ items2) self g
    = match register_loop w caller overwrite auto items1 self g with
      | ((self1, g1), Ok _) => register_loop w caller overwrite auto items2 self1 g1
      | stopped => stopped
      end.
Proof.
  induction items1 as [|item rest IH]; intros self g; [done|].
  cbn [app register_loop].
  destruct (register_one w caller overwrite auto item self g) as [[s1 g1] [[]| |]];
    [apply IH|done..].
Qed.

(** Registering a sequence is not all-or-nothing: when an item raises, the
    call ends with that exception, the items before it stay registered, the
    failing item has left the context as it was and the items after it are
    not looked at. *)
Theorem register_sequence_stops (w : World) (caller : Traceback) (overwrite auto : bool)
    (items1 items2 : list (pytype * option string * option string))
    (item : pytype * option string * option string)
    (self self1 self2 : Context) (g g1 g2 : Globals) (e : exn) :
  register_loop w caller overwrite auto items1 self g = ((self1, g1), Ok tt) ->
  register_one w caller overwrite auto item self1 g1 = ((self2, g2), Raise e) ->
  register_loop w caller overwrite auto (items1 ++ item :: items2) self g
  = ((self1, g2), Raise e)
  /\ self2 = self1.
Proof.
  intros H1 Hitem.
  assert (self2 = self1) as ->.
  { destruct (register_one_context _ _ _ _ _ _ _ _ _ _ Hitem) as [[[=] _]|[_ ->]]. done. }
  split; [|done]. rewrite register_loop_app, H1. cbn [register_loop]. by rewrite Hitem.
Qed.

(** [register([Point, Point'])]: both classes are named [app.Point]; the
    first is registered, the second conflicts with it. *)
Lemma register_sequence_stops_witness :
  register_loop example_world first_site false false
    ([(Point, None, None)] ++ (Point', None, None) :: [(py_int, None, None)])
    (new_Context example_world "default") (module_globals example_world example_site)
  = ((Point_registered, module_globals example_world example_site),
     Raise (NamingConflict first_site))
  /\ Point_registered = Point_registered.
Proof.
  apply (register_sequence_stops example_world first_site false false
           [(Point, None, None)] [(py_int, None, None)] (Point', None, None)
           (new_Context example_world "default") Point_registered Point_registered
           (module_globals example_world example_site)
           (module_globals example_world example_site)
           (module_globals example_world example_site) (NamingConflict first_site)).
  - apply register_Point_first.
  - unfold register_one. cbn [WrapAutoConfig_class is_native].
    change (WrapAutoConfig_class example_world Point') with (@None (option pytype)).
    cbn [andb]. rewrite (register_key_conflict first_site Point' None None
                           Point_registered Point first_site);
      [reflexivity | apply lookup_insert_eq | discriminate | apply lookup_insert_eq].
Defined.

(** Registering a sequence of types with one class name for all of them,
    or with a list of module names or of class names whose length is not the
    number of types, fails its assertion before anything is registered: the
    context and the hooks are as they were. *)
Theorem register_refuses_mismatched_names (w : World) (caller : Traceback)
    (overwrite auto : bool) (types : list pytype) (module_name class_name : names_arg)
    (self : Context) (g : Globals) :
  (exists s, class_name = same_name s)
  \/ (exists l, class_name = each_name l /\ length l <> length types)
  \/ (exists l, module_name = each_name l /\ length l <> length types) ->
  register w caller overwrite auto (many_types types module_name class_name) self g
  = ((self, g), Raise AssertionError).
Proof.
  intros Hnames. unfold register.
  assert (register_items (many_types types module_name class_name) = Raise AssertionError)
    as ->; [|done].
  cbn [register_items].
  destruct Hnames as [[s ->]|[(l & -> & Hlen)|(l & -> & Hlen)]].
  - unfold assert. by destruct (bool_decide _).
  - unfold assert. destruct (bool_decide (length _ = _)); [|done].
    cbn [mbind result_bind]. by rewrite bool_decide_eq_false_2.
  - unfold assert. by rewrite bool_decide_eq_false_2.
Qed.

Lemma register_refuses_mismatched_names_witness :
  register example_world first_site false false
    (many_types [Point; Point'] (same_name "app") (same_name "Point"))
    (new_Context example_world "default") (module_globals example_world example_site)
  = ((new_Context example_world "default", module_globals example_world example_site),
     Raise AssertionError).
Proof.
  apply (register_refuses_mismatched_names example_world first_site false false
           [Point; Point'] (same_name "app") (same_name "Point")).
  left. by exists "Point".
Defined.

(** ** What the hook registrations keep *)

Lemma foldl_set_getter_lookup (caller : Traceback) (typed_ : bool) (func : getter)
    (types : list pytype) :
  forall g,
    let g' := foldl (fun g type_ =>
                       set_getter type_ (if typed_ then config_type_boxer type_ func
                                         else func) caller g) g types in
    CONTEXTS g' = CONTEXTS g
    /\ CONFIGURE_REGISTRY g' = CONFIGURE_REGISTRY g
    /\ CONFIGURE_FROM g' = CONFIGURE_FROM g
    /\ (forall t, t ∈ types ->
                  GET_CONFIG_REGISTRY g' !! t = Some (getter_entry typed_ t func)
                  /\ GET_CONFIG_FROM g' !! t = Some caller)
    /\ (forall t, t ∉ types ->
                  GET_CONFIG_REGISTRY g' !! t = GET_CONFIG_REGISTRY g !! t
                  /\ GET_CONFIG_FROM g' !! t = GET_CONFIG_FROM g !! t).
Proof.
  induction types as [|t0 rest IH]; intros g; cbn [foldl].
  - do 3 (split; [done|]). split; [|done]. intros t Hin. by apply elem_of_nil in Hin.
  - specialize (IH (set_getter t0 (if typed_ then config_type_boxer t0 func else func)
                      caller g)).
    cbn zeta in IH. destruct IH as (Hc & Hr & Hf & Hin & Hout).
    split; [by rewrite Hc|]. split; [by rewrite Hr|]. split; [by rewrite Hf|]. split.
    + intros t Ht. destruct (decide (t ∈ rest)) as [Hrest|Hrest]; [by apply Hin|].
      apply elem_of_cons in Ht as [->|Ht]; [|done].
      destruct (Hout t0 Hrest) as [-> ->]. cbn. by rewrite !lookup_insert_eq.
    + intros t Ht. apply not_elem_of_cons in Ht as [Hne Hrest].
      destruct (Hout t Hrest) as [-> ->]. cbn. by rewrite !lookup_insert_ne.
Qed.

Lemma foldl_set_setter_lookup (caller : Traceback) (func : setter) (types : list pytype) :
  forall g,
    let g' := foldl (fun g type_ => set_setter type_ func caller g) g types in
    CONTEXTS g' = CONTEXTS g
    /\ GET_CONFIG_REGISTRY g' = GET_CONFIG_REGISTRY g
    /\ GET_CONFIG_FROM g' = GET_CONFIG_FROM g
    /\ (forall t, t ∈ types ->
                  CONFIGURE_REGISTRY g' !! t = Some func
                  /\ CONFIGURE_FROM g' !! t = Some caller)
    /\ (forall t, t ∉ types ->
                  CONFIGURE_REGISTRY g' !! t = CONFIGURE_REGISTRY g !! t
                  /\ CONFIGURE_FROM g' !! t = CONFIGURE_FROM g !! t).
Proof.
  induction types as [|t0 rest IH]; intros g; cbn [foldl].
  - do 3 (split; [done|]). split; [|done]. intros t Hin. by apply elem_of_nil in Hin.
  - specialize (IH (set_setter t0 func caller g)).
    cbn zeta in IH. destruct IH as (Hc & Hr & Hf & Hin & Hout).
    split; [by rewrite Hc|]. split; [by rewrite Hr|]. split; [by rewrite Hf|]. split.
    + intros t Ht. destruct (decide (t ∈ rest)) as [Hrest|Hrest]; [by apply Hin|].
      apply elem_of_cons in Ht as [->|Ht]; [|done].
      destruct (Hout t0 Hrest) as [-> ->]. cbn. by rewrite !lookup_insert_eq.
    + intros t Ht. apply not_elem_of_cons in Ht as [Hne Hrest].
      destruct (Hout t Hrest) as [-> ->]. cbn. by rewrite !lookup_insert_ne.
Qed.

Lemma check_unregistered_Ok {H} (types : list pytype) (reg : gmap pytype H)
    (from : gmap pytype Traceback) :
  check_unregistered types reg from = Ok tt <-> forall t, t ∈ types -> reg !! t = None.
Proof.
  induction types as [|t0 rest IH]; simpl.
  - split; [|done]. intros _ t Hin. by apply elem_of_nil in Hin.
  - destruct (reg !! t0) as [h|] eqn:H0.
    + split.
      * destruct (from !! t0); discriminate.
      * intros Hall. specialize (Hall t0 ltac:(left)). congruence.
    + rewrite IH. split.
      * intros Hall t [->|Hin]%elem_of_cons; auto.
      * intros Hall t Hin. apply Hall. by right.
Qed.

(** A call of [config_getter] that passes the function and returns has
    written, for every listed type, the function (wrapped by
    [config_type_boxer] when [typed]) and the caller's provenance; it has
    touched no other entry and no setter; and without [overwrite] none of
    the listed types had an entry before. *)
Theorem config_getter_registers (caller : Traceback) (types : list pytype)
    (typed_ overwrite : bool) (func : getter) (g g' : Globals)
    (r : getter + getter_decorator) :
  config_getter caller types typed_ (Some func) overwrite g = Ok (g', r) ->
  r = inl func
  /\ (forall t, t ∈ types ->
                GET_CONFIG_REGISTRY g' !! t = Some (getter_entry typed_ t func)
                /\ GET_CONFIG_FROM g' !! t = Some caller)
  /\ (forall t, t ∉ types ->
                GET_CONFIG_REGISTRY g' !! t = GET_CONFIG_REGISTRY g !! t
                /\ GET_CONFIG_FROM g' !! t = GET_CONFIG_FROM g !! t)
  /\ CONFIGURE_REGISTRY g' = CONFIGURE_REGISTRY g
  /\ CONFIGURE_FROM g' = CONFIGURE_FROM g
  /\ CONTEXTS g' = CONTEXTS g
  /\ (overwrite = false -> forall t, t ∈ types -> GET_CONFIG_REGISTRY g !! t = None).
Proof.
  unfold config_getter. intros H. apply bind_Ok in H as ([] & Hcheck & [= <- <-]).
  destruct (foldl_set_getter_lookup caller typed_ func types g) as (Hc & Hr & Hf & Hin & Hout).
  repeat (split; [done|]). intros ->.
  exact (proj1 (check_unregistered_Ok types _ _) Hcheck).
Qed.

Lemma config_getter_registers_witness :
  exists g',
    config_getter second_site [Point; Point'] true (Some get_mapping_config) false
      (module_globals example_world example_site) = Ok (g', inl get_mapping_config)
    /\ GET_CONFIG_REGISTRY g' !! Point' = Some (config_type_boxer Point' get_mapping_config)
    /\ GET_CONFIG_FROM g' !! Point' = Some second_site
    /\ GET_CONFIG_REGISTRY g' !! py_int = Some get_simple_config.
Proof.
  eexists. split; [reflexivity|].
  match goal with
  | |- context [GET_CONFIG_REGISTRY ?g' !! Point'] =>
      destruct (config_getter_registers second_site [Point; Point'] true false
                  get_mapping_config (module_globals example_world example_site) g'
                  (inl get_mapping_config) eq_refl)
        as (_ & Hin & Hout & _)
  end.
  destruct (Hin Point') as [-> ->]; [by_computation|].
  destruct (Hout py_int) as [-> _]; [by_computation|].
  split; [reflexivity|]. split; [reflexivity|]. vm_compute. reflexivity.
Defined.

(** The same for [config_setter]. *)
Theorem config_setter_registers (caller : Traceback) (types : list pytype)
    (overwrite : bool) (func : setter) (g g' : Globals)
    (r : setter + setter_decorator) :
  config_setter caller types (Some func) overwrite g = Ok (g', r) ->
  r = inl func
  /\ (forall t, t ∈ types ->
                CONFIGURE_REGISTRY g' !! t = Some func
                /\ CONFIGURE_FROM g' !! t = Some caller)
  /\ (forall t, t ∉ types ->
                CONFIGURE_REGISTRY g' !! t = CONFIGURE_REGISTRY g !! t
                /\ CONFIGURE_FROM g' !! t = CONFIGURE_FROM g !! t)
  /\ GET_CONFIG_REGISTRY g' = GET_CONFIG_REGISTRY g
  /\ GET_CONFIG_FROM g' = GET_CONFIG_FROM g
  /\ CONTEXTS g' = CONTEXTS g
  /\ (overwrite = false -> forall t, t ∈ types -> CONFIGURE_REGISTRY g !! t = None).
Proof.
  unfold config_setter. intros H. apply bind_Ok in H as ([] & Hcheck & [= <- <-]).
  destruct (foldl_set_setter_lookup caller func types g) as (Hc & Hr & Hf & Hin & Hout).
  repeat (split; [done|]). intros ->.
  exact (proj1 (check_unregistered_Ok types _ _) Hcheck).
Qed.

Lemma config_setter_registers_witness :
  exists g',
    config_setter second_site [Point; Point'] (Some configure_mapping) false
      (module_globals example_world example_site) = Ok (g', inl configure_mapping)
    /\ CONFIGURE_REGISTRY g' !! Point' = Some configure_mapping
    /\ CONFIGURE_FROM g' !! Point' = Some second_site
    /\ CONFIGURE_REGISTRY g' !! py_int = Some configure_simple.
Proof.
  eexists. split; [reflexivity|].
  match goal with
  | |- context [CONFIGURE_REGISTRY ?g' !! Point'] =>
      destruct (config_setter_registers second_site [Point; Point'] false
                  configure_mapping (module_globals example_world example_site) g'
                  (inl configure_mapping) eq_refl)
        as (_ & Hin & Hout & _)
  end.
  destruct (Hin Point') as [-> ->]; [by_computation|].
  destruct (Hout py_int) as [-> _]; [by_computation|].
  split; [reflexivity|]. split; [reflexivity|]. vm_compute. reflexivity.
Defined.

Lemma config_getter_consistent (caller : Traceback) (types : list pytype)
    (typed_ overwrite : bool) (func : option getter) (g g' : Globals)
    (r : getter + getter_decorator) :
  hooks_consistent g ->
  config_getter caller types typed_ func overwrite g = Ok (g', r) ->
  hooks_consistent g'.
Proof.
  intros [Hget Hset] H. destruct func as [f|].
  - unfold config_getter in H. apply bind_Ok in H as (_ & _ & [= <- _]).
    destruct (foldl_set_getter_lookup caller typed_ f types g)
      as (_ & Hr & Hf & Hin & Hout).
    split.
    + intros t Ht. destruct (decide (t ∈ types)) as [Hyes|Hno].
      * destruct (Hin t Hyes) as [_ ->]. by eexists.
      * destruct (Hout t Hno) as [Hreg ->]. rewrite Hreg in Ht. by apply Hget.
    + intros t. rewrite Hr, Hf. apply Hset.
  - unfold config_getter in H. apply bind_Ok in H as (_ & _ & [= <- _]). by split.
Qed.

Lemma config_setter_consistent (caller : Traceback) (types : list pytype)
    (overwrite : bool) (func : option setter) (g g' : Globals)
    (r : setter + setter_decorator) :
  hooks_consistent g ->
  config_setter caller types func overwrite g = Ok (g', r) ->
  hooks_consistent g'.
Proof.
  intros [Hget Hset] H. destruct func as [f|].
  - unfold config_setter in H. apply bind_Ok in H as (_ & _ & [= <- _]).
    destruct (foldl_set_setter_lookup caller f types g)
      as (_ & Hr & Hf & Hin & Hout).
    split.
    + intros t. rewrite Hr, Hf. apply Hget.
    + intros t Ht. destruct (decide (t ∈ types)) as [Hyes|Hno].
      * destruct (Hin t Hyes) as [_ ->]. by eexists.
      * destruct (Hout t Hno) as [Hreg ->]. rewrite Hreg in Ht. by apply Hset.
  - unfold config_setter in H. apply bind_Ok in H as (_ & _ & [= <- _]). by split.
Qed.

Lemma WrapAutoConfig_post_init_consistent (caller : Traceback) (self : WrapAutoConfig)
    (g g' : Globals) (r : result unit) :
  hooks_consistent g ->
  WrapAutoConfig_post_init caller self g = (g', r) ->
  hooks_consistent g'.
Proof.
  intros Hc. unfold WrapAutoConfig_post_init.
  destruct (config_getter _ _ _ _ _ g) as [[g1 r1]| |] eqn:H1;
    [|by intros [= <- _]..].
  pose proof (config_getter_consistent _ _ _ _ _ _ _ _ Hc H1) as Hc1.
  destruct (config_setter _ _ _ _ g1) as [[g2 r2]| |] eqn:H2;
    [|by intros [= <- _]..].
  intros [= <- _]. by eapply config_setter_consistent.
Qed.

Lemma module_globals_consistent (w : World) (site : Traceback) :
  hooks_consistent (module_globals w site).
Proof.
  split; intros t; rewrite <- !elem_of_dom; unfold module_globals;
    cbn [GET_CONFIG_REGISTRY GET_CONFIG_FROM CONFIGURE_REGISTRY CONFIGURE_FROM];
    rewrite !dom_list_to_map_L; cbn [fmap list_fmap map fst]; set_solver.
Qed.

(** Every state that the import and the registering functions produce
    keeps the provenance of every hook, so that a refused registration
    always finds the file and line it reports.  The import leaves such a
    state; [config_getter], [config_setter] and the construction of a
    WrapAutoConfig (which [auto_config] performs) keep it, also when the
    latter stops half way. *)
Theorem hook_provenance_kept (w : World) (site caller : Traceback) :
  hooks_consistent (module_globals w site)
  /\ (forall types typed_ overwrite func g g' r,
        hooks_consistent g ->
        config_getter caller types typed_ func overwrite g = Ok (g', r) ->
        hooks_consistent g')
  /\ (forall types overwrite func g g' r,
        hooks_consistent g ->
        config_setter caller types func overwrite g = Ok (g', r) ->
        hooks_consistent g')
  /\ (forall self g g' r,
        hooks_consistent g ->
        WrapAutoConfig_post_init caller self g = (g', r) ->
        hooks_consistent g').
Proof.
  split; [apply module_globals_consistent|].
  split; [intros; by eapply config_getter_consistent|].
  split; [intros; by eapply config_setter_consistent|].
  intros; by eapply WrapAutoConfig_post_init_consistent.
Qed.

Lemma hook_provenance_kept_witness :
  hooks_consistent (module_globals example_world example_site)
  /\ exists g',
       config_getter second_site [Point; Point'] true (Some get_mapping_config) false
         (module_globals example_world example_site) = Ok (g', inl get_mapping_config)
       /\ hooks_consistent g'.
Proof.
  destruct (hook_provenance_kept example_world example_site second_site)
    as (Himport & Hgetter & _).
  split; [exact Himport|]. eexists. split; [reflexivity|].
  apply (Hgetter [Point; Point'] true false (Some get_mapping_config)
           (module_globals example_world example_site) _ (inl get_mapping_config) Himport).
  reflexivity.
Defined.

(** [auto_config] on a type that has neither a getter nor a setter
    registers both and makes the type configurable. *)
Theorem auto_config_makes_configurable (w : World) (caller : Traceback) (type_ : pytype)
    (typed_ : bool) (unconfigured : option (list string))
    (types : option (list (string * pytype))) (g : Globals) :
  GET_CONFIG_REGISTRY g !! type_ = None ->
  CONFIGURE_REGISTRY g !! type_ = None ->
  exists g' wrapper,
    auto_config caller type_ typed_ unconfigured types g = (g', Ok tt)
    /\ wrapped wrapper = type_
    /\ GET_CONFIG_REGISTRY g' !! type_
       = Some (getter_entry typed_ type_ (WrapAutoConfig_get_config wrapper))
    /\ CONFIGURE_REGISTRY g' !! type_ = Some (WrapAutoConfig_configure wrapper)
    /\ is_configurable w g' type_ = true.
Proof.
  intros Hget Hset. unfold auto_config, WrapAutoConfig_post_init, config_getter, config_setter.
  cbn. rewrite Hget. cbn. rewrite Hset. cbn.
  eexists _, {| wrapped := type_; typed := typed_; unconfigured_properties := unconfigured;
               property_types := types; init_args := None; init_kwargs := None |}.
  split; [reflexivity|]. cbn. rewrite !lookup_insert_eq.
  split; [done|]. split; [done|]. split; [done|].
  unfold is_configurable. cbn. rewrite !lookup_insert_eq.
  apply orb_true_iff. right. apply andb_true_iff.
  split; apply bool_decide_eq_true; by eexists.
Qed.

Lemma auto_config_makes_configurable_witness :
  exists g' wrapper,
    auto_config second_site Point' true None None
      (module_globals example_world example_site) = (g', Ok tt)
    /\ wrapped wrapper = Point'
    /\ GET_CONFIG_REGISTRY g' !! Point'
       = Some (getter_entry true Point' (WrapAutoConfig_get_config wrapper))
    /\ CONFIGURE_REGISTRY g' !! Point' = Some (WrapAutoConfig_configure wrapper)
    /\ is_configurable example_world g' Point' = true.
Proof.
  apply (auto_config_makes_configurable example_world second_site Point' true None None
           (module_globals example_world example_site)); vm_compute; reflexivity.
Defined.

(** [auto_config] is not all-or-nothing: on a type that has a setter and no
    getter it registers the getter, then raises the setter's NamingConflict;
    the getter stays registered. *)
Theorem auto_config_stops_half_way (caller : Traceback) (type_ : pytype)
    (typed_ : bool) (unconfigured : option (list string))
    (types : option (list (string * pytype))) (g : Globals)
    (old : setter) (info : Traceback) :
  GET_CONFIG_REGISTRY g !! type_ = None ->
  CONFIGURE_REGISTRY g !! type_ = Some old ->
  CONFIGURE_FROM g !! type_ = Some info ->
  exists g' wrapper,
    auto_config caller type_ typed_ unconfigured types g
    = (g', Raise (NamingConflict info))
    /\ GET_CONFIG_REGISTRY g' !! type_
       = Some (getter_entry typed_ type_ (WrapAutoConfig_get_config wrapper))
    /\ GET_CONFIG_FROM g' !! type_ = Some caller
    /\ CONFIGURE_REGISTRY g' !! type_ = Some old.
Proof.
  intros Hget Hset Hfrom.
  unfold auto_config, WrapAutoConfig_post_init, config_getter, config_setter.
  cbn. rewrite Hget. cbn. rewrite Hset, Hfrom. cbn.
  eexists _, {| wrapped := type_; typed := typed_; unconfigured_properties := unconfigured;
               property_types := types; init_args := None; init_kwargs := None |}.
  split; [reflexivity|]. cbn. by rewrite !lookup_insert_eq.
Qed.

(** The state after import with a setter, and no getter, for [Point']. *)
Lemma auto_config_stops_half_way_witness :
  exists g' wrapper,
    auto_config second_site Point' true None None
      (set_setter Point' configure_mapping first_site
         (module_globals example_world example_site))
    = (g', Raise (NamingConflict first_site))
    /\ GET_CONFIG_REGISTRY g' !! Point'
       = Some (getter_entry true Point' (WrapAutoConfig_get_config wrapper))
    /\ GET_CONFIG_FROM g' !! Point' = Some second_site
    /\ CONFIGURE_REGISTRY g' !! Point' = Some configure_mapping.
Proof.
  apply (auto_config_stops_half_way second_site Point' true None None
           (set_setter Point' configure_mapping first_site
              (module_globals example_world example_site)) configure_mapping first_site).
  - vm_compute. reflexivity.
  - apply lookup_insert_eq.
  - apply lookup_insert_eq.
Defined.

(** ** Contexts by name *)

(** [get_context]: a name that has a context yields it and changes
    nothing; a name that has none raises KeyError without [add], and with
    [add] yields a new context that every later call under that name finds,
    the contexts of the other names staying as they were. *)
Theorem get_context_spec (w : World) (name_ : option string) (add : bool) (g : Globals) :
  (forall c, CONTEXTS g !! name_ = Some c -> get_context w name_ add g = Ok (c, g))
  /\ (CONTEXTS g !! name_ = None ->
      get_context w name_ false g = Raise KeyError
      /\ exists g',
           get_context w name_ true g = Ok (new_Context w (default "None" name_), g')
           /\ (forall add', get_context w name_ add' g'
                            = Ok (new_Context w (default "None" name_), g'))
           /\ (forall other, other <> name_ -> CONTEXTS g' !! other = CONTEXTS g !! other)
           /\ GET_CONFIG_REGISTRY g' = GET_CONFIG_REGISTRY g
           /\ CONFIGURE_REGISTRY g' = CONFIGURE_REGISTRY g).
Proof.
  unfold get_context. split.
  - intros c ->. done.
  - intros ->. split; [done|]. eexists. split; [reflexivity|]. cbn.
    rewrite lookup_insert_eq. split; [done|]. split; [|done].
    intros other Hne. by rewrite lookup_insert_ne.
Qed.

Lemma get_context_spec_witness :
  get_context example_world None false (module_globals example_world example_site)
  = Ok (new_Context example_world "default", module_globals example_world example_site)
  /\ get_context example_world (Some "alt") false
       (module_globals example_world example_site) = Raise KeyError.
Proof.
  destruct (get_context_spec example_world None false
              (module_globals example_world example_site)) as [Hfound _].
  destruct (get_context_spec example_world (Some "alt") false
              (module_globals example_world example_site)) as [_ Hmissing].
  split.
  - apply Hfound. apply lookup_singleton_eq.
  - apply Hmissing. apply lookup_singleton_ne. discriminate.
Defined.

(** ** Boxing and unboxing compose *)

(** In a consistent context, unboxing what [box_type] returned gives the
    class back; the configuration that comes with it is the one that was
    boxed, unless that was already a box with the class's tag, in which case
    it is what that box held. *)
Theorem unbox_after_box (w : World) (g : Globals) (type_ : pytype) (c b : value)
    (context : option string) (self : Context) :
  CONTEXTS g !! context = Some self ->
  Context_consistent self ->
  well_formed_dict c = true ->
  box_type w g type_ c context = Ok b ->
  exists inner,
    unbox_type w g b context = Ok (type_, inner)
    /\ ((b = c /\ subscript c "__instance__" = Ok inner) \/ (b <> c /\ inner = c)).
Proof.
  intros Hctx Hcons Hwf Hbox.
  pose proof Hbox as Hbox'. apply box_type_Ok in Hbox' as (ctx & m & cl & Hctx' & Hloc & Hb & Hm & Hc).
  assert (ctx = self) as -> by congruence.
  assert (get_type w self m cl false = Ok type_) as Hget.
  { destruct (locate_Ok_inv _ _ _ _ _ Hloc) as [Hl|(-> & -> & Hg)]; [|done].
    apply (located_resolves w self type_ (m, cl) false Hcons Hl). }
  rewrite (box_type_located w g _ _ _ _ _ _ Hctx Hloc) in Hbox.
  apply bind_Ok in Hbox as (same & Hsame & Hbox).
  destruct same; injection Hbox as <-.
  - (* already boxed under the tag *)
    assert (has_box_key_set c) as Hk.
    { destruct c; try discriminate. by apply is_boxed_iff_key_set. }
    destruct (boxed_subscripts c Hk) as (m' & cl' & inst & _ & _ & Hi).
    exists inst. split; [|by left].
    rewrite (unbox_type_boxed w g c context (VStr m) (VStr cl) inst) by done.
    unfold get_context. rewrite Hctx. cbn. by rewrite Hget.
  - exists c. destruct (box_facts m cl c) as (_ & Hb' & Hm' & Hc' & Hi').
    split.
    + rewrite (unbox_type_boxed w g _ context (VStr m) (VStr cl) c) by done.
      unfold get_context. rewrite Hctx. cbn. by rewrite Hget.
    + right. split; [|done]. intros Heq.
      rewrite <- Heq in Hsame. rewrite is_boxed_as_same in Hsame; done.
Qed.

Lemma unbox_after_box_witness :
  exists inner,
    unbox_type example_world Point_globals (box "app" "Point" (VInt 1)) None
    = Ok (Point, inner)
    /\ ((box "app" "Point" (VInt 1) = VInt 1 /\ subscript (VInt 1) "__instance__" = Ok inner)
        \/ (box "app" "Point" (VInt 1) <> VInt 1 /\ inner = VInt 1)).
Proof.
  apply (unbox_after_box example_world Point_globals Point (VInt 1)
           (box "app" "Point" (VInt 1)) None Point_registered).
  - reflexivity.
  - apply Point_registered_consistent.
  - reflexivity.
  - reflexivity.
Defined.

(** * Further properties of the dispatch *)

Lemma assoc_elem {A} (k : string) (a : A) (l : list (string * A)) :
  assoc k l = Some a -> (k, a) ∈ l.
Proof.
  induction l as [|[k' a'] rest IH]; simpl; [done|].
  destruct (String.eqb k k') eqn:E.
  - apply String.eqb_eq in E as ->. intros [= ->]. left.
  - intros H. right. by apply IH.
Qed.

(** A public class of [builtins] is resolved and located by a new context
    under its own name. *)
Lemma builtin_resolved (w : World) (name_ class_name : string) (type_ : pytype) :
  builtins_has w class_name type_ ->
  get_type w (new_Context w name_) "builtins" class_name false = Ok type_.
Proof.
  intros (Hloaded & Hattr & Hpublic).
  apply (get_type_accessible w _ _ _ _ _ (builtins w));
    [apply lookup_empty | | unfold import_module; by rewrite Hloaded | done].
  destruct (new_Context_class_access w name_ "builtins" class_name false)
    as (allowed & -> & Hallowed).
  f_equal. apply Hallowed. left. split; [done|].
  unfold public_type_names. apply list_elem_of_fmap. exists (class_name, VType type_).
  split; [done|]. apply list_elem_of_filter. split; [|by apply assoc_elem].
  by rewrite Hpublic.
Qed.

Lemma builtin_located (w : World) (name_ class_name : string) (type_ : pytype) :
  builtins_has w class_name type_ ->
  type_ = builtin class_name ->
  locate w (new_Context w name_) type_ = Ok ("builtins", class_name).
Proof.
  intros Hhas ->. unfold locate. cbn [location_map new_Context].
  rewrite lookup_empty. cbn [ty_module ty_name builtin].
  rewrite (builtin_resolved w name_ class_name _ Hhas). cbn.
  by rewrite bool_decide_eq_true_2.
Qed.

Section TupleRoundTrip.
Variable w : World.
Variable site : Traceback.
Hypothesis Htuple : builtins_has w "tuple" py_tuple.

Lemma get_config_tuple (fuel : nat) (xs : list value) :
  is_Configuration (VList xs) = true ->
  dicts_well_formed (VList xs) = true ->
  (height (VList xs) < fuel)%nat ->
  get_config w (module_globals w site) fuel (VTuple xs) None None
  = Ok (box "builtins" "tuple" (VList xs)).
Proof.
  intros Hc Hwf Hh. destruct fuel as [|fuel]; [lia|].
  cbn [get_config]. unfold get_config_body, get_config_dispatch.
  change (Configurable_of w (VTuple xs)) with (@None configurable_class).
  change (GET_CONFIG_REGISTRY (module_globals w site) !! type_of w (VTuple xs))
    with (GET_CONFIG_REGISTRY (module_globals w site) !! py_tuple).
  replace (GET_CONFIG_REGISTRY (module_globals w site) !! py_tuple)
    with (Some (config_type_boxer py_tuple get_iterable_config))
    by (vm_compute; reflexivity).
  cbn [call_getter iterate mbind result_bind].
  rewrite sequence_map_id.
  - cbn [fmap result_fmap mbind result_bind].
    rewrite (box_type_located w (module_globals w site) py_tuple (VList xs) None
               (new_Context w "default") "builtins" "tuple");
      [done | apply lookup_singleton_eq | by apply builtin_located].
  - intros x Hx. simpl in Hc, Hwf, Hh. rewrite forallb_forall in Hc, Hwf.
    pose proof (height_elem x xs Hx).
    apply get_config_Configuration; [apply Hc|apply Hwf|lia]; by apply list_elem_of_In.
Qed.

Lemma configure_boxed_tuple (fuel : nat) (xs : list value) :
  is_Configuration (VList xs) = true ->
  dicts_well_formed (VList xs) = true ->
  unboxed_throughout (VList xs) = true ->
  (height (VList xs) < fuel)%nat ->
  configure w (module_globals w site) fuel (box "builtins" "tuple" (VList xs)) VNone None
  = Ok (VTuple xs).
Proof.
  intros Hc Hwf Hu Hh. destruct fuel as [|fuel]; [lia|].
  cbn [configure]. unfold configure_body.
  rewrite (unbox_type_boxed w (module_globals w site) _ None
             (VStr "builtins") (VStr "tuple") (VList xs)) by done.
  unfold get_context.
  replace (CONTEXTS (module_globals w site) !! None)
    with (Some (new_Context w "default")) by (symmetry; apply lookup_singleton_eq).
  cbn [mbind result_bind get_type_of_tag].
  rewrite (builtin_resolved w "default" "tuple" py_tuple Htuple).
  cbn [mbind result_bind].
  change (isinstance w VNone py_tuple) with false. cbv iota.
  change (Configurable_class w py_tuple) with (@None configurable_class).
  replace (CONFIGURE_REGISTRY (module_globals w site) !! py_tuple)
    with (Some configure_iterable) by (vm_compute; reflexivity).
  cbn [call_setter mbind result_bind].
  change (isinstance w (VGenerator xs None) py_tuple) with false. cbv iota.
  unfold convert. rewrite decide_False by discriminate. rewrite decide_True by done.
  unfold drain. rewrite sequence_map_id; [done|].
  intros x Hx. simpl in Hc, Hwf, Hu, Hh. rewrite forallb_forall in Hc, Hwf, Hu.
  pose proof (height_elem x xs Hx).
  apply configure_Configuration; [apply Hc|apply Hwf|apply Hu|lia]; by apply list_elem_of_In.
Qed.
End TupleRoundTrip.


Lemma example_builtins_has_tuple : builtins_has example_world "tuple" py_tuple.
Proof. by repeat split. Defined.


(** A class object whose own type is [type] and that the default context
    locates is encoded as the pair of names in a box tagged
    [builtins.type], and decoded back to the same class object. *)
Theorem class_object_round_trip (w : World) (site : Traceback) (t : pytype)
    (module_name class_name : string) (fuel : nat) :
  builtins_has w "type" py_type ->
  type_of w (VType t) = py_type ->
  locate w (new_Context w "default") t = Ok (module_name, class_name) ->
  (0 < fuel)%nat ->
  get_config w (module_globals w site) fuel (VType t) None None
  = Ok (box "builtins" "type"
          (kwargs_dict [("module", VStr module_name); ("name", VStr class_name)]))
  /\ round_trip w (module_globals w site) fuel (VType t) = Ok (VType t).
Proof.
  intros Htype Hmeta Hloc Hfuel. destruct fuel as [|fuel]; [lia|].
  assert (get_config w (module_globals w site) (S fuel) (VType t) None None
          = Ok (box "builtins" "type"
                  (kwargs_dict [("module", VStr module_name); ("name", VStr class_name)])))
    as Hget.
  { cbn [get_config]. unfold get_config_body, get_config_dispatch, Configurable_of.
    rewrite Hmeta.
    change (Configurable_class w py_type) with (@None configurable_class).
    replace (GET_CONFIG_REGISTRY (module_globals w site) !! py_type)
      with (Some (config_type_boxer py_type get_python_type_config))
      by (vm_compute; reflexivity).
    cbn [call_getter]. unfold get_context.
    replace (CONTEXTS (module_globals w site) !! None)
      with (Some (new_Context w "default")) by (symmetry; apply lookup_singleton_eq).
    cbn [mbind result_bind]. rewrite Hloc. cbn [mbind result_bind].
    rewrite (box_type_located w (module_globals w site) py_type _ None
               (new_Context w "default") "builtins" "type");
      [done | apply lookup_singleton_eq | by apply builtin_located]. }
  split; [done|]. unfold round_trip. rewrite Hget. cbn [mbind result_bind configure].
  unfold configure_body.
  rewrite (unbox_type_boxed w (module_globals w site) _ None
             (VStr "builtins") (VStr "type")
             (kwargs_dict [("module", VStr module_name); ("name", VStr class_name)]))
    by done.
  unfold get_context.
  replace (CONTEXTS (module_globals w site) !! None)
    with (Some (new_Context w "default")) by (symmetry; apply lookup_singleton_eq).
  cbn [mbind result_bind get_type_of_tag].
  rewrite (builtin_resolved w "default" "type" py_type Htype).
  cbn [mbind result_bind].
  change (isinstance w VNone py_type) with false. cbv iota.
  change (Configurable_class w py_type) with (@None configurable_class).
  replace (CONFIGURE_REGISTRY (module_globals w site) !! py_type)
    with (Some configure_python_type) by (vm_compute; reflexivity).
  cbn [call_setter]. unfold get_context.
  replace (CONTEXTS (module_globals w site) !! None)
    with (Some (new_Context w "default")) by (symmetry; apply lookup_singleton_eq).
  cbn [mbind result_bind].
  change (subscript (kwargs_dict [("module", VStr module_name); ("name", VStr class_name)])
            "module") with (Ok (VStr module_name)).
  change (subscript (kwargs_dict [("module", VStr module_name); ("name", VStr class_name)])
            "name") with (Ok (VStr class_name)).
  cbn [mbind result_bind get_type_of_tag].
  assert (get_type w (new_Context w "default") module_name class_name false = Ok t) as ->.
  { destruct (locate_Ok_inv _ _ _ _ _ Hloc) as [Hl|(-> & -> & Hg)]; [|done].
    apply (located_resolves w _ t (module_name, class_name) false
             (new_Context_consistent w "default") Hl). }
  cbn [fmap result_fmap mbind result_bind].
  unfold isinstance. rewrite Hmeta. by change (issubclass w py_type py_type) with true.
Qed.

Lemma class_object_round_trip_witness :
  get_config example_world (module_globals example_world example_site) 1
    (VType py_int) None None
  = Ok (box "builtins" "type"
          (kwargs_dict [("module", VStr "builtins"); ("name", VStr "int")]))
  /\ round_trip example_world (module_globals example_world example_site) 1 (VType py_int)
     = Ok (VType py_int).
Proof.
  apply (class_object_round_trip example_world example_site py_int "builtins" "int" 1).
  - by repeat split.
  - reflexivity.
  - vm_compute. reflexivity.
  - lia.
Defined.

(** Without an implementation and without a hook there is no result: for
    an object that is not Configurable and whose exact type has no getter,
    [get_config] raises NotConfigurable whatever [typed] is, before any
    boxing is tried; [configure] does the same for a configuration whose
    type has neither. *)
Theorem not_configurable (w : World) (g : Globals) (fuel : nat) :
  (forall obj typed_ context,
     Configurable_of w obj = None ->
     GET_CONFIG_REGISTRY g !! type_of w obj = None ->
     get_config w g (S fuel) obj typed_ context = Raise (NotConfigurable (type_of w obj)))
  /\ (forall config config' instance context type_,
        unbox_type w g config context = Ok (type_, config') ->
        Configurable_class w type_ = None ->
        CONFIGURE_REGISTRY g !! type_ = None ->
        configure w g (S fuel) config instance context = Raise (NotConfigurable type_)).
Proof.
  split.
  - intros obj typed_ context Hc Hr. cbn [get_config].
    unfold get_config_body, get_config_dispatch. by rewrite Hc, Hr.
  - intros config config' instance context type_ Hu Hc Hr. cbn [configure].
    unfold configure_body. rewrite Hu. cbn [mbind result_bind]. by rewrite Hc, Hr.
Qed.

Lemma not_configurable_witness :
  get_config example_world (module_globals example_world example_site) 1
    (VFunc "len") (Some true) None = Raise (NotConfigurable py_function)
  /\ configure example_world (module_globals example_world example_site) 1
       (box "builtins" "object" VNone) VNone None = Raise (NotConfigurable py_object).
Proof.
  destruct (not_configurable example_world (module_globals example_world example_site) 0)
    as [Hget Hconfigure].
  split.
  - apply (Hget (VFunc "len")); vm_compute; reflexivity.
  - apply (Hconfigure _ VNone); vm_compute; reflexivity.
Defined.

(** [None] cannot be encoded with its type: in a world whose [builtins]
    has no public class named [NoneType] (CPython's has none), the default
    context cannot locate the type of [None], and [get_config(None,
    typed=True)] raises AccessDenied. *)
Theorem typed_None_is_denied (w : World) (site : Traceback) (fuel : nat) :
  "NoneType" ∉ public_type_names (builtins w) ->
  get_config w (module_globals w site) (S fuel) VNone (Some true) None
  = Raise (AccessDenied (VStr "builtins") (VStr "NoneType") "default").
Proof.
  intros Hnone. cbn [get_config]. unfold get_config_body, get_config_dispatch.
  change (Configurable_of w VNone) with (@None configurable_class).
  replace (GET_CONFIG_REGISTRY (module_globals w site) !! type_of w VNone)
    with (Some get_simple_config) by (vm_compute; reflexivity).
  cbn [call_getter mbind result_bind]. unfold box_type, get_context.
  replace (CONTEXTS (module_globals w site) !! None)
    with (Some (new_Context w "default")) by (symmetry; apply lookup_singleton_eq).
  cbn [mbind result_bind type_of]. unfold locate. cbn [location_map new_Context].
  rewrite lookup_empty.
  rewrite (get_type_unregistered_inaccessible w _ "builtins" "NoneType" false);
    [done | apply lookup_empty |].
  destruct (new_Context_class_access w "default" "builtins" "NoneType" false)
    as (allowed & -> & Hallowed).
  f_equal. destruct allowed; [|done]. exfalso.
  destruct Hallowed as [Hallowed _].
  destruct (Hallowed eq_refl) as [[_ Hin]|[[[=] _]|[[=] _]]]. by apply Hnone.
Qed.

Lemma typed_None_is_denied_witness :
  get_config example_world (module_globals example_world example_site) 1
    VNone (Some true) None
  = Raise (AccessDenied (VStr "builtins") (VStr "NoneType") "default").
Proof.
  apply (typed_None_is_denied example_world example_site 0). by_computation.
Defined.

(** ** Which properties are encoded *)

Lemma dict_replace_keys (key v : value) (items : list (value * value)) :
  map fst (dict_replace key v items) = map fst items.
Proof.
  induction items as [|[k v'] rest IH]; simpl; [done|].
  destruct (py_eq k key); simpl; [done|]. by rewrite IH.
Qed.

Lemma dict_setitem_keys (key v : value) (items items' : list (value * value)) :
  dict_setitem key v items = Ok items' ->
  forall k, k ∈ map fst items' -> k = key \/ k ∈ map fst items.
Proof.
  unfold dict_setitem. destruct (negb (hashable key)); [discriminate|].
  destruct (dict_get key items).
  - intros [= <-] k Hk. right. by rewrite dict_replace_keys in Hk.
  - intros [= <-] k Hk. rewrite map_app in Hk. apply elem_of_app in Hk as [Hk|Hk].
    + by right.
    + left. simpl in Hk. by apply list_elem_of_singleton in Hk.
Qed.

Lemma properties_config_keys (w : World) (g : Globals)
    (rec : value -> option bool -> option string -> result value)
    (is_unconfigured : string -> bool) (property_type_of : string -> option pytype)
    (instance : value) (context : option string) (names : list string) :
  forall acc config,
    properties_config w g rec is_unconfigured property_type_of instance context names acc
    = Ok config ->
    forall k, k ∈ map fst config ->
      k ∈ map fst acc
      \/ exists n, k = VStr n /\ n ∈ names /\ is_encoded w is_unconfigured instance n.
Proof.
  induction names as [|n rest IH]; intros acc config Hrun k Hk; simpl in Hrun.
  - injection Hrun as <-. by left.
  - assert (forall acc', properties_config w g rec is_unconfigured property_type_of
                           instance context rest acc' = Ok config ->
                         (forall k', k' ∈ map fst acc' ->
                                     k' ∈ map fst acc
                                     \/ (k' = VStr n
                                         /\ is_encoded w is_unconfigured instance n)) ->
                         k ∈ map fst acc
                         \/ exists n0, k = VStr n0 /\ n0 ∈ n :: rest
                                       /\ is_encoded w is_unconfigured instance n0)
      as Hstep.
    { intros acc' Hrest Hacc'. destruct (IH acc' config Hrest k Hk) as [Hin|(n0 & -> & Hn0 & He)].
      - destruct (Hacc' k Hin) as [?|[-> He]]; [by left|]. right. exists n.
        split; [done|]. split; [left|done].
      - right. exists n0. split; [done|]. split; [by right|done]. }
    destruct (is_unconfigured n) eqn:Hu; [apply (Hstep acc Hrun); auto|].
    destruct (callable _ && negb _) eqn:Hcall; [apply (Hstep acc Hrun); auto|].
    apply bind_Ok in Hrun as (pc & _ & Hrun). apply bind_Ok in Hrun as (entry & _ & Hrun).
    apply bind_Ok in Hrun as (acc' & Hset & Hrun).
    apply (Hstep acc' Hrun). intros k' Hk'.
    destruct (dict_setitem_keys _ _ _ _ Hset k' Hk') as [->|?]; [|by left].
    right. split; [done|]. by split.
Qed.

(** The encoders of AutoConfigured and WrapAutoConfig write an entry only
    for a name that [dir] lists, that is not unconfigured (for
    AutoConfigured's own [is_unconfigured_property]: that does not start
    with an underscore) and whose value is not a callable other than a
    class: private attributes and methods never reach the configuration. *)
Theorem only_public_properties_encoded (w : World) (g : Globals)
    (rec : value -> option bool -> option string -> result value)
    (context : option string) :
  (forall is_unconfigured property_type_of self config,
     AutoConfigured_get_config w g rec is_unconfigured property_type_of self context
     = Ok config ->
     exists items,
       config = VDict items
       /\ forall k, k ∈ map fst items ->
            exists n, k = VStr n /\ n ∈ dir_value w self
                      /\ is_encoded w is_unconfigured self n)
  /\ (forall wrap instance config,
        WrapAutoConfig_get_config_method w g rec wrap instance context = Ok config ->
        exists items,
          config = VDict items
          /\ forall k, k ∈ map fst items ->
               exists n, k = VStr n /\ n ∈ dir_value w instance
                         /\ startswith_underscore n = false
                         /\ (forall names, unconfigured_properties wrap = Some names ->
                                           n ∉ names)
                         /\ is_encoded w (WrapAutoConfig_is_unconfigured_property wrap)
                              instance n).
Proof.
  split.
  - intros is_unconfigured property_type_of self config.
    unfold AutoConfigured_get_config.
    destruct (properties_config _ _ _ _ _ _ _ _ _) as [items| |] eqn:Hrun; try discriminate.
    intros [= <-]. exists items. split; [done|]. intros k Hk.
    destruct (properties_config_keys _ _ _ _ _ _ _ _ _ _ Hrun k Hk) as [Hin|?]; [|done].
    by apply elem_of_nil in Hin.
  - intros wrap instance config. unfold WrapAutoConfig_get_config_method.
    destruct (properties_config _ _ _ _ _ _ _ _ _) as [items| |] eqn:Hrun; try discriminate.
    intros [= <-]. exists items. split; [done|]. intros k Hk.
    destruct (properties_config_keys _ _ _ _ _ _ _ _ _ _ Hrun k Hk)
      as [Hin|(n & -> & Hn & He)]; [by apply elem_of_nil in Hin|].
    exists n. split; [done|]. split; [done|].
    pose proof He as [Hu _]. unfold WrapAutoConfig_is_unconfigured_property in Hu.
    apply orb_false_iff in Hu as [Hprivate Hlisted].
    split; [done|]. split; [|done]. intros names Hnames. rewrite Hnames in Hlisted.
    by apply bool_decide_eq_false in Hlisted.
Qed.

Lemma only_public_properties_encoded_witness :
  exists items,
    VDict [(VStr "x", VTuple [VType py_int; VInt 5])] = VDict items
    /\ forall k, k ∈ map fst items ->
         exists n, k = VStr n /\ n ∈ dir_value Point_world a_point
                   /\ is_encoded Point_world startswith_underscore a_point n.
Proof.
  destruct (only_public_properties_encoded Point_world Point_globals
              (get_config Point_world Point_globals 2) None) as [Hauto _].
  apply (Hauto startswith_underscore Point_property_type a_point).
  vm_compute. reflexivity.
Defined.

(** ** Plain configurations and scalars *)

(** On a plain configuration each half is the identity by itself and never
    consults the context, whatever name is passed for it: [get_config]
    returns every configuration as it is (also one with the three tag
    keys), and [configure] returns every configuration that holds no
    mapping with exactly the tag keys. *)
Theorem Configuration_halves (w : World) (site : Traceback) (v : value) (fuel : nat)
    (context : option string) :
  is_Configuration v = true ->
  dicts_well_formed v = true ->
  (height v < fuel)%nat ->
  get_config w (module_globals w site) fuel v None context = Ok v
  /\ (unboxed_throughout v = true ->
      configure w (module_globals w site) fuel v VNone context = Ok v).
Proof.
  intros Hc Hwf Hh. split.
  - by apply get_config_Configuration.
  - intros Hu. by apply configure_Configuration.
Qed.

Lemma Configuration_halves_witness :
  get_config example_world (module_globals example_world example_site) 4 nested_value
    None (Some "no such context") = Ok nested_value
  /\ (unboxed_throughout nested_value = true ->
      configure example_world (module_globals example_world example_site) 4 nested_value
        VNone (Some "no such context") = Ok nested_value).
Proof.
  apply (Configuration_halves example_world example_site nested_value 4
           (Some "no such context")).
  - reflexivity.
  - reflexivity.
  - vm_compute. lia.
Defined.

Lemma py_eq_None (v : value) : py_eq v VNone = true -> v = VNone.
Proof. destruct v; simpl; try discriminate; done. Qed.

Lemma scalar_setter_registered (w : World) (site : Traceback) (v : value) :
  is_scalar v = true ->
  CONFIGURE_REGISTRY (module_globals w site) !! type_of w v = Some configure_simple.
Proof. destruct v; try discriminate; intros _; vm_compute; reflexivity. Qed.

(** Decoding a scalar with an existing instance: the instance is returned
    when it is an instance of the scalar's type and equal to it, the scalar
    otherwise.  So [configure(1, True)] is [True]. *)
Theorem configure_scalar_with_instance (w : World) (site : Traceback) (fuel : nat)
    (config instance : value) (context : option string) :
  is_scalar config = true ->
  configure w (module_globals w site) (S fuel) config instance context
  = Ok (if isinstance w instance (type_of w config) && py_eq config instance
        then instance else config).
Proof.
  intros Hs. cbn [configure]. unfold configure_body.
  rewrite unbox_type_unboxed by by destruct config.
  cbn [mbind result_bind].
  replace (Configurable_class w (type_of w config)) with (@None configurable_class)
    by by destruct config.
  rewrite (scalar_setter_registered w site config Hs).
  cbn [call_setter]. destruct (isinstance w instance (type_of w config)) eqn:Hi; cbn [andb].
  - destruct (py_eq config instance); cbn [mbind result_bind].
    + by rewrite Hi.
    + by rewrite isinstance_own_type.
  - destruct (py_eq config VNone) eqn:He; cbn [mbind result_bind].
    + apply py_eq_None in He as ->. by change (isinstance w VNone (type_of w VNone)) with true.
    + by rewrite isinstance_own_type.
Qed.

Lemma configure_scalar_with_instance_witness :
  configure example_world (module_globals example_world example_site) 1
    (VInt 1) (VBool true) None = Ok (VBool true)
  /\ configure example_world (module_globals example_world example_site) 1
       (VBool true) (VInt 1) None = Ok (VBool true).
Proof.
  split.
  - apply (configure_scalar_with_instance example_world example_site 0
             (VInt 1) (VBool true) None). reflexivity.
  - apply (configure_scalar_with_instance example_world example_site 0
             (VBool true) (VInt 1) None). reflexivity.
Defined.

(** ** A class the context cannot reach *)

Lemma locate_denied (w : World) (self : Context) (type_ : pytype) :
  location_map self !! type_ = None ->
  registry self !! (ty_module type_, ty_name type_) = None ->
  class_access_is_allowed w self (ty_module type_) (ty_name type_) false = Ok false ->
  locate w self type_
  = Raise (AccessDenied (VStr (ty_module type_)) (VStr (ty_name type_)) (name self)).
Proof.
  intros Hl Hr Ha. unfold locate. rewrite Hl.
  by rewrite (get_type_unregistered_inaccessible w self _ _ false Hr Ha).
Qed.

(** A class that a context neither registers nor may access cannot be
    boxed, encoded with its type, or decoded from its tag under that
    context: all three raise the AccessDenied of [Context.get_type] (a
    NameError, which is what [locate] lets through). *)
Theorem unreachable_class_is_denied (w : World) (g : Globals) (self : Context)
    (context : option string) (type_ : pytype) :
  CONTEXTS g !! context = Some self ->
  location_map self !! type_ = None ->
  registry self !! (ty_module type_, ty_name type_) = None ->
  class_access_is_allowed w self (ty_module type_) (ty_name type_) false = Ok false ->
  let denied := AccessDenied (VStr (ty_module type_)) (VStr (ty_name type_)) (name self) in
  (forall config, box_type w g type_ config context = Raise denied)
  /\ (forall fuel obj typed_ config,
        type_of w obj = type_ ->
        get_config_dispatch w g (get_config w g fuel) (configure w g fuel) obj context
        = Ok config ->
        typed_ = Some true \/ (typed_ = None /\ is_Some (Configurable_of w obj)) ->
        get_config w g (S fuel) obj typed_ context = Raise denied)
  /\ (forall fuel inner instance,
        configure w g (S fuel) (box (ty_module type_) (ty_name type_) inner) instance context
        = Raise denied).
Proof.
  intros Hctx Hl Hr Ha denied.
  assert (forall config, box_type w g type_ config context = Raise denied) as Hbox.
  { intros config. unfold box_type, get_context. rewrite Hctx. cbn [mbind result_bind].
    by rewrite locate_denied. }
  split; [done|]. split.
  - intros fuel obj typed_ config Ht Hd Htyped. cbn [get_config]. unfold get_config_body.
    rewrite Hd. cbn [mbind result_bind]. rewrite Ht.
    destruct Htyped as [->|[-> [c Hc]]]; [done|]. by rewrite Hc.
  - intros fuel inner instance. cbn [configure]. unfold configure_body.
    rewrite (unbox_type_boxed w g _ context (VStr (ty_module type_)) (VStr (ty_name type_))
               inner) by done.
    unfold get_context. rewrite Hctx. cbn [mbind result_bind get_type_of_tag].
    by rewrite (get_type_unregistered_inaccessible w self _ _ false Hr Ha).
Qed.

(** [Point] is registered nowhere in the state after import. *)
Lemma unreachable_class_is_denied_witness :
  (forall config,
     box_type Point_world (module_globals Point_world example_site) Point config None
     = Raise (AccessDenied (VStr "app") (VStr "Point") "default"))
  /\ get_config Point_world (module_globals Point_world example_site) 3 a_point None None
     = Raise (AccessDenied (VStr "app") (VStr "Point") "default")
  /\ configure Point_world (module_globals Point_world example_site) 1
       (box "app" "Point" (VDict [])) VNone None
     = Raise (AccessDenied (VStr "app") (VStr "Point") "default").
Proof.
  destruct (unreachable_class_is_denied Point_world
              (module_globals Point_world example_site)
              (new_Context Point_world "default") None Point)
    as (Hbox & Hget & Hconfigure).
  - apply lookup_singleton_eq.
  - apply lookup_empty.
  - apply lookup_empty.
  - vm_compute. reflexivity.
  - split; [exact Hbox|]. split.
    + apply (Hget 2 a_point None
               (VDict [(VStr "x", VTuple [VType py_int; VInt 5])])).
      * reflexivity.
      * vm_compute. reflexivity.
      * right. split; [done|]. by eexists.
    + apply (Hconfigure 0 (VDict []) VNone).
Defined.

(** ** Malformed and mistyped payloads *)

Lemma builtin_box_unboxed (w : World) (site : Traceback) (class_name : string)
    (type_ : pytype) (payload : value) :
  builtins_has w class_name type_ ->
  unbox_type w (module_globals w site) (box "builtins" class_name payload) None
  = Ok (type_, payload).
Proof.
  intros Hhas.
  rewrite (unbox_type_boxed w (module_globals w site) _ None
             (VStr "builtins") (VStr class_name) payload) by done.
  unfold get_context.
  replace (CONTEXTS (module_globals w site) !! None)
    with (Some (new_Context w "default")) by (symmetry; apply lookup_singleton_eq).
  cbn [mbind result_bind get_type_of_tag].
  by rewrite (builtin_resolved w "default" class_name type_ Hhas).
Qed.

(** A box tagged [builtins.list] or [builtins.tuple] must hold a list, and
    one tagged [builtins.dict] a dict or a list: any other payload fails the
    assertion of the decoder. *)
Theorem malformed_payload (w : World) (site : Traceback) (fuel : nat)
    (class_name : string) (type_ : pytype) (payload instance : value) :
  builtins_has w class_name type_ ->
  (type_ ∈ [py_list; py_tuple] /\ (forall xs, payload <> VList xs))
  \/ (type_ = py_dict /\ (forall xs, payload <> VList xs)
      /\ (forall items, payload <> VDict items)) ->
  configure w (module_globals w site) (S fuel) (box "builtins" class_name payload)
    instance None
  = Raise AssertionError.
Proof.
  intros Hhas Hcase. cbn [configure]. unfold configure_body.
  rewrite (builtin_box_unboxed w site class_name type_ payload Hhas).
  cbn [mbind result_bind].
  destruct Hcase as [[Hin Hlist]|(-> & Hlist & Hdict)].
  - assert (Configurable_class w type_ = None
            /\ CONFIGURE_REGISTRY (module_globals w site) !! type_ = Some configure_iterable)
      as [-> ->].
    { rewrite !elem_of_cons, elem_of_nil in Hin.
      destruct Hin as [->|[->|[]]]; split; vm_compute; reflexivity. }
    cbn [call_setter]. destruct payload; try done. by destruct (Hlist xs).
  - change (Configurable_class w py_dict) with (@None configurable_class).
    replace (CONFIGURE_REGISTRY (module_globals w site) !! py_dict)
      with (Some configure_mapping) by (vm_compute; reflexivity).
    cbn [call_setter]. destruct payload; try done.
    + by destruct (Hlist xs).
    + by destruct (Hdict items).
Qed.

Lemma malformed_payload_witness :
  configure example_world (module_globals example_world example_site) 1
    (box "builtins" "tuple" (VInt 5)) VNone None = Raise AssertionError.
Proof.
  apply (malformed_payload example_world example_site 0 "tuple" py_tuple (VInt 5) VNone).
  - apply example_builtins_has_tuple.
  - left. split; [by_computation|]. discriminate.
Defined.

(** The conversion at the end of [configure]: a payload boxed under the
    tag of bool, int, float or str comes back as it is when it is an
    instance of that class, and is otherwise handed to the class's
    constructor, whose result (or exception) is [configure]'s. *)
Theorem scalar_box_is_converted (w : World) (site : Traceback) (fuel : nat)
    (class_name : string) (type_ : pytype) (payload : value) :
  builtins_has w class_name type_ ->
  type_ ∈ [py_bool; py_int; py_float; py_str] ->
  configure w (module_globals w site) (S fuel) (box "builtins" class_name payload)
    VNone None
  = if isinstance w payload type_ then Ok payload
    else call_type w type_ [payload] [].
Proof.
  intros Hhas Hin. cbn [configure]. unfold configure_body.
  rewrite (builtin_box_unboxed w site class_name type_ payload Hhas).
  cbn [mbind result_bind].
  assert (Configurable_class w type_ = None
          /\ CONFIGURE_REGISTRY (module_globals w site) !! type_ = Some configure_simple
          /\ isinstance w VNone type_ = false) as (-> & -> & ->).
  { rewrite !elem_of_cons, elem_of_nil in Hin.
    destruct Hin as [->|[->|[->|[->|[]]]]]; repeat split; vm_compute; reflexivity. }
  cbn [call_setter].
  assert ((if py_eq payload VNone then Ok VNone else Ok payload) = Ok payload) as ->.
  { destruct (py_eq payload VNone) eqn:He; [|done]. by apply py_eq_None in He as ->. }
  cbn [mbind result_bind]. destruct (isinstance w payload type_); [done|].
  unfold convert. destruct payload; try done.
  rewrite !decide_False; [done|..].
  - rewrite !elem_of_cons, elem_of_nil in Hin. intros [->| ->];
      destruct Hin as [?|[?|[?|[?|[]]]]]; discriminate.
  - rewrite !elem_of_cons, elem_of_nil in Hin. intros ->.
    destruct Hin as [?|[?|[?|[?|[]]]]]; discriminate.
  - rewrite !elem_of_cons, elem_of_nil in Hin. intros ->.
    destruct Hin as [?|[?|[?|[?|[]]]]]; discriminate.
Qed.

Lemma scalar_box_is_converted_witness :
  configure example_world (module_globals example_world example_site) 1
    (box "builtins" "int" (VStr "5")) VNone None
  = (if isinstance example_world (VStr "5") py_int then Ok (VStr "5")
     else call_type example_world py_int [VStr "5"] []).
Proof.
  apply (scalar_box_is_converted example_world example_site 0 "int" py_int (VStr "5")).
  - by repeat split.
  - by_computation.
Defined.

(** ** Dictionaries with keys that are not strings *)

Lemma py_eq_simple_sym (a b : value) :
  simple_key a = true -> simple_key b = true -> py_eq a b = py_eq b a.
Proof.
  destruct a, b; try discriminate; intros _ _; simpl.
  - apply Z.eqb_sym.
  - done.
  - done.
  - apply String.eqb_sym.
Qed.

Lemma simple_key_Configuration (k : value) :
  simple_key k = true ->
  is_Configuration k = true /\ dicts_well_formed k = true
  /\ unboxed_throughout k = true /\ height k = 0%nat /\ hashable k = true.
Proof. by destruct k. Qed.

Lemma configure_pairs_distinct (w : World) (g : Globals)
    (rec : value -> value -> option string -> result value) (context : option string)
    (items : list (value * value)) :
  forall acc,
    Forall (fun kv => simple_key (fst kv) = true) acc ->
    Forall (fun kv => simple_key (fst kv) = true) items ->
    keys_distinct items = true ->
    (forall kv, kv ∈ items -> dict_get (fst kv) acc = None) ->
    (forall kv, kv ∈ items ->
                rec (fst kv) VNone context = Ok (fst kv)
                /\ rec (snd kv) VNone context = Ok (snd kv)) ->
    configure_pairs rec context acc (map (fun kv => VList [fst kv; snd kv]) items)
    = Ok (acc ++ items)%list.
Proof.
  induction items as [|[k v] rest IH]; intros acc Hacc Hkeys Hdist Hfresh Hrec;
    cbn [map configure_pairs].
  - by rewrite app_nil_r.
  - cbn [fst snd unpack_pair mbind result_bind].
    destruct (Hrec (k, v) ltac:(left)) as [Hk Hv]. cbn [fst snd] in Hk, Hv.
    rewrite Hk. cbn [mbind result_bind]. rewrite Hv. cbn [mbind result_bind].
    inversion Hkeys as [|? ? Hsimple Hkeys']; subst. cbn [fst] in Hsimple.
    destruct (simple_key_Configuration k Hsimple) as (_ & _ & _ & _ & Hhash).
    pose proof (Hfresh (k, v) ltac:(left)) as Hnew. cbn [fst] in Hnew.
    unfold dict_setitem. rewrite Hhash, Hnew. cbn [negb mbind result_bind].
    cbn [keys_distinct] in Hdist. apply andb_true_iff in Hdist as [Hk' Hdist].
    apply negb_true_iff in Hk'.
    rewrite IH; [by rewrite <- app_assoc|..|done| |].
    + apply Forall_app. split; [done|]. by constructor.
    + done.
    + intros [k' v'] Hin. cbn [fst]. rewrite dict_get_app.
      pose proof (Hfresh (k', v') ltac:(by right)) as Hold. cbn [fst] in Hold.
      rewrite Hold. cbn [dict_get].
      rewrite Forall_forall in Hkeys'. pose proof (Hkeys' _ Hin) as Hs'. cbn [fst] in Hs'.
      rewrite py_eq_simple_sym by done.
      destruct (py_eq k' k) eqn:E; [|done].
      assert (existsb (fun kv => py_eq (fst kv) k) rest = true) as Hex; [|congruence].
      apply existsb_exists. exists (k', v'). split; [by apply list_elem_of_In|done].
    + intros kv Hin. apply Hrec. by right.
Qed.

Section KeyedDict.
Variable w : World.
Variable site : Traceback.
Hypothesis Hdict : builtins_has w "dict" py_dict.
Variable items : list (value * value).
Hypothesis Hkeys : Forall (fun kv => simple_key (fst kv) = true) items.
Hypothesis Hint : forallb (fun kv => is_str (fst kv)) items = false.
Hypothesis Hdistinct : keys_distinct items = true.
Hypothesis Hvalues : Forall (fun kv => is_Configuration (snd kv) = true
                                       /\ dicts_well_formed (snd kv) = true
                                       /\ unboxed_throughout (snd kv) = true) items.

Lemma get_config_keyed_dict (fuel : nat) (context : option string) :
  (height (VDict items) < fuel)%nat ->
  get_config w (module_globals w site) fuel (VDict items) None context
  = Ok (box "builtins" "dict" (pairs_of items)).
Proof.
  intros Hh. destruct fuel as [|fuel]; [lia|].
  cbn [get_config]. unfold get_config_body, get_config_dispatch.
  change (Configurable_of w (VDict items)) with (@None configurable_class).
  replace (GET_CONFIG_REGISTRY (module_globals w site) !! type_of w (VDict items))
    with (Some get_mapping_config) by (vm_compute; reflexivity).
  cbn [call_getter]. rewrite Hint.
  rewrite (sequence_map_Ok _ (fun kv => VList [fst kv; snd kv])).
  - cbn [mbind result_bind type_of].
    rewrite (box_type_located w (module_globals w site) py_dict _ None
               (new_Context w "default") "builtins" "dict");
      [done | apply lookup_singleton_eq | by apply builtin_located].
  - intros [k v] Hin. cbn [fst snd].
    rewrite Forall_forall in Hkeys, Hvalues.
    pose proof (Hkeys _ Hin) as Hk. destruct (Hvalues _ Hin) as (Hc & Hwf & _).
    cbn [fst snd] in Hk, Hc, Hwf.
    destruct (simple_key_Configuration k Hk) as (Hkc & Hkwf & _ & Hkh & _).
    pose proof (height_item _ _ Hin) as Hle. cbn [height snd] in Hh, Hle.
    rewrite get_config_Configuration by (done || lia). cbn [mbind result_bind].
    by rewrite get_config_Configuration by (done || lia).
Qed.

Lemma configure_keyed_dict (fuel : nat) :
  (height (VDict items) < fuel)%nat ->
  configure w (module_globals w site) fuel (box "builtins" "dict" (pairs_of items))
    VNone None
  = Ok (VDict items).
Proof.
  intros Hh. destruct fuel as [|fuel]; [lia|].
  cbn [configure]. unfold configure_body.
  rewrite (builtin_box_unboxed w site "dict" py_dict _ Hdict).
  cbn [mbind result_bind].
  change (isinstance w VNone py_dict) with false. cbv iota.
  change (Configurable_class w py_dict) with (@None configurable_class).
  replace (CONFIGURE_REGISTRY (module_globals w site) !! py_dict)
    with (Some configure_mapping) by (vm_compute; reflexivity).
  unfold pairs_of. cbn [call_setter].
  rewrite (configure_pairs_distinct w (module_globals w site)); try done.
  intros [k v] Hin. cbn [fst snd].
  { rewrite Forall_forall in Hkeys, Hvalues.
    pose proof (Hkeys _ Hin) as Hk. destruct (Hvalues _ Hin) as (Hc & Hwf & Hu).
    cbn [fst snd] in Hk, Hc, Hwf, Hu.
    destruct (simple_key_Configuration k Hk) as (Hkc & Hkwf & Hku & Hkh & _).
    pose proof (height_item _ _ Hin) as Hle. cbn [height snd] in Hh, Hle.
    split; apply configure_Configuration; (done || lia). }
Qed.
End KeyedDict.



(** ** Decoding into an existing object *)

Lemma assoc_set_attr (a b : string) (v : value) (attrs : list (string * value)) :
  a <> b -> assoc a (set_attr b v attrs) = assoc a attrs.
Proof.
  intros Hne.
  assert (String.eqb a b = false) as Hab.
  { destruct (String.eqb a b) eqn:E; [|done]. by apply String.eqb_eq in E. }
  induction attrs as [|[a' v'] rest IH]; cbn [set_attr assoc].
  - by rewrite Hab.
  - destruct (String.eqb a' b) eqn:Eb.
    + apply String.eqb_eq in Eb as ->. cbn [assoc]. by rewrite Hab.
    + destruct (String.ltb b a'); cbn [assoc].
      * by rewrite Hab.
      * destruct (String.eqb a a'); [done|]. apply IH.
Qed.

(** The loop with which AutoConfigured.configure and
    WrapAutoConfig.configure update an object returns an object of the same
    class and identity, and leaves alone every attribute that is not a key
    of the configuration or that is unconfigured (private, for
    AutoConfigured's own test). *)
Theorem decode_updates_named_properties (w : World) (g : Globals)
    (rec : value -> value -> option string -> result value)
    (is_unconfigured : string -> bool) (property_type_of : string -> option pytype)
    (context : option string) (items : list (value * value))
    (cls : pytype) (oid : N) (attrs : list (string * value)) (r : value) :
  update_properties w g rec is_unconfigured property_type_of context items
    (VObj cls oid attrs) = Ok r ->
  exists attrs',
    r = VObj cls oid attrs'
    /\ forall a, VStr a ∉ map fst items \/ is_unconfigured a = true ->
                 assoc a attrs' = assoc a attrs.
Proof.
  revert attrs. induction items as [|[key property_config] rest IH]; intros attrs Hrun.
  - injection Hrun as <-. by exists attrs.
  - cbn [update_properties] in Hrun.
    apply bind_Ok in Hrun as (property_name & Hname & Hrun).
    destruct key; try discriminate. injection Hname as <-.
    assert (forall attrs1,
               update_properties w g rec is_unconfigured property_type_of context rest
                 (VObj cls oid attrs1) = Ok r ->
               (forall a, a <> s -> assoc a attrs1 = assoc a attrs) ->
               is_unconfigured s = false ->
               exists attrs',
                 r = VObj cls oid attrs'
                 /\ forall a, VStr a ∉ map fst ((VStr s, property_config) :: rest)
                              \/ is_unconfigured a = true ->
                              assoc a attrs' = assoc a attrs) as Hstep.
    { intros attrs1 Hrest Hsame Hs. destruct (IH attrs1 Hrest) as (attrs' & -> & Hrest').
      exists attrs'. split; [done|]. intros a Ha.
      assert (a <> s) as Hne.
      { intros ->. destruct Ha as [Ha|Ha]; [|congruence]. apply Ha. left. }
      rewrite Hrest', Hsame; [done..|].
      destruct Ha as [Ha|Ha]; [|by right]. left. intros Hin. apply Ha. by right. }
    destruct (is_unconfigured s) eqn:Hs.
    { destruct (IH attrs Hrun) as (attrs' & -> & Hrest'). exists attrs'. split; [done|].
      intros a Ha. apply Hrest'. destruct Ha as [Ha|Ha]; [|by right].
      left. intros Hin. apply Ha. by right. }
    apply bind_Ok in Hrun as (pc & _ & Hrun).
    apply bind_Ok in Hrun as (property_value & _ & Hrun).
    apply bind_Ok in Hrun as (instance' & Hinstance & Hrun).
    assert (instance' = VObj cls oid attrs
            \/ instance' = VObj cls oid (set_attr s property_value attrs)) as Hcases.
    { destruct (py_eq _ property_value).
      - destruct property_value; injection Hinstance as <-; auto.
      - unfold setattr in Hinstance. destruct (readonly_property w cls s).
        + destruct (Configurable_of w property_value); [|discriminate].
          injection Hinstance as <-. auto.
        + injection Hinstance as <-. auto. }
    destruct Hcases as [->| ->].
    + by apply (Hstep attrs Hrun).
    + apply (Hstep _ Hrun); [|done]. intros a Hne. by apply assoc_set_attr.
Qed.

Lemma decode_updates_named_properties_witness :
  exists attrs',
    VObj Point 1 (set_attr "x" (VInt 7) [("_secret", VInt 0); ("x", VInt 5); ("y", VInt 9)])
    = VObj Point 1 attrs'
    /\ forall a, VStr a ∉ map fst [(VStr "_secret", VInt 1); (VStr "x", VInt 7)]
                 \/ startswith_underscore a = true ->
                 assoc a attrs' = assoc a [("_secret", VInt 0); ("x", VInt 5); ("y", VInt 9)].
Proof.
  apply (decode_updates_named_properties Point_world Point_globals
           (configure Point_world Point_globals 2) startswith_underscore
           (fun _ => None) None [(VStr "_secret", VInt 1); (VStr "x", VInt 7)]
           Point 1 [("_secret", VInt 0); ("x", VInt 5); ("y", VInt 9)]).
  vm_compute. reflexivity.
Defined.

(** ** Encoding an AutoConfigured object and decoding into it *)

Section AutoConfiguredRoundTrip.
Variable w : World.
Variable g : Globals.
Hypothesis Hhooks : scalar_hooks w g.

Lemma get_config_scalar (fuel : nat) (v : value) (context : option string) :
  is_scalar v = true ->
  get_config w g (S fuel) v None context = Ok v.
Proof.
  intros Hs. cbn [get_config]. unfold get_config_body, get_config_dispatch.
  replace (Configurable_of w v) with (@None configurable_class) by by destruct v.
  destruct (Hhooks v Hs) as [-> _]. done.
Qed.

Lemma configure_scalar_same (fuel : nat) (v : value) (context : option string) :
  is_scalar v = true ->
  configure w g (S fuel) v v context = Ok v.
Proof.
  intros Hs. cbn [configure]. unfold configure_body.
  rewrite unbox_type_unboxed by by destruct v.
  cbn [mbind result_bind]. rewrite isinstance_own_type.
  replace (Configurable_class w (type_of w v)) with (@None configurable_class)
    by by destruct v.
  destruct (Hhooks v Hs) as [_ ->]. cbn [call_setter].
  destruct (py_eq v v); cbn [mbind result_bind]; by rewrite isinstance_own_type.
Qed.

Variable is_unconfigured : string -> bool.
Variable property_type_of : string -> option pytype.
Variable context : option string.
Variable obj : value.
Hypothesis Hprops : scalar_properties w is_unconfigured property_type_of obj.

Lemma dict_setitem_str_elems (a : string) (v : value) (items items' : list (value * value)) :
  dict_setitem (VStr a) v items = Ok items' ->
  forall kv, kv ∈ items' -> kv ∈ items \/ kv = (VStr a, v).
Proof.
  unfold dict_setitem. cbn [hashable negb]. destruct (dict_get (VStr a) items).
  - intros [= <-]. clear. induction items as [|[k x] rest IH]; cbn [dict_replace].
    + intros kv Hin. by apply elem_of_nil in Hin.
    + destruct (py_eq k (VStr a)) eqn:E.
      * apply py_eq_str in E as ->. intros kv [->|Hin]%elem_of_cons; [by right|].
        left. by right.
      * intros kv [->|Hin]%elem_of_cons; [left; left|].
        destruct (IH kv Hin) as [?|?]; [left; by right|by right].
  - intros [= <-] kv [Hin|Hin]%elem_of_app; [by left|]. right.
    by apply list_elem_of_singleton in Hin.
Qed.

Lemma properties_config_stored (fuel : nat) (names : list string) :
  forall acc,
    (forall a, a ∈ names -> a ∈ dir_value w obj) ->
    stored w is_unconfigured obj acc ->
    exists config,
      properties_config w g (get_config w g (S fuel)) is_unconfigured property_type_of
        obj context names acc = Ok config
      /\ stored w is_unconfigured obj config.
Proof.
  induction names as [|a rest IH]; intros acc Hnames Hacc; cbn [properties_config].
  - by exists acc.
  - assert (forall a', a' ∈ rest -> a' ∈ dir_value w obj) as Hrest.
    { intros a' Hin. apply Hnames. by right. }
    destruct (is_unconfigured a) eqn:Hu; [by apply IH|].
    destruct (callable (getattr_default_None w obj a)
              && negb (is_type_object (getattr_default_None w obj a))) eqn:Hcall;
      [by apply IH|].
    assert (is_encoded w is_unconfigured obj a) as Henc by by split.
    destruct (Hprops a (Hnames a ltac:(left)) Henc) as (Hp & Hs & _).
    rewrite (get_config_scalar fuel _ context Hs). cbn [mbind result_bind]. rewrite Hp.
    cbn [mbind result_bind].
    destruct (dict_setitem_str a (getattr_default_None w obj a) acc) as (acc' & Hset & _).
    rewrite Hset. cbn [mbind result_bind]. apply IH; [done|].
    intros kv Hin. destruct (dict_setitem_str_elems _ _ _ _ Hset kv Hin) as [? | ->].
    + by apply Hacc.
    + exists a. split; [done|]. split; [apply Hnames; left|]. by split.
Qed.

Lemma update_properties_stored (fuel : nat) (items : list (value * value)) :
  stored w is_unconfigured obj items ->
  update_properties w g (configure w g (S fuel)) is_unconfigured property_type_of context
    items obj = Ok obj.
Proof.
  induction items as [|[k x] rest IH]; intros Hstored; cbn [update_properties]; [done|].
  destruct (Hstored (k, x) ltac:(left)) as (a & Hk & Hdir & Henc & Hx).
  cbn [fst snd] in Hk, Hx. subst k x. cbn [mbind result_bind].
  pose proof Henc as [Hu _]. rewrite Hu.
  destruct (Hprops a Hdir Henc) as (Hp & Hs & Heq). rewrite Hp.
  cbn [mbind result_bind].
  rewrite (configure_scalar_same fuel _ context Hs). cbn [mbind result_bind].
  rewrite Heq.
  assert ((match obj, getattr_default_None w obj a with
           | VObj cls oid attrs, VObj _ _ _ =>
               Ok (VObj cls oid (set_attr a (getattr_default_None w obj a) attrs))
           | _, _ => Ok obj
           end) = Ok obj) as ->.
  { destruct obj; try done. by destruct (getattr_default_None _ _ a). }
  cbn [mbind result_bind]. apply IH. intros kv Hin. apply Hstored. by right.
Qed.
End AutoConfiguredRoundTrip.



(** ** Datetimes *)

Lemma datetime_resolved (w : World) (name_ class_name : string) (type_ : pytype) :
  datetime_has w class_name type_ ->
  get_type w (new_Context w name_) "datetime" class_name false = Ok type_.
Proof.
  intros (Hloaded & Hattr & Hpublic).
  apply (get_type_accessible w _ _ _ _ _ (datetime w));
    [apply lookup_empty | | unfold import_module; by rewrite Hloaded | done].
  destruct (new_Context_class_access w name_ "datetime" class_name false)
    as (allowed & -> & Hallowed).
  f_equal. apply Hallowed. right. left. split; [done|].
  unfold public_type_names. apply list_elem_of_fmap. exists (class_name, VType type_).
  split; [done|]. apply list_elem_of_filter. split; [|by apply assoc_elem].
  by rewrite Hpublic.
Qed.

(** In a world whose [datetime] module has the class, a datetime is encoded
    as its text under the default format, with the format beside it, in a
    box tagged [datetime.datetime]; decoding that box gives what
    [strptime] reads back from the text, so the round trip returns the
    datetime when parsing inverts formatting for it. *)
Theorem datetime_round_trip (w : World) (site : Traceback) (dt dt' : Z) (fuel : nat) :
  datetime_has w "datetime" py_datetime ->
  strptime w (strftime w dt DEFAULT_DATETIME_FORMAT) DEFAULT_DATETIME_FORMAT = Ok dt' ->
  get_config w (module_globals w site) (S fuel) (VDatetime dt) None None
  = Ok (box "datetime" "datetime" (datetime_config w dt))
  /\ round_trip w (module_globals w site) (S fuel) (VDatetime dt) = Ok (VDatetime dt').
Proof.
  intros Hhas Hparse.
  assert (get_config w (module_globals w site) (S fuel) (VDatetime dt) None None
          = Ok (box "datetime" "datetime" (datetime_config w dt))) as Hget.
  { cbn [get_config]. unfold get_config_body, get_config_dispatch.
    change (Configurable_of w (VDatetime dt)) with (@None configurable_class).
    change (GET_CONFIG_REGISTRY (module_globals w site) !! type_of w (VDatetime dt))
      with (GET_CONFIG_REGISTRY (module_globals w site) !! py_datetime).
    replace (GET_CONFIG_REGISTRY (module_globals w site) !! py_datetime)
      with (Some (config_type_boxer py_datetime get_datetime_config))
      by (vm_compute; reflexivity).
    cbn [call_getter mbind result_bind].
    rewrite (box_type_located w (module_globals w site) py_datetime _ None
               (new_Context w "default") "datetime" "datetime");
      [done | apply lookup_singleton_eq |].
    unfold locate. cbn [location_map new_Context]. rewrite lookup_empty.
    cbn [ty_module ty_name py_datetime].
    rewrite (datetime_resolved w "default" "datetime" _ Hhas). cbn.
    by rewrite bool_decide_eq_true_2. }
  split; [done|]. unfold round_trip. rewrite Hget. cbn [mbind result_bind].
  cbn [configure]. unfold configure_body.
  rewrite (unbox_type_boxed w (module_globals w site) _ None
             (VStr "datetime") (VStr "datetime") (datetime_config w dt)) by done.
  unfold get_context.
  replace (CONTEXTS (module_globals w site) !! None)
    with (Some (new_Context w "default")) by (symmetry; apply lookup_singleton_eq).
  cbn [mbind result_bind get_type_of_tag].
  rewrite (datetime_resolved w "default" "datetime" py_datetime Hhas).
  cbn [mbind result_bind].
  change (isinstance w VNone py_datetime) with false. cbv iota.
  change (Configurable_class w py_datetime) with (@None configurable_class).
  replace (CONFIGURE_REGISTRY (module_globals w site) !! py_datetime)
    with (Some configure_datetime) by (vm_compute; reflexivity).
  cbn [call_setter mbind result_bind]. unfold datetime_config, kwargs_dict.
  cbn. rewrite Hparse. cbn.
  replace (isinstance w (VDatetime dt') py_datetime) with true; [done|].
  symmetry. apply isinstance_own_type.
Qed.

Lemma datetime_round_trip_witness :
  get_config Clock_world (module_globals Clock_world example_site) 1 (VDatetime 0) None None
  = Ok (box "datetime" "datetime" (datetime_config Clock_world 0))
  /\ round_trip Clock_world (module_globals Clock_world example_site) 1 (VDatetime 0)
     = Ok (VDatetime 0).
Proof.
  apply (datetime_round_trip Clock_world example_site 0 0 0).
  - by repeat split.
  - reflexivity.
Defined.
